(** * Draftail content normalisation: [src/lib/api/normalize.js]

    A shallow embedding of the five filters of [normalize.js] and of their
    composition [filterEditorState], together with the properties of the
    sanitised content.

    Draft.js values are immutable records, so every filter is a function from
    editor states to editor states.  [ContentState.getEntity] raises on an
    unknown entity key: the two filters that call it return an [option], where
    [None] stands for the raised exception. *)

From Stdlib Require Import ZArith String List Bool Lia.
From stdpp Require Import base option list strings gmap.
Import ListNotations.

Local Open Scope string_scope.

(** ** Constants *)

(** Modelled from the spec: the module [../api/constants] imported by
    [normalize.js] is not part of the sources.  [BLOCK_TYPE] holds the
    Draft.js core block types, of which the filters use the plain/unstyled
    type and the atomic type. *)
Module BLOCK_TYPE.
Definition UNSTYLED : string := "unstyled".
Definition ATOMIC : string := "atomic".
End BLOCK_TYPE.

(** Modelled from the spec: the module [../api/constants] imported by
  [normalize.js] is not part of the sources.  [ENTITY_TYPE] holds the entity
  types of the editor, of which the filters use the image type and the
  horizontal-rule type. *)
Module ENTITY_TYPE.
Definition IMAGE : string := "IMAGE".
Definition HORIZONTAL_RULE : string := "HORIZONTAL_RULE".
End ENTITY_TYPE.

(** ** JavaScript primitives used by the filters *)

(** [Array.prototype.includes] on an array of strings. *)
Definition includes (xs : list string) (x : string) : bool :=
  existsb (String.eqb x) xs.

(** Truthiness of a nullable string, as tested by [if (entityKey)]: [null]
    and the empty string are falsy. *)
Definition truthy (k : option string) : bool :=
  match k with
  | Some s => negb (String.eqb s "")
  | None => false
  end.

(** The result of a predicate that may raise, read as a filter decision. *)
Definition returnsTrue (o : option bool) : bool :=
  match o with
  | Some true => true
  | _ => false
  end.

(** Whether a computation that may raise returned. *)
Definition succeeds {A : Type} (o : option A) : bool :=
  match o with
  | Some _ => true
  | None => false
  end.

(** ** Immutable.js [OrderedMap] with string keys

    An insertion-ordered map is the list of its entries; a well-formed map has
    no two entries with the same key ([OrderedMap.wf]). *)
Module OrderedMap.
Section ops.
Context {V : Type}.

Definition keys (m : list (string * V)) : list string := List.map fst m.

Definition wf (m : list (string * V)) : Prop := NoDup (keys m).

Fixpoint get (k : string) (m : list (string * V)) : option V :=
  match m with
  | [] => None
  | (k', v) :: r => if String.eqb k k' then Some v else get k r
  end.

(** [set] replaces the value of an existing key in place, and appends a
    new key at the end. *)
Fixpoint set (k : string) (v : V) (m : list (string * V)) : list (string * V) :=
  match m with
  | [] => [(k, v)]
  | (k', v') :: r =>
      if String.eqb k k' then (k, v) :: r else (k', v') :: set k v r
  end.

(** [merge] sets every entry of [other], in order. *)
Definition merge (m other : list (string * V)) : list (string * V) :=
  fold_left (fun acc kv => set kv.1 kv.2 acc) other m.

Definition filter (p : V -> bool) (m : list (string * V)) : list (string * V) :=
  List.filter (fun kv => p kv.2) m.

Definition map (f : V -> V) (m : list (string * V)) : list (string * V) :=
  List.map (fun kv => (kv.1, f kv.2)) m.

Definition size (m : list (string * V)) : nat := length m.

Definition values (m : list (string * V)) : list V := List.map snd m.

(** A [filter] whose predicate may raise. *)
Fixpoint filterM (p : V -> option bool) (m : list (string * V))
  : option (list (string * V)) :=
  match m with
  | [] => Some []
  | kv :: r =>
      match p kv.2 with
      | None => None
      | Some b =>
          match filterM p r with
          | None => None
          | Some r' => Some (if b then kv :: r' else r')
          end
      end
  end.

(** A [map] whose function may raise. *)
Fixpoint mapM (f : V -> option V) (m : list (string * V))
  : option (list (string * V)) :=
  match m with
  | [] => Some []
  | kv :: r =>
      match f kv.2 with
      | None => None
      | Some v =>
          match mapM f r with
          | None => None
          | Some r' => Some ((kv.1, v) :: r')
          end
      end
  end.
End ops.
End OrderedMap.

(** ** Draft.js data model *)

(** [CharacterMetadata]: the inline styles (an ordered set) and the entity
    key (nullable) of one character. *)
Record CharacterMetadata : Type := mkChar {
  getStyle : list string;
  getEntity : option string
}.

(** [ContentBlock]. *)
Record ContentBlock : Type := mkBlock {
  getKey : string;
  getType : string;
  getText : string;
  getCharacterList : list CharacterMetadata;
  getDepth : Z;
  getData : list (string * string)
}.

(** An entity of the registry; only its type is read by the filters. *)
Record DraftEntityInstance : Type := mkEntity {
  entityType : string;
  entityMutability : string;
  entityData : list (string * string)
}.

(** [ContentState]: the block map and the entity registry. *)
Record ContentState : Type := mkContent {
  getBlockMap : list (string * ContentBlock);
  getEntityMap : gmap string DraftEntityInstance
}.

(** [EditorState]: the filters read and replace [currentContent] only. *)
Record EditorState : Type := mkEditor {
  getCurrentContent : ContentState
}.

(** A block, inline style or entity type of the editor configuration; the
    filters read its [type]. *)
Record TypeDescriptor : Type := mkDescriptor {
  type : string;
  description : string
}.

(** Record updates: [block.set('depth', d)], [block.set('type', t)],
    [block.set('characterList', chars)], [block.merge({text, characterList})]. *)
Definition setDepth (d : Z) (b : ContentBlock) : ContentBlock :=
  mkBlock (getKey b) (getType b) (getText b) (getCharacterList b) d (getData b).

Definition setType (t : string) (b : ContentBlock) : ContentBlock :=
  mkBlock (getKey b) t (getText b) (getCharacterList b) (getDepth b) (getData b).

Definition setCharacterList (cs : list CharacterMetadata) (b : ContentBlock)
  : ContentBlock :=
  mkBlock (getKey b) (getType b) (getText b) cs (getDepth b) (getData b).

Definition mergeTextAndCharacterList (t : string) (cs : list CharacterMetadata)
    (b : ContentBlock) : ContentBlock :=
  mkBlock (getKey b) (getType b) t cs (getDepth b) (getData b).

(** [block.getEntityAt(offset)]. *)
Definition getEntityAt (offset : nat) (b : ContentBlock) : option string :=
  match nth_error (getCharacterList b) offset with
  | Some c => getEntity c
  | None => None
  end.

(** [CharacterMetadata.removeStyle] and [CharacterMetadata.applyEntity]. *)
Definition removeStyle (c : CharacterMetadata) (style : string) : CharacterMetadata :=
  mkChar (List.filter (fun s => negb (String.eqb s style)) (getStyle c)) (getEntity c).

Definition applyEntity (c : CharacterMetadata) (k : option string) : CharacterMetadata :=
  mkChar (getStyle c) k.

(** [content.getEntity(key)], which raises on an unknown key. *)
Definition contentGetEntity (content : ContentState) (k : string)
  : option DraftEntityInstance :=
  getEntityMap content !! k.

(** [EditorState.set(editorState, {currentContent: content.merge({blockMap})})]. *)
Definition setBlockMap (editorState : EditorState)
    (blockMap : list (string * ContentBlock)) : EditorState :=
  mkEditor (mkContent blockMap (getEntityMap (getCurrentContent editorState))).

(** ** The filters of [normalize.js] *)

(** A [List.map] whose callback may assign the local flag [altered]: the flag
    is threaded through the calls, left to right. *)
Fixpoint mapAltered {A : Type} (f : bool -> A -> bool * A) (altered : bool)
    (l : list A) : bool * list A :=
  match l with
  | [] => (altered, [])
  | x :: r =>
      let '(altered1, y) := f altered x in
      let '(altered2, r') := mapAltered f altered1 r in
      (altered2, y :: r')
  end.

(** The same, for a callback that may raise. *)
Fixpoint mapAlteredM {A : Type} (f : bool -> A -> option (bool * A))
    (altered : bool) (l : list A) : option (bool * list A) :=
  match l with
  | [] => Some (altered, [])
  | x :: r =>
      match f altered x with
      | None => None
      | Some (altered1, y) =>
          match mapAlteredM f altered1 r with
          | None => None
          | Some (altered2, r') => Some (altered2, y :: r')
          end
      end
  end.

(** Resets the depth of all the content to at most [maxListNesting]. *)
Definition resetBlockDepth (editorState : EditorState) (maxListNesting : Z)
  : EditorState :=
  let content := getCurrentContent editorState in
  let blockMap := getBlockMap content in
  let changedBlocks :=
    OrderedMap.map (setDepth maxListNesting)
      (OrderedMap.filter (fun block => (getDepth block >? maxListNesting)%Z)
         blockMap) in
  if negb (OrderedMap.size changedBlocks =? 0)%nat
  then setBlockMap editorState (OrderedMap.merge blockMap changedBlocks)
  else editorState.

(** Resets all blocks that use unavailable types to unstyled. *)
Definition resetBlockType (editorState : EditorState) (enabledTypes : list string)
  : EditorState :=
  let content := getCurrentContent editorState in
  let blockMap := getBlockMap content in
  let changedBlocks :=
    OrderedMap.map (setType BLOCK_TYPE.UNSTYLED)
      (OrderedMap.filter (fun block => negb (includes enabledTypes (getType block)))
         blockMap) in
  if negb (OrderedMap.size changedBlocks =? 0)%nat
  then setBlockMap editorState (OrderedMap.merge blockMap changedBlocks)
  else editorState.

(** The callback of [filterInlineStyle] on one character: every style that is
    not enabled is removed from [newChar], and sets [altered]. *)
Definition filterInlineStyleChar (enabledTypes : list string) (altered : bool)
    (char : CharacterMetadata) : bool * CharacterMetadata :=
  fold_left (fun st type => (true, removeStyle st.2 type))
    (List.filter (fun type => negb (includes enabledTypes type)) (getStyle char))
    (altered, char).

Definition filterInlineStyleBlock (enabledTypes : list string)
    (block : ContentBlock) : ContentBlock :=
  let '(altered, chars) :=
    mapAltered (filterInlineStyleChar enabledTypes) false
      (getCharacterList block) in
  if altered then setCharacterList chars block else block.

(** Removes all styles that use unavailable types. *)
Definition filterInlineStyle (editorState : EditorState)
    (enabledTypes : list string) : EditorState :=
  let content := getCurrentContent editorState in
  let blockMap := getBlockMap content in
  let blocks := OrderedMap.map (filterInlineStyleBlock enabledTypes) blockMap in
  setBlockMap editorState (OrderedMap.merge blockMap blocks).

(** The first [filter] and [map] of [resetAtomicBlocks]. *)
Definition needsNormalising (block : ContentBlock) : bool :=
  String.eqb (getType block) BLOCK_TYPE.ATOMIC
  && negb (String.eqb (getText block) " ").

Definition normaliseBlock (block : ContentBlock) : ContentBlock :=
  mergeTextAndCharacterList " " (firstn 1 (getCharacterList block)) block.

Definition isAtomic (block : ContentBlock) : bool :=
  String.eqb (getType block) BLOCK_TYPE.ATOMIC.

(** The predicate of the third [filter] of [resetAtomicBlocks]. *)
Definition shouldReset (content : ContentState) (enabledTypes : list string)
    (block : ContentBlock) : option bool :=
  let entityKey := getEntityAt 0 block in
  match entityKey with
  | Some k =>
      if truthy entityKey then
        match contentGetEntity content k with
        | None => None
        | Some entity => Some (negb (includes enabledTypes (entityType entity)))
        end
      else Some false
  | None => Some false
  end.

(** Resets atomic blocks to unstyled based on which entity types are enabled,
    and also normalises block text to a single "space" character. *)
Definition resetAtomicBlocks (editorState : EditorState)
    (enabledTypes : list string) : option EditorState :=
  let content := getCurrentContent editorState in
  let blockMap := getBlockMap content in
  let blocks := blockMap in
  let normalisedBlocks :=
    OrderedMap.map normaliseBlock (OrderedMap.filter needsNormalising blocks) in
  let blocks :=
    if negb (OrderedMap.size normalisedBlocks =? 0)%nat
    then OrderedMap.merge blockMap normalisedBlocks
    else blocks in
  match OrderedMap.filterM (shouldReset content enabledTypes)
          (OrderedMap.filter isAtomic blocks) with
  | None => None
  | Some toReset =>
      let resetBlocks := OrderedMap.map (setType BLOCK_TYPE.UNSTYLED) toReset in
      let blocks :=
        if negb (OrderedMap.size resetBlocks =? 0)%nat
        then OrderedMap.merge blockMap resetBlocks
        else blocks in
      Some (setBlockMap editorState (OrderedMap.merge blockMap blocks))
  end.

(** The callback of [filterEntityType] on one character of a block of type
    [blockType]. *)
Definition filterEntityTypeChar (content : ContentState)
    (enabledTypes : list string) (blockType : string) (altered : bool)
    (char : CharacterMetadata) : option (bool * CharacterMetadata) :=
  let entityKey := getEntity char in
  match entityKey with
  | Some k =>
      if truthy entityKey then
        match contentGetEntity content k with
        | None => None
        | Some entity =>
            let entityType := entityType entity in
            let shouldFilter := negb (includes enabledTypes entityType) in
            let shouldFilterImage :=
              String.eqb entityType ENTITY_TYPE.IMAGE
              && negb (String.eqb blockType BLOCK_TYPE.ATOMIC) in
            if shouldFilter || shouldFilterImage
            then Some (true, applyEntity char None)
            else Some (altered, char)
        end
      else Some (altered, char)
  | None => Some (altered, char)
  end.

Definition filterEntityTypeBlock (content : ContentState)
    (enabledTypes : list string) (block : ContentBlock) : option ContentBlock :=
  let blockType := getType block in
  match mapAlteredM (filterEntityTypeChar content enabledTypes blockType) false
          (getCharacterList block) with
  | None => None
  | Some (altered, chars) =>
      Some (if altered then setCharacterList chars block else block)
  end.

(** Reset all entity types (images, links, documents, embeds) that are
    unavailable. *)
Definition filterEntityType (editorState : EditorState)
    (enabledTypes : list string) : option EditorState :=
  let content := getCurrentContent editorState in
  let blockMap := getBlockMap content in
  match OrderedMap.mapM (filterEntityTypeBlock content enabledTypes) blockMap with
  | None => None
  | Some blocks =>
      Some (setBlockMap editorState (OrderedMap.merge blockMap blocks))
  end.

(** The allow-lists derived from the configuration by [filterEditorState]. *)
Definition enabledBlockTypesOf (blockTypes : list TypeDescriptor) : list string :=
  List.map type blockTypes ++ [BLOCK_TYPE.UNSTYLED; BLOCK_TYPE.ATOMIC].

Definition enabledInlineStylesOf (inlineStyles : list TypeDescriptor)
  : list string :=
  List.map type inlineStyles.

Definition enabledEntityTypesOf (enableHorizontalRule : bool)
    (entityTypes : list TypeDescriptor) : list string :=
  let enabledEntityTypes := List.map type entityTypes in
  if enableHorizontalRule
  then enabledEntityTypes ++ [ENTITY_TYPE.HORIZONTAL_RULE]
  else enabledEntityTypes.

(** Applies whitelist and blacklist operations to the editor content. *)
Definition filterEditorState (editorState : EditorState) (maxListNesting : Z)
    (enableHorizontalRule : bool)
    (blockTypes inlineStyles entityTypes : list TypeDescriptor)
  : option EditorState :=
  let nextEditorState := editorState in
  let enabledBlockTypes := enabledBlockTypesOf blockTypes in
  let enabledInlineStyles := enabledInlineStylesOf inlineStyles in
  let enabledEntityTypes :=
    enabledEntityTypesOf enableHorizontalRule entityTypes in
  let nextEditorState := resetBlockDepth nextEditorState maxListNesting in
  let nextEditorState := resetBlockType nextEditorState enabledBlockTypes in
  let nextEditorState := filterInlineStyle nextEditorState enabledInlineStyles in
  match resetAtomicBlocks nextEditorState enabledEntityTypes with
  | None => None
  | Some nextEditorState => filterEntityType nextEditorState enabledEntityTypes
  end.

(** ** What each filter does to one block

    The filters read the content through the entity registry only, which they
    never change: the functions below take the registry itself. *)

Definition blockMapOf (editorState : EditorState) : list (string * ContentBlock) :=
  getBlockMap (getCurrentContent editorState).

Definition entityMapOf (editorState : EditorState)
  : gmap string DraftEntityInstance :=
  getEntityMap (getCurrentContent editorState).

Definition blocksOf (editorState : EditorState) : list ContentBlock :=
  OrderedMap.values (blockMapOf editorState).

Definition clampDepth (maxListNesting : Z) (block : ContentBlock) : ContentBlock :=
  if (getDepth block >? maxListNesting)%Z
  then setDepth maxListNesting block else block.

Definition demoteType (enabledTypes : list string) (block : ContentBlock)
  : ContentBlock :=
  if negb (includes enabledTypes (getType block))
  then setType BLOCK_TYPE.UNSTYLED block else block.

Definition keepStyles (enabledTypes : list string) (char : CharacterMetadata)
  : CharacterMetadata :=
  mkChar (List.filter (includes enabledTypes) (getStyle char)) (getEntity char).

Definition styleStep (enabledTypes : list string) (block : ContentBlock)
  : ContentBlock :=
  setCharacterList
    (List.map (keepStyles enabledTypes) (getCharacterList block)) block.

Definition normalise (block : ContentBlock) : ContentBlock :=
  if needsNormalising block then normaliseBlock block else block.

(** The type of the entity of a truthy, registered key is not enabled. *)
Definition disabledEntity (entityMap : gmap string DraftEntityInstance)
    (enabledTypes : list string) (k : option string) : bool :=
  match k with
  | Some s =>
      truthy k
      && match entityMap !! s with
         | Some entity => negb (includes enabledTypes (entityType entity))
         | None => false
         end
  | None => false
  end.

(** The block is one of the [resetBlocks] of [resetAtomicBlocks]. *)
Definition demoted (entityMap : gmap string DraftEntityInstance)
    (enabledTypes : list string) (block : ContentBlock) : bool :=
  isAtomic block && disabledEntity entityMap enabledTypes (getEntityAt 0 block).

(** The block written by [resetAtomicBlocks]; [anyDemoted] tells whether
    [resetBlocks] is not empty. *)
Definition atomicStep (entityMap : gmap string DraftEntityInstance)
    (enabledTypes : list string) (anyDemoted : bool) (block : ContentBlock)
  : ContentBlock :=
  if anyDemoted
  then (if demoted entityMap enabledTypes block
        then setType BLOCK_TYPE.UNSTYLED (normalise block) else block)
  else normalise block.

(** Whether [filterEntityType] clears the entity of a character. *)
Definition shouldClear (entityMap : gmap string DraftEntityInstance)
    (enabledTypes : list string) (blockType : string) (char : CharacterMetadata)
  : bool :=
  match getEntity char with
  | Some k =>
      truthy (Some k)
      && match entityMap !! k with
         | Some entity =>
             negb (includes enabledTypes (entityType entity))
             || (String.eqb (entityType entity) ENTITY_TYPE.IMAGE
                 && negb (String.eqb blockType BLOCK_TYPE.ATOMIC))
         | None => false
         end
  | None => false
  end.

Definition clearChar (entityMap : gmap string DraftEntityInstance)
    (enabledTypes : list string) (blockType : string) (char : CharacterMetadata)
  : CharacterMetadata :=
  if shouldClear entityMap enabledTypes blockType char
  then applyEntity char None else char.

Definition entityStep (entityMap : gmap string DraftEntityInstance)
    (enabledTypes : list string) (block : ContentBlock) : ContentBlock :=
  setCharacterList
    (List.map (clearChar entityMap enabledTypes (getType block))
       (getCharacterList block))
    block.

(** A truthy entity key resolves when the registry has an entity for it;
    [content.getEntity] raises on the keys that do not resolve. *)
Definition resolves (entityMap : gmap string DraftEntityInstance)
    (k : option string) : bool :=
  match k with
  | Some s => if truthy k then succeeds (entityMap !! s) else true
  | None => true
  end.

(** The entity lookup of [resetAtomicBlocks] on a block returns. *)
Definition atomicResolves (entityMap : gmap string DraftEntityInstance)
    (block : ContentBlock) : bool :=
  negb (isAtomic block) || resolves entityMap (getEntityAt 0 block).

(** Every entity lookup of [filterEntityType] on a block returns. *)
Definition blockResolves (entityMap : gmap string DraftEntityInstance)
    (block : ContentBlock) : bool :=
  forallb (fun char => resolves entityMap (getEntity char))
    (getCharacterList block).

(** The first three filters on one block, and all five. *)
Definition firstSteps (maxListNesting : Z)
    (enabledBlockTypes enabledInlineStyles : list string)
    (block : ContentBlock) : ContentBlock :=
  styleStep enabledInlineStyles
    (demoteType enabledBlockTypes (clampDepth maxListNesting block)).

Definition pipelineStep (entityMap : gmap string DraftEntityInstance)
    (maxListNesting : Z)
    (enabledBlockTypes enabledInlineStyles enabledEntityTypes : list string)
    (anyDemoted : bool) (block : ContentBlock) : ContentBlock :=
  entityStep entityMap enabledEntityTypes
    (atomicStep entityMap enabledEntityTypes anyDemoted
       (firstSteps maxListNesting enabledBlockTypes enabledInlineStyles block)).

(** ** The properties of a sanitised content *)

(** Depth bound. *)
Definition depthBound (maxListNesting : Z) (editorState : EditorState) : Prop :=
  Forall (fun block => (getDepth block <= maxListNesting)%Z)
    (blocksOf editorState).

(** The allowed block types: those of the configuration, and the two that
    are always allowed. *)
Definition allowedBlockType (blockTypes : list TypeDescriptor) (t : string)
  : Prop :=
  t ∈ List.map type blockTypes
  \/ t = BLOCK_TYPE.UNSTYLED \/ t = BLOCK_TYPE.ATOMIC.

(** Type closure. *)
Definition typeClosure (blockTypes : list TypeDescriptor)
    (editorState : EditorState) : Prop :=
  Forall (fun block => allowedBlockType blockTypes (getType block))
    (blocksOf editorState).

(** Style closure. *)
Definition styleClosure (inlineStyles : list TypeDescriptor)
    (editorState : EditorState) : Prop :=
  Forall (fun block =>
    Forall (fun char =>
      forall style, style ∈ getStyle char -> style ∈ List.map type inlineStyles)
      (getCharacterList block))
    (blocksOf editorState).

(** The effective allowed entity types: those of the configuration, and the
    horizontal rule if and only if it is enabled. *)
Definition effectiveEntityType (enableHorizontalRule : bool)
    (entityTypes : list TypeDescriptor) (t : string) : Prop :=
  t ∈ List.map type entityTypes
  \/ (enableHorizontalRule = true /\ t = ENTITY_TYPE.HORIZONTAL_RULE).

(** The character carries the non-empty entity key [k]. *)
Definition carriesKey (char : CharacterMetadata) (k : string) : Prop :=
  getEntity char = Some k /\ k <> "".

(** The character references the entity [entity] of the registry. *)
Definition references (entityMap : gmap string DraftEntityInstance)
    (char : CharacterMetadata) (entity : DraftEntityInstance) : Prop :=
  exists k, carriesKey char k /\ entityMap !! k = Some entity.

(** Entity closure. *)
Definition entityClosure (enableHorizontalRule : bool)
    (entityTypes : list TypeDescriptor) (editorState : EditorState) : Prop :=
  Forall (fun block =>
    Forall (fun char =>
      forall k, carriesKey char k ->
        exists entity,
          entityMapOf editorState !! k = Some entity
          /\ effectiveEntityType enableHorizontalRule entityTypes
               (entityType entity))
      (getCharacterList block))
    (blocksOf editorState).

(** Image containment. *)
Definition imageContainment (editorState : EditorState) : Prop :=
  Forall (fun block =>
    getType block <> BLOCK_TYPE.ATOMIC ->
    Forall (fun char =>
      forall entity,
        references (entityMapOf editorState) char entity ->
        entityType entity <> ENTITY_TYPE.IMAGE)
      (getCharacterList block))
    (blocksOf editorState).

(** Atomic shape of one block and of a content: the text of an atomic block
    is the placeholder character, with one character-metadata entry. *)
Definition atomicShapeBlock (block : ContentBlock) : Prop :=
  getType block = BLOCK_TYPE.ATOMIC ->
  getText block = " " /\ String.length (getText block) = 1
  /\ length (getCharacterList block) = 1.

Definition atomicShape (editorState : EditorState) : Prop :=
  Forall atomicShapeBlock (blocksOf editorState).

(** The invariant of the data model: one character-metadata entry per
    position of the text. *)
Definition charactersMatchText (editorState : EditorState) : Prop :=
  Forall (fun block =>
    length (getCharacterList block) = String.length (getText block))
    (blocksOf editorState).

(** Two blocks that differ at most in their character lists, in their depth,
    or in their type. *)
Definition sameButCharacters (b b' : ContentBlock) : Prop :=
  getKey b' = getKey b /\ getType b' = getType b /\ getText b' = getText b
  /\ getDepth b' = getDepth b /\ getData b' = getData b.

Definition sameButDepth (b b' : ContentBlock) : Prop :=
  getKey b' = getKey b /\ getType b' = getType b /\ getText b' = getText b
  /\ getCharacterList b' = getCharacterList b /\ getData b' = getData b.

Definition sameButType (b b' : ContentBlock) : Prop :=
  getKey b' = getKey b /\ getText b' = getText b
  /\ getCharacterList b' = getCharacterList b
  /\ getDepth b' = getDepth b /\ getData b' = getData b.

(** [filterEntityType] on the characters of a block: the styles are kept; a
    reference to an entity whose type is not enabled is cleared; so is a
    reference to an image outside an atomic block; every other character is
    returned unchanged. *)
Definition entityFiltered (entityMap : gmap string DraftEntityInstance)
    (enabledTypes : list string) (b b' : ContentBlock) : Prop :=
  sameButCharacters b b'
  /\ Forall2 (fun c c' =>
       getStyle c' = getStyle c
       /\ (getEntity c' = getEntity c \/ getEntity c' = None)
       /\ (forall entity,
             references entityMap c entity ->
             entityType entity ∉ enabledTypes -> getEntity c' = None)
       /\ (forall entity,
             references entityMap c entity ->
             entityType entity = ENTITY_TYPE.IMAGE ->
             getType b <> BLOCK_TYPE.ATOMIC -> getEntity c' = None))
       (getCharacterList b) (getCharacterList b').

(** No atomic block is demoted by [resetAtomicBlocks]: the first character
    of an atomic block references no entity, or an entity of an enabled
    type. *)
Definition noAtomicDemoted (enabledTypes : list string)
    (editorState : EditorState) : Prop :=
  Forall (fun block =>
    getType block = BLOCK_TYPE.ATOMIC ->
    forall char entity,
      head (getCharacterList block) = Some char ->
      references (entityMapOf editorState) char entity ->
      entityType entity ∈ enabledTypes)
    (blocksOf editorState).

(** What [resetAtomicBlocks] does to a block when it demotes none: an atomic
    block whose text is not the placeholder gets the placeholder as text and
    keeps its first character only; every other block is unchanged. *)
Definition atomicNormalised (b b' : ContentBlock) : Prop :=
  getKey b' = getKey b /\ getType b' = getType b
  /\ getDepth b' = getDepth b /\ getData b' = getData b
  /\ (getType b = BLOCK_TYPE.ATOMIC -> getText b <> " " ->
      getText b' = " "
      /\ getCharacterList b' = firstn 1 (getCharacterList b))
  /\ (getType b <> BLOCK_TYPE.ATOMIC \/ getText b = " " -> b' = b).

(** The block keys of [editorState'] are those of [editorState], in the same
    order: as keys of the block map, and as the [key] field of the blocks. *)
Definition sameKeys (editorState editorState' : EditorState) : Prop :=
  OrderedMap.keys (blockMapOf editorState')
  = OrderedMap.keys (blockMapOf editorState)
  /\ List.map getKey (blocksOf editorState')
     = List.map getKey (blocksOf editorState).

(** A property of the editor state returned by a filter that may raise. *)
Definition onOutput (output : option EditorState) (P : EditorState -> Prop)
  : Prop :=
  match output with
  | Some editorState' => P editorState'
  | None => True
  end.

(** ** Sample contents and configurations *)

Definition sampleEntityMap : gmap string DraftEntityInstance :=
  <["1" := mkEntity "LINK" "MUTABLE" [("url", "/")]]>
    (<["2" := mkEntity "IMAGE" "IMMUTABLE" []]>
       (<["3" := mkEntity "HORIZONTAL_RULE" "IMMUTABLE" []]> ∅)).

Definition sampleBlockMap : list (string * ContentBlock) :=
  [ ("a", mkBlock "a" "header-one" "Hi"
            [mkChar ["BOLD"; "STRIKETHROUGH"] None; mkChar ["ITALIC"] (Some "1")]
            0 []);
    ("b", mkBlock "b" "unordered-list-item" "x"
            [mkChar ["BOLD"] (Some "2")] 5 []);
    ("c", mkBlock "c" "atomic" "img"
            [mkChar [] (Some "2"); mkChar [] None; mkChar ["CODE"] None] 0 []);
    ("d", mkBlock "d" "atomic" " " [mkChar [] (Some "3")] 0 []) ].

Definition sampleState : EditorState :=
  mkEditor (mkContent sampleBlockMap sampleEntityMap).

Definition sampleBlockTypes : list TypeDescriptor :=
  [mkDescriptor "unordered-list-item" "Bulleted list"].

Definition sampleInlineStyles : list TypeDescriptor :=
  [mkDescriptor "BOLD" "Bold"].

Definition sampleEntityTypes : list TypeDescriptor :=
  [mkDescriptor "IMAGE" "Image"].

(** The sample content filtered with at most 4 levels of nesting, the
    horizontal rule, and the sample block, style and entity types. *)
Definition sampleOutput : EditorState :=
  mkEditor (mkContent
    [ ("a", mkBlock "a" "unstyled" "Hi"
              [mkChar ["BOLD"] None; mkChar [] None] 0 []);
      ("b", mkBlock "b" "unordered-list-item" "x" [mkChar ["BOLD"] None] 4 []);
      ("c", mkBlock "c" "atomic" " " [mkChar [] (Some "2")] 0 []);
      ("d", mkBlock "d" "atomic" " " [mkChar [] (Some "3")] 0 []) ]
    sampleEntityMap).

(** A content with an atomic block that needs normalising, followed by an
    atomic block whose entity type is not enabled. *)
Definition mixedAtomicState : EditorState :=
  mkEditor (mkContent
    [ ("a", mkBlock "a" "atomic" "ab" [mkChar [] None; mkChar [] None] 0 []);
      ("b", mkBlock "b" "atomic" " " [mkChar [] (Some "1")] 0 []) ]
    sampleEntityMap).

(** A content with an atomic block without text, alone and followed by an
    atomic block whose entity type is not enabled. *)
Definition emptyAtomicState : EditorState :=
  mkEditor (mkContent [ ("a", mkBlock "a" "atomic" "" [] 0 []) ] ∅).

Definition emptyAndDisabledAtomicState : EditorState :=
  mkEditor (mkContent
    [ ("a", mkBlock "a" "atomic" "" [] 0 []);
      ("b", mkBlock "b" "atomic" " " [mkChar [] (Some "1")] 0 []) ]
    sampleEntityMap).

(** The results of the pipeline, without any allowed type, on the content
    with the two atomic blocks: once, and once more on the result. *)
Definition mixedAtomicOutput : EditorState :=
  mkEditor (mkContent
    [ ("a", mkBlock "a" "atomic" "ab" [mkChar [] None; mkChar [] None] 0 []);
      ("b", mkBlock "b" "unstyled" " " [mkChar [] None] 0 []) ]
    sampleEntityMap).

Definition mixedAtomicOutputTwice : EditorState :=
  mkEditor (mkContent
    [ ("a", mkBlock "a" "atomic" " " [mkChar [] None] 0 []);
      ("b", mkBlock "b" "unstyled" " " [mkChar [] None] 0 []) ]
    sampleEntityMap).

(** The results of the pipeline on the atomic block without text, and of
    [resetAtomicBlocks] on the same block followed by an atomic block whose
    entity type is not enabled. *)
Definition emptyAtomicOutput : EditorState :=
  mkEditor (mkContent [ ("a", mkBlock "a" "atomic" " " [] 0 []) ] ∅).

Definition emptyAndDisabledAtomicOutput : EditorState :=
  mkEditor (mkContent
    [ ("a", mkBlock "a" "atomic" "" [] 0 []);
      ("b", mkBlock "b" "unstyled" " " [mkChar [] (Some "1")] 0 []) ]
    sampleEntityMap).

(** The result of the pipeline, without any allowed type, on the same two
    blocks. *)
Definition emptyAndDisabledAtomicFiltered : EditorState :=
  mkEditor (mkContent
    [ ("a", mkBlock "a" "atomic" "" [] 0 []);
      ("b", mkBlock "b" "unstyled" " " [mkChar [] None] 0 []) ]
    sampleEntityMap).

(** ** Further properties of the filters: vocabulary *)

(** The character carries a non-empty entity key that the registry does not
    know: [content.getEntity] raises on it. *)
Definition unregisteredKey (entityMap : gmap string DraftEntityInstance)
    (char : CharacterMetadata) : Prop :=
  exists k, carriesKey char k /\ entityMap !! k = None.

(** Every non-empty entity key of the content is registered. *)
Definition allKeysRegistered (editorState : EditorState) : Prop :=
  Forall (fun block =>
    Forall (fun char => ~ unregisteredKey (entityMapOf editorState) char)
      (getCharacterList block))
    (blocksOf editorState).

(** The first character of the atomic block references an entity whose type
    is not enabled: the block is one that [resetAtomicBlocks] demotes. *)
Definition demotable (entityMap : gmap string DraftEntityInstance)
    (enabledTypes : list string) (block : ContentBlock) : Prop :=
  getType block = BLOCK_TYPE.ATOMIC
  /\ exists char entity,
       head (getCharacterList block) = Some char
       /\ references entityMap char entity
       /\ entityType entity ∉ enabledTypes.

(** Two lists of type descriptors that allow the same types, whatever their
    order, their repetitions and their descriptions. *)
Definition sameTypes (descriptors descriptors' : list TypeDescriptor) : Prop :=
  forall t, t ∈ List.map type descriptors <-> t ∈ List.map type descriptors'.

(** The character [c'] is the character [c] with some of its styles removed
    and its entity kept or cleared. *)
Definition reducedChar (c c' : CharacterMetadata) : Prop :=
  (forall style, style ∈ getStyle c' -> style ∈ getStyle c)
  /\ (getEntity c' = getEntity c \/ getEntity c' = None).

(** The block [b'] is the block [b] with parts removed only: its depth
    lowered to the maximum, its type kept or reset to unstyled, its text kept
    or, for an atomic block, replaced by the placeholder, and its characters
    a prefix of those of [b], each one reduced. *)
Definition reducedBlock (maxListNesting : Z) (b b' : ContentBlock) : Prop :=
  getKey b' = getKey b
  /\ getData b' = getData b
  /\ getDepth b' = Z.min (getDepth b) maxListNesting
  /\ (getType b' = getType b \/ getType b' = BLOCK_TYPE.UNSTYLED)
  /\ (getText b' = getText b
      \/ (getType b = BLOCK_TYPE.ATOMIC /\ getText b' = " "))
  /\ (getType b <> BLOCK_TYPE.ATOMIC ->
      length (getCharacterList b') = length (getCharacterList b))
  /\ Forall2 reducedChar
       (firstn (length (getCharacterList b')) (getCharacterList b))
       (getCharacterList b').

(** The sample configuration lists, in another order and with repetitions. *)
Definition sampleBlockTypesAgain : list TypeDescriptor :=
  [mkDescriptor "unordered-list-item" "List";
   mkDescriptor "unordered-list-item" "Bulleted list"].

Definition sampleInlineStylesAgain : list TypeDescriptor :=
  [mkDescriptor "BOLD" "B"; mkDescriptor "BOLD" "Bold"].

Definition sampleEntityTypesAgain : list TypeDescriptor :=
  [mkDescriptor "IMAGE" "Picture"; mkDescriptor "IMAGE" "Image"].

(** A content with a character whose entity key is not registered. *)
Definition danglingKeyState : EditorState :=
  mkEditor (mkContent
    [ ("a", mkBlock "a" "unstyled" "x" [mkChar [] (Some "9")] 0 []) ]
    sampleEntityMap).

(** The result of [resetAtomicBlocks], without any enabled type, on the
    content with the two atomic blocks, and the result of a second call. *)
Definition mixedAtomicReset : EditorState :=
  mkEditor (mkContent
    [ ("a", mkBlock "a" "atomic" "ab" [mkChar [] None; mkChar [] None] 0 []);
      ("b", mkBlock "b" "unstyled" " " [mkChar [] (Some "1")] 0 []) ]
    sampleEntityMap).

Definition mixedAtomicResetTwice : EditorState :=
  mkEditor (mkContent
    [ ("a", mkBlock "a" "atomic" " " [mkChar [] None] 0 []);
      ("b", mkBlock "b" "unstyled" " " [mkChar [] (Some "1")] 0 []) ]
    sampleEntityMap).

(** A content whose registry has a link only. *)
Definition linkState : EditorState :=
  mkEditor (mkContent
    [ ("a", mkBlock "a" "unstyled" "x" [mkChar ["BOLD"] (Some "1")] 0 []) ]
    (<["1" := mkEntity "LINK" "MUTABLE" [("url", "/")]]> ∅)).

(** ** Facts about the JavaScript primitives and about [OrderedMap] *)

Lemma includes_true (xs : list string) (x : string) :
  includes xs x = true <-> x ∈ xs.
Proof.
  unfold includes. rewrite existsb_exists. split.
  - intros (y & Hy & Heq). apply String.eqb_eq in Heq. subst y.
    by apply list_elem_of_In.
  - intros Hx. exists x. split; [by apply list_elem_of_In|].
    apply String.eqb_refl.
Qed.

Section OrderedMapFacts.
Context {V : Type}.
Implicit Types (m other : list (string * V)) (k : string) (v : V).

Lemma omap_keys_map (f : V -> V) m :
  OrderedMap.keys (OrderedMap.map f m) = OrderedMap.keys m.
Proof.
  unfold OrderedMap.keys, OrderedMap.map. rewrite List.map_map.
  by apply List.map_ext.
Qed.

Lemma omap_values_map (f : V -> V) m :
  OrderedMap.values (OrderedMap.map f m) = List.map f (OrderedMap.values m).
Proof.
  unfold OrderedMap.values, OrderedMap.map. by rewrite !List.map_map.
Qed.

Lemma omap_get_not_in k m : k ∉ OrderedMap.keys m -> OrderedMap.get k m = None.
Proof.
  induction m as [|[k' v'] r IH]; simpl; [done|].
  intros Hk. apply not_elem_of_cons in Hk as [Hne Hr].
  destruct (String.eqb_spec k k'); [done|]. by apply IH.
Qed.

(** On a well-formed map, setting an existing key rewrites its one entry. *)
Lemma omap_set_existing k v m :
  OrderedMap.wf m -> k ∈ OrderedMap.keys m ->
  OrderedMap.set k v m
  = List.map (fun kv => if String.eqb k kv.1 then (k, v) else kv) m.
Proof.
  unfold OrderedMap.wf.
  induction m as [|[k' v'] r IH]; simpl; intros Hnd Hk.
  - by apply elem_of_nil in Hk.
  - apply NoDup_cons in Hnd as [Hfresh Hnd].
    destruct (String.eqb_spec k k') as [->|Hne].
    + f_equal. symmetry. rewrite <- (List.map_id r) at 2.
      apply List.map_ext_in. intros [k2 v2] Hin. simpl.
      destruct (String.eqb_spec k' k2) as [->|]; [|done].
      exfalso. apply Hfresh. apply list_elem_of_In.
      apply (List.in_map fst) in Hin. exact Hin.
    + f_equal. apply IH; [done|].
      apply elem_of_cons in Hk as [?|?]; [done|done].
Qed.

Lemma omap_set_existing_keys k v m :
  OrderedMap.wf m -> k ∈ OrderedMap.keys m ->
  OrderedMap.keys (OrderedMap.set k v m) = OrderedMap.keys m.
Proof.
  intros Hwf Hk. rewrite omap_set_existing by done.
  unfold OrderedMap.keys. rewrite List.map_map. apply List.map_ext.
  intros [k2 v2]. simpl. by destruct (String.eqb_spec k k2) as [->|].
Qed.

(** Merging a well-formed map whose keys all exist rewrites the entries of
    those keys in place. *)
Lemma omap_merge_existing m other :
  OrderedMap.wf m -> OrderedMap.wf other ->
  (forall k, k ∈ OrderedMap.keys other -> k ∈ OrderedMap.keys m) ->
  OrderedMap.merge m other
  = List.map (fun kv => (kv.1, default kv.2 (OrderedMap.get kv.1 other))) m.
Proof.
  unfold OrderedMap.merge. revert m.
  induction other as [|[k v] o IH]; simpl; intros m Hm Ho Hsub.
  - rewrite <- (List.map_id m) at 1. apply List.map_ext. by intros [].
  - apply NoDup_cons in Ho as [Hfresh Ho].
    assert (Hk : k ∈ OrderedMap.keys m) by (apply Hsub; left).
    rewrite IH.
    + rewrite omap_set_existing by done. rewrite List.map_map.
      apply List.map_ext. intros [k2 v2]. simpl.
      destruct (String.eqb_spec k k2) as [->|Hne]; simpl.
      * rewrite String.eqb_refl. by rewrite omap_get_not_in.
      * destruct (String.eqb_spec k2 k) as [->|]; [done|done].
    + unfold OrderedMap.wf. by rewrite omap_set_existing_keys.
    + done.
    + intros k2 Hk2. rewrite omap_set_existing_keys by done.
      apply Hsub. by right.
Qed.

Lemma omap_keys_filter_subset (p : V -> bool) m k :
  k ∈ OrderedMap.keys (OrderedMap.filter p m) -> k ∈ OrderedMap.keys m.
Proof.
  unfold OrderedMap.keys, OrderedMap.filter.
  rewrite !list_elem_of_In, !List.in_map_iff.
  intros (kv & Hkv & Hin). exists kv. split; [done|].
  by apply List.filter_In in Hin as [? _].
Qed.

Lemma omap_wf_filter (p : V -> bool) m :
  OrderedMap.wf m -> OrderedMap.wf (OrderedMap.filter p m).
Proof.
  unfold OrderedMap.wf.
  induction m as [|[k v] r IH]; simpl; [done|].
  intros Hnd. apply NoDup_cons in Hnd as [Hfresh Hnd].
  destruct (p v); simpl; [|by apply IH].
  apply NoDup_cons. split; [|by apply IH].
  intros Hin. apply Hfresh. by eapply omap_keys_filter_subset.
Qed.

Lemma omap_get_map_filter (f : V -> V) (p : V -> bool) m k v :
  OrderedMap.wf m -> In (k, v) m ->
  OrderedMap.get k (OrderedMap.map f (OrderedMap.filter p m))
  = if p v then Some (f v) else None.
Proof.
  unfold OrderedMap.wf.
  induction m as [|[k' v'] r IH]; simpl; [done|].
  intros Hnd Hin. apply NoDup_cons in Hnd as [Hfresh Hnd].
  destruct Hin as [Heq|Hin].
  - injection Heq as -> ->. destruct (p v) eqn:Hp; simpl.
    + by rewrite String.eqb_refl.
    + apply omap_get_not_in. rewrite omap_keys_map. intros Hin. apply Hfresh.
      by eapply omap_keys_filter_subset.
  - assert (k <> k') as Hne.
    { intros ->. apply Hfresh. apply list_elem_of_In.
      by apply (List.in_map fst) in Hin. }
    destruct (p v'); simpl; [|by apply IH].
    destruct (String.eqb_spec k k'); [done|]. by apply IH.
Qed.

(** The shape shared by the filters: the entries selected by [p] are
    rewritten by [f], all others are kept, and the order is unchanged. *)
Lemma omap_merge_map_filter (f : V -> V) (p : V -> bool) m :
  OrderedMap.wf m ->
  OrderedMap.merge m (OrderedMap.map f (OrderedMap.filter p m))
  = OrderedMap.map (fun v => if p v then f v else v) m.
Proof.
  intros Hwf. rewrite omap_merge_existing.
  - unfold OrderedMap.map at 2. apply List.map_ext_in. intros [k v] Hin.
    simpl. rewrite (omap_get_map_filter f p m k v) by done. by destruct (p v).
  - done.
  - unfold OrderedMap.wf. rewrite omap_keys_map. by apply omap_wf_filter.
  - intros k. rewrite omap_keys_map. apply omap_keys_filter_subset.
Qed.

Lemma omap_filter_all (p : V -> bool) m :
  (forall kv, In kv m -> p kv.2 = true) -> OrderedMap.filter p m = m.
Proof.
  unfold OrderedMap.filter. induction m as [|kv r IH]; simpl; [done|].
  intros Hall. rewrite (Hall kv) by (by left). f_equal. apply IH.
  intros kv' Hin. apply Hall. by right.
Qed.

Lemma omap_merge_map (f : V -> V) m :
  OrderedMap.wf m ->
  OrderedMap.merge m (OrderedMap.map f m) = OrderedMap.map f m.
Proof.
  intros Hwf.
  rewrite <- (omap_filter_all (fun _ => true) m) at 2 by done.
  by rewrite omap_merge_map_filter.
Qed.

Lemma omap_map_map (f g : V -> V) m :
  OrderedMap.map f (OrderedMap.map g m) = OrderedMap.map (fun v => f (g v)) m.
Proof. unfold OrderedMap.map. by rewrite List.map_map. Qed.

Lemma omap_map_ext_values (f g : V -> V) m :
  (forall v, v ∈ OrderedMap.values m -> f v = g v) ->
  OrderedMap.map f m = OrderedMap.map g m.
Proof.
  intros Hfg. unfold OrderedMap.map. apply List.map_ext_in.
  intros [k v] Hin. simpl. f_equal. apply Hfg. apply list_elem_of_In.
  by apply (List.in_map snd) in Hin.
Qed.

Lemma omap_map_id_values (f : V -> V) m :
  (forall v, v ∈ OrderedMap.values m -> f v = v) -> OrderedMap.map f m = m.
Proof.
  intros Hf. rewrite (omap_map_ext_values f (fun v => v)) by done.
  unfold OrderedMap.map. rewrite <- (List.map_id m) at 2.
  apply List.map_ext. by intros [].
Qed.

Lemma omap_filter_map_comm (p : V -> bool) (g : V -> V) m :
  OrderedMap.filter p (OrderedMap.map g m)
  = OrderedMap.map g (OrderedMap.filter (fun v => p (g v)) m).
Proof.
  unfold OrderedMap.filter, OrderedMap.map.
  induction m as [|[k v] r IH]; simpl; [done|].
  destruct (p (g v)); simpl; by rewrite IH.
Qed.

Lemma omap_filter_filter (p q : V -> bool) m :
  OrderedMap.filter q (OrderedMap.filter p m)
  = OrderedMap.filter (fun v => p v && q v) m.
Proof.
  unfold OrderedMap.filter.
  induction m as [|[k v] r IH]; simpl; [done|].
  destruct (p v); simpl; [|done]. destruct (q v); by rewrite IH.
Qed.

(** The size test of the filters: a filtered map is empty exactly when no
    value satisfies the predicate. *)
Lemma omap_size_map_filter (f : V -> V) (p : V -> bool) m :
  (OrderedMap.size (OrderedMap.map f (OrderedMap.filter p m)) =? 0)%nat
  = negb (existsb p (OrderedMap.values m)).
Proof.
  unfold OrderedMap.size, OrderedMap.map, OrderedMap.filter, OrderedMap.values.
  induction m as [|[k v] r IH]; simpl; [done|].
  destruct (p v); simpl; [done|]. exact IH.
Qed.

Lemma omap_map_not_exists (f : V -> V) (p : V -> bool) m :
  existsb p (OrderedMap.values m) = false ->
  OrderedMap.map (fun v => if p v then f v else v) m = m.
Proof.
  intros Hex. apply omap_map_id_values. intros v Hv.
  destruct (p v) eqn:Hp; [|done].
  assert (existsb p (OrderedMap.values m) = true); [|congruence].
  apply existsb_exists. exists v. split; [|done]. by apply list_elem_of_In.
Qed.

Lemma omap_filter_ext (p q : V -> bool) m :
  (forall v, p v = q v) -> OrderedMap.filter p m = OrderedMap.filter q m.
Proof.
  intros Hpq. unfold OrderedMap.filter. apply List.filter_ext.
  intros kv. apply Hpq.
Qed.

(** [filterM] raises when the predicate raises on some value, and is the
    [filter] by "the predicate returned true" otherwise. *)
Lemma omap_filterM_eq (p : V -> option bool) m :
  OrderedMap.filterM p m
  = if forallb (fun v => succeeds (p v)) (OrderedMap.values m)
    then Some (OrderedMap.filter (fun v => returnsTrue (p v)) m)
    else None.
Proof.
  induction m as [|[k v] t IH]; simpl; [done|].
  destruct (p v) as [b|]; simpl; [|done]. rewrite IH.
  destruct (forallb _ _); [|done]. by destruct b.
Qed.

(** [mapM] raises when the function raises on some value, and is the [map]
    by "the value returned" otherwise. *)
Lemma omap_mapM_eq (f : V -> option V) m :
  OrderedMap.mapM f m
  = if forallb (fun v => succeeds (f v)) (OrderedMap.values m)
    then Some (OrderedMap.map (fun v => default v (f v)) m)
    else None.
Proof.
  induction m as [|[k v] t IH]; simpl; [done|].
  destruct (f v) as [b|]; simpl; [|done]. rewrite IH.
  by destruct (forallb _ _).
Qed.
End OrderedMapFacts.

(** ** The filters, block by block *)

Lemma setBlockMap_id (editorState : EditorState) :
  setBlockMap editorState (blockMapOf editorState) = editorState.
Proof. by destruct editorState as [[bm em]]. Qed.

Lemma setCharacterList_id (block : ContentBlock) :
  setCharacterList (getCharacterList block) block = block.
Proof. by destruct block. Qed.

Lemma blockMapOf_setBlockMap (editorState : EditorState) bm :
  blockMapOf (setBlockMap editorState bm) = bm.
Proof. done. Qed.

Lemma entityMapOf_setBlockMap (editorState : EditorState) bm :
  entityMapOf (setBlockMap editorState bm) = entityMapOf editorState.
Proof. done. Qed.

Lemma setBlockMap_setBlockMap (editorState : EditorState) bm bm' :
  setBlockMap (setBlockMap editorState bm) bm' = setBlockMap editorState bm'.
Proof. done. Qed.

Lemma wf_map (f : ContentBlock -> ContentBlock) bm :
  OrderedMap.wf bm -> OrderedMap.wf (OrderedMap.map f bm).
Proof. unfold OrderedMap.wf. by rewrite omap_keys_map. Qed.

(** *** [resetBlockDepth] and [resetBlockType] *)

Lemma resetBlockDepth_eq (editorState : EditorState) (maxListNesting : Z) :
  OrderedMap.wf (blockMapOf editorState) ->
  resetBlockDepth editorState maxListNesting
  = setBlockMap editorState
      (OrderedMap.map (clampDepth maxListNesting) (blockMapOf editorState)).
Proof.
  intros Hwf. unfold resetBlockDepth, clampDepth.
  fold (blockMapOf editorState). rewrite omap_size_map_filter, negb_involutive.
  destruct (existsb _ _) eqn:Hex.
  - by rewrite omap_merge_map_filter.
  - rewrite omap_map_not_exists by done. by rewrite setBlockMap_id.
Qed.

Lemma resetBlockType_eq (editorState : EditorState) (enabledTypes : list string) :
  OrderedMap.wf (blockMapOf editorState) ->
  resetBlockType editorState enabledTypes
  = setBlockMap editorState
      (OrderedMap.map (demoteType enabledTypes) (blockMapOf editorState)).
Proof.
  intros Hwf. unfold resetBlockType, demoteType.
  fold (blockMapOf editorState). rewrite omap_size_map_filter, negb_involutive.
  destruct (existsb _ _) eqn:Hex.
  - by rewrite omap_merge_map_filter.
  - rewrite omap_map_not_exists by done. by rewrite setBlockMap_id.
Qed.

(** *** [filterInlineStyle] *)

Lemma filter_true {A : Type} (l : list A) : List.filter (fun _ => true) l = l.
Proof. induction l as [|x r IH]; simpl; [done|]. by rewrite IH. Qed.

Lemma filter_filter_list {A : Type} (p q : A -> bool) (l : list A) :
  List.filter q (List.filter p l) = List.filter (fun x => p x && q x) l.
Proof.
  induction l as [|x r IH]; simpl; [done|].
  destruct (p x); simpl; [|done]. destruct (q x); by rewrite IH.
Qed.

Lemma fold_removeStyle (l : list string) (altered : bool) (char : CharacterMetadata) :
  fold_left (fun st type => (true, removeStyle st.2 type)) l (altered, char)
  = (altered || negb (length l =? 0)%nat,
     mkChar (List.filter (fun s => negb (includes l s)) (getStyle char))
       (getEntity char)).
Proof.
  revert altered char. induction l as [|t r IH]; intros altered char; simpl.
  - rewrite orb_false_r, filter_true. by destruct char.
  - rewrite IH. simpl. rewrite orb_true_r. f_equal. f_equal.
    rewrite filter_filter_list. apply List.filter_ext. intros s.
    unfold includes. simpl. by rewrite negb_orb.
Qed.

Lemma filterInlineStyleChar_eq (enabledTypes : list string) (altered : bool)
    (char : CharacterMetadata) :
  filterInlineStyleChar enabledTypes altered char
  = (altered
     || existsb (fun type => negb (includes enabledTypes type)) (getStyle char),
     keepStyles enabledTypes char).
Proof.
  unfold filterInlineStyleChar, keepStyles. rewrite fold_removeStyle. f_equal.
  - f_equal. induction (getStyle char) as [|s r IH]; simpl; [done|].
    destruct (includes enabledTypes s); simpl; [exact IH|done].
  - f_equal. apply List.filter_ext_in. intros s Hs.
    destruct (includes enabledTypes s) eqn:Hen.
    + apply negb_true_iff. apply not_true_is_false. intros Hin.
      apply includes_true, list_elem_of_In, List.filter_In in Hin as [_ Hin].
      by rewrite Hen in Hin.
    + apply negb_false_iff. apply includes_true, list_elem_of_In.
      apply List.filter_In. split; [done|]. by rewrite Hen.
Qed.

Lemma keepStyles_unaltered (enabledTypes : list string) (char : CharacterMetadata) :
  existsb (fun type => negb (includes enabledTypes type)) (getStyle char) = false ->
  keepStyles enabledTypes char = char.
Proof.
  intros Hex. unfold keepStyles. destruct char as [styles entity]. simpl in *.
  f_equal. induction styles as [|s r IH]; simpl in *; [done|].
  apply orb_false_iff in Hex as [Hs Hr]. apply negb_false_iff in Hs.
  rewrite Hs. f_equal. by apply IH.
Qed.

Lemma mapAltered_filterInlineStyleChar (enabledTypes : list string)
    (altered : bool) (chars : list CharacterMetadata) :
  mapAltered (filterInlineStyleChar enabledTypes) altered chars
  = (altered
     || existsb (fun char =>
          existsb (fun type => negb (includes enabledTypes type)) (getStyle char))
          chars,
     List.map (keepStyles enabledTypes) chars).
Proof.
  revert altered. induction chars as [|c r IH]; intros altered; simpl.
  - by rewrite orb_false_r.
  - rewrite filterInlineStyleChar_eq, IH. by rewrite orb_assoc.
Qed.

Lemma filterInlineStyleBlock_eq (enabledTypes : list string) (block : ContentBlock) :
  filterInlineStyleBlock enabledTypes block = styleStep enabledTypes block.
Proof.
  unfold filterInlineStyleBlock, styleStep. rewrite mapAltered_filterInlineStyleChar. simpl.
  destruct (existsb _ _) eqn:Hex; [done|].
  rewrite <- (setCharacterList_id block) at 1. f_equal.
  rewrite <- (List.map_id (getCharacterList block)) at 1.
  apply List.map_ext_in. intros c Hc. symmetry. apply keepStyles_unaltered.
  destruct (existsb _ (getStyle c)) eqn:Hc'; [|done].
  assert (existsb (fun char =>
            existsb (fun type => negb (includes enabledTypes type))
              (getStyle char)) (getCharacterList block) = true); [|congruence].
  apply existsb_exists. by exists c.
Qed.

Lemma filterInlineStyle_eq (editorState : EditorState) (enabledTypes : list string) :
  OrderedMap.wf (blockMapOf editorState) ->
  filterInlineStyle editorState enabledTypes
  = setBlockMap editorState
      (OrderedMap.map (styleStep enabledTypes) (blockMapOf editorState)).
Proof.
  intros Hwf. unfold filterInlineStyle. fold (blockMapOf editorState).
  rewrite omap_merge_map by done. f_equal. apply omap_map_ext_values.
  intros b _. apply filterInlineStyleBlock_eq.
Qed.

(** *** [resetAtomicBlocks] *)

Lemma isAtomic_normalise (block : ContentBlock) :
  isAtomic (normalise block) = isAtomic block.
Proof. unfold normalise. by destruct (needsNormalising block). Qed.

Lemma getEntityAt_normalise (block : ContentBlock) :
  getEntityAt 0 (normalise block) = getEntityAt 0 block.
Proof.
  unfold normalise. destruct (needsNormalising block); [|done].
  unfold getEntityAt. simpl. by destruct (getCharacterList block).
Qed.

Lemma shouldReset_succeeds content enabledTypes (block : ContentBlock) :
  succeeds (shouldReset content enabledTypes block)
  = resolves (getEntityMap content) (getEntityAt 0 block).
Proof.
  unfold shouldReset, resolves, contentGetEntity.
  destruct (getEntityAt 0 block) as [k|]; [|done].
  destruct (truthy (Some k)); [|done].
  by destruct (getEntityMap content !! k).
Qed.

Lemma shouldReset_returnsTrue content enabledTypes (block : ContentBlock) :
  returnsTrue (shouldReset content enabledTypes block)
  = disabledEntity (getEntityMap content) enabledTypes (getEntityAt 0 block).
Proof.
  unfold shouldReset, disabledEntity, contentGetEntity.
  destruct (getEntityAt 0 block) as [k|]; [|done].
  destruct (truthy (Some k)); [|done]. simpl.
  destruct (getEntityMap content !! k) as [entity|]; [|done]. simpl.
  by destruct (includes enabledTypes (entityType entity)).
Qed.

Lemma forallb_atomic_normalised content enabledTypes bm :
  forallb (fun v => succeeds (shouldReset content enabledTypes v))
    (OrderedMap.values
       (OrderedMap.filter isAtomic (OrderedMap.map normalise bm)))
  = forallb (atomicResolves (getEntityMap content)) (OrderedMap.values bm).
Proof.
  unfold OrderedMap.values, OrderedMap.filter, OrderedMap.map, atomicResolves.
  induction bm as [|[k v] r IH]; simpl; [done|].
  rewrite isAtomic_normalise. destruct (isAtomic v); simpl; [|exact IH].
  by rewrite shouldReset_succeeds, getEntityAt_normalise, IH.
Qed.

Lemma resetAtomicBlocks_eq (editorState : EditorState) (enabledTypes : list string) :
  let entityMap := entityMapOf editorState in
  OrderedMap.wf (blockMapOf editorState) ->
  resetAtomicBlocks editorState enabledTypes
  = if forallb (atomicResolves entityMap) (blocksOf editorState)
    then Some (setBlockMap editorState
                 (OrderedMap.map
                    (atomicStep entityMap enabledTypes
                       (existsb (demoted entityMap enabledTypes)
                          (blocksOf editorState)))
                    (blockMapOf editorState)))
    else None.
Proof.
  intros entityMap Hwf. unfold resetAtomicBlocks.
  fold (blockMapOf editorState).
  set (bm := blockMapOf editorState) in *.
  assert ((if negb (OrderedMap.size
                      (OrderedMap.map normaliseBlock
                         (OrderedMap.filter needsNormalising bm)) =? 0)%nat
           then OrderedMap.merge bm
                  (OrderedMap.map normaliseBlock
                     (OrderedMap.filter needsNormalising bm))
           else bm) = OrderedMap.map normalise bm) as ->.
  { rewrite omap_size_map_filter, negb_involutive. destruct (existsb _ _) eqn:Hex.
    - by rewrite omap_merge_map_filter.
    - symmetry. by apply omap_map_not_exists. }
  rewrite omap_filterM_eq, forallb_atomic_normalised.
  fold (entityMapOf editorState). fold entityMap. fold (blocksOf editorState).
  destruct (forallb _ _); [|done]. f_equal. f_equal.
  rewrite omap_filter_filter, omap_filter_map_comm, omap_map_map.
  rewrite (omap_filter_ext _ (demoted entityMap enabledTypes)).
  2:{ intros v. unfold demoted.
      rewrite isAtomic_normalise, shouldReset_returnsTrue.
      by rewrite getEntityAt_normalise. }
  rewrite omap_size_map_filter, negb_involutive. fold (blocksOf editorState).
  unfold atomicStep. destruct (existsb _ _).
  - rewrite omap_merge_map_filter by done. by rewrite omap_merge_map.
  - by rewrite omap_merge_map.
Qed.

(** *** [filterEntityType] *)

Lemma filterEntityTypeChar_eq content enabledTypes blockType (altered : bool)
    (char : CharacterMetadata) :
  filterEntityTypeChar content enabledTypes blockType altered char
  = if resolves (getEntityMap content) (getEntity char)
    then Some (altered
               || shouldClear (getEntityMap content) enabledTypes blockType char,
               clearChar (getEntityMap content) enabledTypes blockType char)
    else None.
Proof.
  unfold filterEntityTypeChar, resolves, clearChar, shouldClear, contentGetEntity.
  destruct (getEntity char) as [k|]; [|by rewrite orb_false_r].
  destruct (truthy (Some k)); simpl; [|by rewrite orb_false_r].
  destruct (getEntityMap content !! k) as [entity|]; [|done]. simpl.
  destruct (_ || _); [by rewrite orb_true_r|by rewrite orb_false_r].
Qed.

Lemma clearChar_unaltered entityMap enabledTypes blockType
    (chars : list CharacterMetadata) :
  existsb (shouldClear entityMap enabledTypes blockType) chars = false ->
  List.map (clearChar entityMap enabledTypes blockType) chars = chars.
Proof.
  induction chars as [|c r IH]; simpl; [done|]. intros Hex.
  apply orb_false_iff in Hex as [Hc Hr]. unfold clearChar at 1.
  rewrite Hc. f_equal. by apply IH.
Qed.

Lemma mapAlteredM_filterEntityTypeChar content enabledTypes blockType
    (altered : bool) (chars : list CharacterMetadata) :
  mapAlteredM (filterEntityTypeChar content enabledTypes blockType) altered chars
  = if forallb (fun char => resolves (getEntityMap content) (getEntity char)) chars
    then Some (altered
               || existsb (shouldClear (getEntityMap content) enabledTypes
                             blockType) chars,
               List.map (clearChar (getEntityMap content) enabledTypes blockType)
                 chars)
    else None.
Proof.
  revert altered. induction chars as [|c r IH]; intros altered; simpl.
  - by rewrite orb_false_r.
  - rewrite filterEntityTypeChar_eq.
    destruct (resolves _ (getEntity c)); simpl; [|done].
    rewrite IH. destruct (forallb _ r); [|done]. by rewrite orb_assoc.
Qed.

Lemma filterEntityTypeBlock_eq content enabledTypes (block : ContentBlock) :
  filterEntityTypeBlock content enabledTypes block
  = if blockResolves (getEntityMap content) block
    then Some (entityStep (getEntityMap content) enabledTypes block)
    else None.
Proof.
  unfold filterEntityTypeBlock, blockResolves, entityStep.
  rewrite mapAlteredM_filterEntityTypeChar.
  destruct (forallb _ _); [|done]. simpl. f_equal.
  destruct (existsb _ _) eqn:Hex; [done|].
  rewrite clearChar_unaltered by done. by rewrite setCharacterList_id.
Qed.

Lemma forallb_ext {A : Type} (p q : A -> bool) (l : list A) :
  (forall x, p x = q x) -> forallb p l = forallb q l.
Proof.
  intros Hpq. induction l as [|x r IH]; simpl; [done|]. by rewrite Hpq, IH.
Qed.

Lemma filterEntityType_eq (editorState : EditorState) (enabledTypes : list string) :
  let entityMap := entityMapOf editorState in
  OrderedMap.wf (blockMapOf editorState) ->
  filterEntityType editorState enabledTypes
  = if forallb (blockResolves entityMap) (blocksOf editorState)
    then Some (setBlockMap editorState
                 (OrderedMap.map (entityStep entityMap enabledTypes)
                    (blockMapOf editorState)))
    else None.
Proof.
  intros entityMap Hwf. unfold filterEntityType.
  fold (blockMapOf editorState). rewrite omap_mapM_eq.
  fold (blocksOf editorState).
  rewrite (forallb_ext _ (blockResolves entityMap)).
  2:{ intros b. rewrite filterEntityTypeBlock_eq.
      fold (entityMapOf editorState). fold entityMap.
      by destruct (blockResolves entityMap b). }
  destruct (forallb _ _) eqn:Hall; [|done]. f_equal.
  rewrite (omap_map_ext_values _ (entityStep entityMap enabledTypes)).
  - by rewrite omap_merge_map.
  - intros b Hb. rewrite filterEntityTypeBlock_eq.
    fold (entityMapOf editorState). fold entityMap.
    rewrite forallb_forall in Hall. rewrite (Hall b); [done|].
    by apply list_elem_of_In.
Qed.

(** *** [filterEditorState] *)

Lemma filterEditorState_eq (editorState : EditorState) (maxListNesting : Z)
    (enableHorizontalRule : bool)
    (blockTypes inlineStyles entityTypes : list TypeDescriptor) :
  let entityMap := entityMapOf editorState in
  let enabledBlockTypes := enabledBlockTypesOf blockTypes in
  let enabledInlineStyles := enabledInlineStylesOf inlineStyles in
  let enabledEntityTypes :=
    enabledEntityTypesOf enableHorizontalRule entityTypes in
  let styled :=
    OrderedMap.map
      (firstSteps maxListNesting enabledBlockTypes enabledInlineStyles)
      (blockMapOf editorState) in
  let anyDemoted :=
    existsb (demoted entityMap enabledEntityTypes) (OrderedMap.values styled) in
  let reset :=
    OrderedMap.map (atomicStep entityMap enabledEntityTypes anyDemoted) styled in
  OrderedMap.wf (blockMapOf editorState) ->
  filterEditorState editorState maxListNesting enableHorizontalRule
    blockTypes inlineStyles entityTypes
  = if forallb (atomicResolves entityMap) (OrderedMap.values styled)
       && forallb (blockResolves entityMap) (OrderedMap.values reset)
    then Some (setBlockMap editorState
                 (OrderedMap.map
                    (pipelineStep entityMap maxListNesting enabledBlockTypes
                       enabledInlineStyles enabledEntityTypes anyDemoted)
                    (blockMapOf editorState)))
    else None.
Proof.
  intros entityMap enabledBlockTypes enabledInlineStyles enabledEntityTypes
    styled anyDemoted reset Hwf.
  unfold filterEditorState.
  fold enabledBlockTypes enabledInlineStyles enabledEntityTypes.
  rewrite resetBlockDepth_eq by done.
  rewrite resetBlockType_eq by (by apply wf_map).
  rewrite filterInlineStyle_eq by (by repeat apply wf_map).
  rewrite !blockMapOf_setBlockMap, !setBlockMap_setBlockMap, !omap_map_map.
  fold (firstSteps maxListNesting enabledBlockTypes enabledInlineStyles).
  fold styled.
  rewrite resetAtomicBlocks_eq by (by apply wf_map).
  unfold blocksOf. rewrite !blockMapOf_setBlockMap, !entityMapOf_setBlockMap.
  fold entityMap. fold anyDemoted.
  destruct (forallb (atomicResolves entityMap) _); simpl; [|done].
  rewrite filterEntityType_eq by (by repeat apply wf_map).
  unfold blocksOf. rewrite !blockMapOf_setBlockMap, !entityMapOf_setBlockMap.
  fold entityMap. rewrite !setBlockMap_setBlockMap. fold reset.
  destruct (forallb (blockResolves entityMap) _); [|done].
  unfold reset, styled. by rewrite !omap_map_map.
Qed.

Lemma filterEditorState_Some (editorState editorState' : EditorState)
    (maxListNesting : Z) (enableHorizontalRule : bool)
    (blockTypes inlineStyles entityTypes : list TypeDescriptor) :
  let entityMap := entityMapOf editorState in
  let enabledBlockTypes := enabledBlockTypesOf blockTypes in
  let enabledInlineStyles := enabledInlineStylesOf inlineStyles in
  let enabledEntityTypes :=
    enabledEntityTypesOf enableHorizontalRule entityTypes in
  let anyDemoted :=
    existsb (demoted entityMap enabledEntityTypes)
      (List.map (firstSteps maxListNesting enabledBlockTypes enabledInlineStyles)
         (blocksOf editorState)) in
  OrderedMap.wf (blockMapOf editorState) ->
  filterEditorState editorState maxListNesting enableHorizontalRule
    blockTypes inlineStyles entityTypes = Some editorState' ->
  editorState'
  = setBlockMap editorState
      (OrderedMap.map
         (pipelineStep entityMap maxListNesting enabledBlockTypes
            enabledInlineStyles enabledEntityTypes anyDemoted)
         (blockMapOf editorState))
  /\ Forall (fun block =>
       blockResolves entityMap
         (atomicStep entityMap enabledEntityTypes anyDemoted
            (firstSteps maxListNesting enabledBlockTypes enabledInlineStyles
               block)) = true)
       (blocksOf editorState).
Proof.
  intros entityMap enabledBlockTypes enabledInlineStyles enabledEntityTypes
    anyDemoted Hwf Hrun.
  rewrite filterEditorState_eq in Hrun by done.
  rewrite !omap_values_map in Hrun. fold (blocksOf editorState) in Hrun.
  fold entityMap enabledBlockTypes enabledInlineStyles enabledEntityTypes
    in Hrun.
  fold anyDemoted in Hrun.
  destruct (forallb (atomicResolves entityMap) _); simpl in Hrun; [|done].
  destruct (forallb (blockResolves entityMap) _) eqn:Hall; [|done].
  injection Hrun as <-. split; [done|].
  rewrite forallb_forall in Hall. apply Forall_forall. intros b Hb.
  apply Hall. rewrite List.map_map. apply List.in_map_iff.
  exists b. split; [done|]. by apply list_elem_of_In.
Qed.

Lemma blocksOf_setBlockMap_map (editorState : EditorState)
    (f : ContentBlock -> ContentBlock) :
  blocksOf (setBlockMap editorState (OrderedMap.map f (blockMapOf editorState)))
  = List.map f (blocksOf editorState).
Proof. unfold blocksOf. by rewrite blockMapOf_setBlockMap, omap_values_map. Qed.

Lemma Forall2_map_intro {A : Type} (R : A -> A -> Prop) (f : A -> A) (l : list A) :
  (forall x, x ∈ l -> R x (f x)) -> Forall2 R l (List.map f l).
Proof.
  induction l as [|x r IH]; simpl; intros HR; [constructor|].
  constructor; [apply HR; by left|]. apply IH. intros y Hy. apply HR. by right.
Qed.

Lemma Forall_map_intro {A : Type} (P : A -> Prop) (f : A -> A) (l : list A) :
  (forall x, x ∈ l -> P (f x)) -> Forall P (List.map f l).
Proof.
  induction l as [|x r IH]; simpl; intros HP; [constructor|].
  constructor; [apply HP; by left|]. apply IH. intros y Hy. apply HP. by right.
Qed.

(** *** Fields of a block along the steps *)

Ltac unfold_steps :=
  unfold pipelineStep, entityStep, atomicStep, firstSteps, styleStep,
    demoteType, clampDepth, normalise, normaliseBlock,
    mergeTextAndCharacterList, setCharacterList, setType, setDepth.

Ltac step_cases := unfold_steps; repeat case_match; simpl in *.

Lemma getDepth_pipelineStep entityMap maxListNesting enabledBlockTypes
    enabledInlineStyles enabledEntityTypes anyDemoted (block : ContentBlock) :
  (getDepth
     (pipelineStep entityMap maxListNesting enabledBlockTypes
        enabledInlineStyles enabledEntityTypes anyDemoted block)
   <= maxListNesting)%Z.
Proof. step_cases; lia. Qed.

Lemma includes_enabledBlockTypesOf (blockTypes : list TypeDescriptor) (t : string) :
  includes (enabledBlockTypesOf blockTypes) t = true
  <-> allowedBlockType blockTypes t.
Proof.
  rewrite includes_true. unfold enabledBlockTypesOf, allowedBlockType.
  rewrite elem_of_app, !elem_of_cons, elem_of_nil. tauto.
Qed.

Lemma includes_enabledEntityTypesOf (enableHorizontalRule : bool)
    (entityTypes : list TypeDescriptor) (t : string) :
  includes (enabledEntityTypesOf enableHorizontalRule entityTypes) t = true
  <-> effectiveEntityType enableHorizontalRule entityTypes t.
Proof.
  rewrite includes_true. unfold enabledEntityTypesOf, effectiveEntityType.
  destruct enableHorizontalRule.
  - rewrite elem_of_app, !elem_of_cons, elem_of_nil. tauto.
  - split; [by left|]. by intros [?|[? _]].
Qed.

Lemma getType_demoteType (blockTypes : list TypeDescriptor) (block : ContentBlock) :
  allowedBlockType blockTypes
    (getType (demoteType (enabledBlockTypesOf blockTypes) block)).
Proof.
  unfold demoteType.
  destruct (includes (enabledBlockTypesOf blockTypes) (getType block)) eqn:Hin;
    simpl.
  - by apply includes_enabledBlockTypesOf.
  - right. by left.
Qed.

Lemma getType_pipelineStep entityMap maxListNesting
    (blockTypes : list TypeDescriptor)
    enabledInlineStyles enabledEntityTypes anyDemoted (block : ContentBlock) :
  allowedBlockType blockTypes
    (getType
       (pipelineStep entityMap maxListNesting (enabledBlockTypesOf blockTypes)
          enabledInlineStyles enabledEntityTypes anyDemoted block)).
Proof.
  pose proof (getType_demoteType blockTypes (clampDepth maxListNesting block))
    as Hallowed.
  revert Hallowed. generalize (enabledBlockTypesOf blockTypes) as enabled.
  intros enabled. step_cases; intros Hallowed; try done; right; by left.
Qed.

(** *** Styles of the characters along the steps *)

Lemma elem_of_keepStyles (enabledTypes : list string) (char : CharacterMetadata)
    (style : string) :
  style ∈ getStyle (keepStyles enabledTypes char)
  <-> style ∈ getStyle char /\ style ∈ enabledTypes.
Proof.
  unfold keepStyles. simpl.
  rewrite !list_elem_of_In, List.filter_In, includes_true.
  by rewrite !list_elem_of_In.
Qed.

Lemma chars_atomicStep_prefix entityMap enabledTypes anyDemoted
    (block : ContentBlock) :
  exists n,
    getCharacterList (atomicStep entityMap enabledTypes anyDemoted block)
    = firstn n (getCharacterList block).
Proof.
  step_cases; first [by exists 1 | exists (length (getCharacterList block));
                                   by rewrite List.firstn_all].
Qed.

Lemma elem_of_firstn {A : Type} (x : A) (n : nat) (l : list A) :
  x ∈ firstn n l -> x ∈ l.
Proof.
  revert n. induction l as [|y r IH]; intros [|n]; simpl; intros Hx;
    try by apply elem_of_nil in Hx.
  apply elem_of_cons in Hx as [->|Hx]; [by left|]. right. by eapply IH.
Qed.

Lemma getStyle_clearChar entityMap enabledTypes blockType (char : CharacterMetadata) :
  getStyle (clearChar entityMap enabledTypes blockType char) = getStyle char.
Proof. unfold clearChar. by case_match. Qed.

Lemma styles_pipelineStep entityMap maxListNesting enabledBlockTypes
    enabledInlineStyles enabledEntityTypes anyDemoted (block : ContentBlock) :
  Forall (fun char =>
    forall style, style ∈ getStyle char -> style ∈ enabledInlineStyles)
    (getCharacterList
       (pipelineStep entityMap maxListNesting enabledBlockTypes
          enabledInlineStyles enabledEntityTypes anyDemoted block)).
Proof.
  unfold pipelineStep.
  set (styled := firstSteps maxListNesting enabledBlockTypes
                   enabledInlineStyles block).
  destruct (chars_atomicStep_prefix entityMap enabledEntityTypes anyDemoted
              styled) as [n Hn].
  unfold entityStep at 1. simpl. rewrite Hn.
  apply Forall_map_intro. intros c Hc style.
  rewrite getStyle_clearChar. intros Hstyle.
  apply elem_of_firstn in Hc.
  unfold styled, firstSteps, styleStep in Hc. simpl in Hc.
  apply list_elem_of_In, List.in_map_iff in Hc as (c0 & <- & _).
  by apply elem_of_keepStyles in Hstyle as [_ ?].
Qed.

Lemma sameKeys_map (editorState : EditorState) (f : ContentBlock -> ContentBlock) :
  (forall b, getKey (f b) = getKey b) ->
  sameKeys editorState
    (setBlockMap editorState (OrderedMap.map f (blockMapOf editorState))).
Proof.
  intros Hf. unfold sameKeys.
  rewrite blocksOf_setBlockMap_map, blockMapOf_setBlockMap, omap_keys_map.
  split; [done|]. rewrite List.map_map. by apply List.map_ext.
Qed.

(** *** Entities of the characters along the steps *)

Lemma truthy_Some (k : string) : k <> "" -> truthy (Some k) = true.
Proof. intros Hk. simpl. by destruct (String.eqb_spec k ""). Qed.

(** A character that still carries a key after [filterEntityType] carries
    the key of a registered entity, of an enabled type, and of the image type
    in an atomic block only. *)
Lemma clearChar_carries entityMap enabledTypes blockType
    (char : CharacterMetadata) (k : string) :
  carriesKey (clearChar entityMap enabledTypes blockType char) k ->
  resolves entityMap (getEntity char) = true ->
  exists entity,
    entityMap !! k = Some entity
    /\ includes enabledTypes (entityType entity) = true
    /\ (entityType entity = ENTITY_TYPE.IMAGE -> blockType = BLOCK_TYPE.ATOMIC).
Proof.
  unfold carriesKey, clearChar.
  destruct (shouldClear entityMap enabledTypes blockType char) eqn:Hclear;
    simpl; intros [Hk Hne] Hres; [done|].
  unfold shouldClear in Hclear. unfold resolves in Hres.
  rewrite Hk in Hclear, Hres. rewrite truthy_Some in Hclear, Hres by done.
  destruct (entityMap !! k) as [entity|]; [|done]. exists entity.
  simpl in Hclear. apply orb_false_iff in Hclear as [Hen Himage].
  apply negb_false_iff in Hen. repeat split; [done|].
  intros Htype. rewrite Htype, String.eqb_refl in Himage. simpl in Himage.
  apply negb_false_iff in Himage. by apply String.eqb_eq.
Qed.

(** What [filterEntityType] does to a character that references an entity. *)
Lemma clearChar_references entityMap enabledTypes blockType
    (char : CharacterMetadata) (entity : DraftEntityInstance) :
  references entityMap char entity ->
  clearChar entityMap enabledTypes blockType char
  = if negb (includes enabledTypes (entityType entity))
       || (String.eqb (entityType entity) ENTITY_TYPE.IMAGE
           && negb (String.eqb blockType BLOCK_TYPE.ATOMIC))
    then applyEntity char None else char.
Proof.
  intros (k & [Hk Hne] & Hentity). unfold clearChar, shouldClear.
  by rewrite Hk, truthy_Some, Hentity by done.
Qed.

Lemma filterEditorState_entities (editorState editorState' : EditorState)
    (maxListNesting : Z) (enableHorizontalRule : bool)
    (blockTypes inlineStyles entityTypes : list TypeDescriptor) :
  OrderedMap.wf (blockMapOf editorState) ->
  filterEditorState editorState maxListNesting enableHorizontalRule
    blockTypes inlineStyles entityTypes = Some editorState' ->
  Forall (fun block =>
    Forall (fun char =>
      forall k, carriesKey char k ->
        exists entity,
          entityMapOf editorState' !! k = Some entity
          /\ includes (enabledEntityTypesOf enableHorizontalRule entityTypes)
               (entityType entity) = true
          /\ (entityType entity = ENTITY_TYPE.IMAGE ->
              getType block = BLOCK_TYPE.ATOMIC))
      (getCharacterList block))
    (blocksOf editorState').
Proof.
  intros Hwf Hrun.
  apply filterEditorState_Some in Hrun as [-> Hresolves]; [|done].
  rewrite blocksOf_setBlockMap_map, entityMapOf_setBlockMap.
  rewrite Forall_forall in Hresolves.
  apply Forall_map_intro. intros b Hb. specialize (Hresolves b Hb).
  unfold pipelineStep, entityStep at 1. simpl.
  apply Forall_map_intro. intros c Hc k Hk.
  apply (clearChar_carries _ _ _ c k Hk).
  unfold blockResolves in Hresolves. rewrite forallb_forall in Hresolves.
  apply Hresolves. by apply list_elem_of_In.
Qed.

Lemma entityStep_entityFiltered entityMap enabledTypes (block : ContentBlock) :
  entityFiltered entityMap enabledTypes block
    (entityStep entityMap enabledTypes block).
Proof.
  split; [done|]. unfold entityStep. simpl.
  apply Forall2_map_intro. intros c _. split; [apply getStyle_clearChar|].
  split; [unfold clearChar; case_match; simpl; [by right|by left]|].
  split; intros entity Href Htype.
  - rewrite (clearChar_references _ _ _ _ _ Href).
    destruct (includes enabledTypes (entityType entity)) eqn:Hin; [|done].
    by apply includes_true in Hin.
  - intros Hblock. rewrite (clearChar_references _ _ _ _ _ Href).
    rewrite Htype, String.eqb_refl.
    destruct (String.eqb_spec (getType block) BLOCK_TYPE.ATOMIC); [done|].
    by rewrite orb_true_r.
Qed.

Lemma filterEntityType_entityFiltered (editorState : EditorState)
    (enabledTypes : list string) :
  OrderedMap.wf (blockMapOf editorState) ->
  onOutput (filterEntityType editorState enabledTypes) (fun editorState' =>
    Forall2 (entityFiltered (entityMapOf editorState) enabledTypes)
      (blocksOf editorState) (blocksOf editorState')).
Proof.
  intros Hwf. rewrite filterEntityType_eq by done.
  destruct (forallb _ _); simpl; [|done]. rewrite blocksOf_setBlockMap_map.
  apply Forall2_map_intro. intros b _. apply entityStep_entityFiltered.
Qed.

(** *** Blocks that the filters leave alone *)

Lemma filter_all_list {A : Type} (p : A -> bool) (l : list A) :
  (forall x, x ∈ l -> p x = true) -> List.filter p l = l.
Proof.
  induction l as [|x r IH]; simpl; intros Hall; [done|].
  rewrite (Hall x) by (by left). f_equal. apply IH.
  intros y Hy. apply Hall. by right.
Qed.

Lemma map_id_list {A : Type} (f : A -> A) (l : list A) :
  (forall x, x ∈ l -> f x = x) -> List.map f l = l.
Proof.
  induction l as [|x r IH]; simpl; intros Hall; [done|].
  rewrite (Hall x) by (by left). f_equal. apply IH.
  intros y Hy. apply Hall. by right.
Qed.

Lemma styleStep_stable (enabledTypes : list string) (block : ContentBlock) :
  Forall (fun char =>
    forall style, style ∈ getStyle char -> style ∈ enabledTypes)
    (getCharacterList block) ->
  styleStep enabledTypes block = block.
Proof.
  intros Hall. unfold styleStep.
  rewrite map_id_list; [apply setCharacterList_id|].
  intros c Hc. rewrite Forall_forall in Hall. specialize (Hall c Hc).
  unfold keepStyles. destruct c as [styles entity]. simpl in *. f_equal.
  apply filter_all_list. intros style Hstyle. apply includes_true. by apply Hall.
Qed.

Section ClosedCharacter.
Variable entityMap : gmap string DraftEntityInstance.
Variable enabledTypes : list string.
Variable char : CharacterMetadata.
Hypothesis Hclosed :
  forall k, carriesKey char k ->
    exists entity,
      entityMap !! k = Some entity
      /\ includes enabledTypes (entityType entity) = true.

Lemma closed_resolves : resolves entityMap (getEntity char) = true.
Proof using Hclosed.
  unfold resolves. destruct (getEntity char) as [k|] eqn:Hk; [|done].
  destruct (String.eqb_spec k "") as [->|Hne]; [done|].
  rewrite truthy_Some by done.
  destruct (Hclosed k (conj Hk Hne)) as (entity & -> & _). done.
Qed.

Lemma closed_not_disabled :
  disabledEntity entityMap enabledTypes (getEntity char) = false.
Proof using Hclosed.
  unfold disabledEntity. destruct (getEntity char) as [k|] eqn:Hk; [|done].
  destruct (String.eqb_spec k "") as [->|Hne]; [done|].
  rewrite truthy_Some by done.
  destruct (Hclosed k (conj Hk Hne)) as (entity & -> & ->). done.
Qed.

Lemma closed_not_cleared (blockType : string) :
  (blockType <> BLOCK_TYPE.ATOMIC ->
   forall entity,
     references entityMap char entity ->
     entityType entity <> ENTITY_TYPE.IMAGE) ->
  shouldClear entityMap enabledTypes blockType char = false.
Proof using Hclosed.
  intros Himage. unfold shouldClear.
  destruct (getEntity char) as [k|] eqn:Hk; [|done].
  destruct (String.eqb_spec k "") as [->|Hne]; [done|].
  rewrite truthy_Some by done.
  destruct (Hclosed k (conj Hk Hne)) as (entity & Hentity & Hin).
  rewrite Hentity, Hin. simpl.
  destruct (String.eqb_spec blockType BLOCK_TYPE.ATOMIC) as [|Hblock];
    [by rewrite andb_false_r|].
  destruct (String.eqb_spec (entityType entity) ENTITY_TYPE.IMAGE)
    as [Htype|]; [|done].
  exfalso. apply (Himage Hblock entity); [|done].
  exists k. by repeat split.
Qed.
End ClosedCharacter.

Lemma getEntityAt_0 (block : ContentBlock) :
  getEntityAt 0 block
  = match getCharacterList block with
    | char :: _ => getEntity char
    | [] => None
    end.
Proof. unfold getEntityAt. by destruct (getCharacterList block). Qed.

Section StableBlock.
Variable entityMap : gmap string DraftEntityInstance.
Variable maxListNesting : Z.
Variable enableHorizontalRule : bool.
Variables blockTypes inlineStyles entityTypes : list TypeDescriptor.
Variable block : ContentBlock.

Local Abbreviation enabledEntityTypes :=
  (enabledEntityTypesOf enableHorizontalRule entityTypes).

Hypothesis Hdepth : (getDepth block <= maxListNesting)%Z.
Hypothesis Htype : allowedBlockType blockTypes (getType block).
Hypothesis Hstyles :
  Forall (fun char =>
    forall style, style ∈ getStyle char -> style ∈ List.map type inlineStyles)
    (getCharacterList block).
Hypothesis Hentities :
  Forall (fun char =>
    forall k, carriesKey char k ->
      exists entity,
        entityMap !! k = Some entity
        /\ effectiveEntityType enableHorizontalRule entityTypes
             (entityType entity))
    (getCharacterList block).
Hypothesis Himages :
  getType block <> BLOCK_TYPE.ATOMIC ->
  Forall (fun char =>
    forall entity,
      references entityMap char entity ->
      entityType entity <> ENTITY_TYPE.IMAGE)
    (getCharacterList block).
Hypothesis Hshape :
  getType block = BLOCK_TYPE.ATOMIC -> getText block = " ".

Lemma stable_closed (char : CharacterMetadata) :
  char ∈ getCharacterList block ->
  forall k, carriesKey char k ->
    exists entity,
      entityMap !! k = Some entity
      /\ includes enabledEntityTypes (entityType entity) = true.
Proof using Hentities.
  intros Hchar k Hk. pose proof Hentities as Hall.
  rewrite Forall_forall in Hall.
  destruct (Hall char Hchar k Hk) as (entity & Hentity & Heff).
  exists entity. split; [done|]. by apply includes_enabledEntityTypesOf.
Qed.

Lemma stable_firstSteps :
  firstSteps maxListNesting (enabledBlockTypesOf blockTypes)
    (enabledInlineStylesOf inlineStyles) block = block.
Proof using Hdepth Htype Hstyles.
  unfold firstSteps, clampDepth, demoteType.
  replace (getDepth block >? maxListNesting)%Z with false by lia.
  pose proof Htype as Hin.
  apply includes_enabledBlockTypesOf in Hin. rewrite Hin. simpl.
  by apply styleStep_stable.
Qed.

Lemma stable_not_demoted : demoted entityMap enabledEntityTypes block = false.
Proof using Hentities.
  unfold demoted. rewrite getEntityAt_0. pose proof stable_closed as Hclosed.
  clear -Hclosed. destruct (getCharacterList block) as [|c r];
    [by rewrite andb_false_r|].
  rewrite closed_not_disabled; [by rewrite andb_false_r|].
  apply Hclosed. by left.
Qed.

Lemma stable_normalise : normalise block = block.
Proof using Hshape.
  unfold normalise, needsNormalising.
  destruct (String.eqb_spec (getType block) BLOCK_TYPE.ATOMIC) as [Hat|];
    [|done].
  by rewrite (Hshape Hat).
Qed.

Lemma stable_blockResolves : blockResolves entityMap block = true.
Proof using Hentities.
  unfold blockResolves. apply forallb_forall. intros c Hc.
  apply (closed_resolves _ enabledEntityTypes). apply stable_closed.
  by apply list_elem_of_In.
Qed.

Lemma stable_atomicResolves : atomicResolves entityMap block = true.
Proof using Hentities.
  unfold atomicResolves. rewrite getEntityAt_0.
  pose proof stable_closed as Hclosed.
  clear -Hclosed. destruct (getCharacterList block) as [|c r];
    [by rewrite orb_true_r|].
  rewrite (closed_resolves _ enabledEntityTypes); [by rewrite orb_true_r|].
  apply Hclosed. by left.
Qed.

Lemma stable_entityStep : entityStep entityMap enabledEntityTypes block = block.
Proof using Hentities Himages.
  unfold entityStep. rewrite map_id_list; [apply setCharacterList_id|].
  intros c Hc. unfold clearChar. rewrite closed_not_cleared; [done| |].
  - by apply stable_closed.
  - intros Hblock. pose proof (Himages Hblock) as Hall.
    rewrite Forall_forall in Hall. by apply Hall.
Qed.
End StableBlock.

(** A content within the bounds and closures of a configuration, and whose
    atomic blocks have the placeholder as text, is returned as it is. *)
Lemma filterEditorState_stable (editorState : EditorState)
    (maxListNesting : Z) (enableHorizontalRule : bool)
    (blockTypes inlineStyles entityTypes : list TypeDescriptor) :
  OrderedMap.wf (blockMapOf editorState) ->
  depthBound maxListNesting editorState ->
  typeClosure blockTypes editorState ->
  styleClosure inlineStyles editorState ->
  entityClosure enableHorizontalRule entityTypes editorState ->
  imageContainment editorState ->
  Forall (fun block =>
    getType block = BLOCK_TYPE.ATOMIC -> getText block = " ")
    (blocksOf editorState) ->
  filterEditorState editorState maxListNesting enableHorizontalRule
    blockTypes inlineStyles entityTypes = Some editorState.
Proof.
  unfold depthBound, typeClosure, styleClosure, entityClosure,
    imageContainment.
  rewrite !Forall_forall.
  intros Hwf Hdepth Htype Hstyles Hentities Himages Hshape.
  rewrite filterEditorState_eq by done.
  set (entityMap := entityMapOf editorState) in *.
  set (enabledEntityTypes :=
         enabledEntityTypesOf enableHorizontalRule entityTypes).
  assert (Hfirst : OrderedMap.map
            (firstSteps maxListNesting (enabledBlockTypesOf blockTypes)
               (enabledInlineStylesOf inlineStyles))
            (blockMapOf editorState) = blockMapOf editorState).
  { apply omap_map_id_values. intros b Hb.
    apply stable_firstSteps; [exact (Hdepth b Hb)|exact (Htype b Hb)|].
    exact (Hstyles b Hb). }
  rewrite Hfirst. fold (blocksOf editorState).
  assert (Hentities' : forall b, b ∈ blocksOf editorState ->
            Forall (fun char =>
              forall k, carriesKey char k ->
                exists entity,
                  entityMap !! k = Some entity
                  /\ effectiveEntityType enableHorizontalRule entityTypes
                       (entityType entity))
              (getCharacterList b)).
  { intros b Hb. exact (Hentities b Hb). }
  assert (Hany : existsb (demoted entityMap enabledEntityTypes)
                   (blocksOf editorState) = false).
  { apply not_true_is_false. intros Hex.
    apply existsb_exists in Hex as (b & Hb & Hdemoted).
    apply list_elem_of_In in Hb.
    pose proof (stable_not_demoted entityMap enableHorizontalRule entityTypes
                  b (Hentities' b Hb)) as Hnot.
    fold enabledEntityTypes in Hnot. congruence. }
  rewrite Hany.
  assert (Hreset : OrderedMap.map
            (atomicStep entityMap enabledEntityTypes false)
            (blockMapOf editorState) = blockMapOf editorState).
  { apply omap_map_id_values. intros b Hb. unfold atomicStep.
    exact (stable_normalise b (Hshape b Hb)). }
  rewrite Hreset. fold (blocksOf editorState).
  assert (forallb (atomicResolves entityMap) (blocksOf editorState) = true) as ->.
  { apply forallb_forall. intros b Hb. apply list_elem_of_In in Hb.
    exact (stable_atomicResolves entityMap enableHorizontalRule entityTypes
             b (Hentities' b Hb)). }
  assert (forallb (blockResolves entityMap) (blocksOf editorState) = true) as ->.
  { apply forallb_forall. intros b Hb. apply list_elem_of_In in Hb.
    exact (stable_blockResolves entityMap enableHorizontalRule entityTypes
             b (Hentities' b Hb)). }
  simpl. f_equal. rewrite omap_map_id_values; [apply setBlockMap_id|].
  intros b Hb. unfold pipelineStep.
  rewrite stable_firstSteps;
    [|exact (Hdepth b Hb)|exact (Htype b Hb)|exact (Hstyles b Hb)].
  unfold atomicStep. rewrite stable_normalise by exact (Hshape b Hb).
  exact (stable_entityStep entityMap enableHorizontalRule entityTypes b
           (Hentities' b Hb) (Himages b Hb)).
Qed.


(** *** Atomic blocks along the steps *)

Lemma getType_firstSteps_atomic maxListNesting (blockTypes : list TypeDescriptor)
    enabledInlineStyles (block : ContentBlock) :
  getType
    (firstSteps maxListNesting (enabledBlockTypesOf blockTypes)
       enabledInlineStyles block) = BLOCK_TYPE.ATOMIC
  <-> getType block = BLOCK_TYPE.ATOMIC.
Proof.
  unfold firstSteps, styleStep, demoteType, clampDepth. simpl.
  destruct (includes (enabledBlockTypesOf blockTypes)
              (getType (if (getDepth block >? maxListNesting)%Z
                        then setDepth maxListNesting block else block)))
    eqn:Hin; simpl.
  - by case_match.
  - split; [done|]. intros Hat.
    assert (includes (enabledBlockTypesOf blockTypes) (getType block) = true)
      as Hallowed.
    { apply includes_enabledBlockTypesOf. right. by right. }
    revert Hin. case_match; simpl; congruence.
Qed.

Lemma getText_firstSteps maxListNesting enabledBlockTypes enabledInlineStyles
    (block : ContentBlock) :
  getText (firstSteps maxListNesting enabledBlockTypes enabledInlineStyles block)
  = getText block.
Proof. by step_cases. Qed.

Lemma getCharacterList_firstSteps maxListNesting enabledBlockTypes
    enabledInlineStyles (block : ContentBlock) :
  getCharacterList
    (firstSteps maxListNesting enabledBlockTypes enabledInlineStyles block)
  = List.map (keepStyles enabledInlineStyles) (getCharacterList block).
Proof. by step_cases. Qed.

Lemma isAtomic_true (block : ContentBlock) :
  isAtomic block = true <-> getType block = BLOCK_TYPE.ATOMIC.
Proof. unfold isAtomic. apply String.eqb_eq. Qed.

Lemma demoted_firstSteps entityMap enabledTypes maxListNesting
    (blockTypes : list TypeDescriptor) enabledInlineStyles
    (block : ContentBlock) :
  demoted entityMap enabledTypes
    (firstSteps maxListNesting (enabledBlockTypesOf blockTypes)
       enabledInlineStyles block)
  = demoted entityMap enabledTypes block.
Proof.
  unfold demoted. f_equal.
  - apply eq_true_iff_eq. rewrite !isAtomic_true.
    apply getType_firstSteps_atomic.
  - f_equal. rewrite !getEntityAt_0, getCharacterList_firstSteps.
    by destruct (getCharacterList block).
Qed.

Lemma noAtomicDemoted_demoted entityMap enabledTypes (block : ContentBlock) :
  (getType block = BLOCK_TYPE.ATOMIC ->
   forall char entity,
     head (getCharacterList block) = Some char ->
     references entityMap char entity ->
     entityType entity ∈ enabledTypes) ->
  demoted entityMap enabledTypes block = false.
Proof.
  intros Hfirst. unfold demoted.
  destruct (isAtomic block) eqn:Hat; [|done]. simpl.
  apply isAtomic_true in Hat. specialize (Hfirst Hat).
  rewrite getEntityAt_0. destruct (getCharacterList block) as [|c r]; [done|].
  unfold disabledEntity. destruct (getEntity c) as [k|] eqn:Hk; [|done].
  destruct (String.eqb_spec k "") as [->|Hne]; [done|].
  rewrite truthy_Some by done.
  destruct (entityMap !! k) as [entity|] eqn:Hentity; [|done]. simpl.
  apply negb_false_iff, includes_true. apply (Hfirst c entity); [done|].
  exists k. by repeat split.
Qed.

Lemma existsb_false {A : Type} (p : A -> bool) (l : list A) :
  (forall x, x ∈ l -> p x = false) -> existsb p l = false.
Proof.
  induction l as [|x r IH]; simpl; intros Hall; [done|].
  rewrite (Hall x) by (by left). apply IH. intros y Hy. apply Hall. by right.
Qed.

(** The shape of an atomic block written by the pipeline when no block is
    demoted. *)
Lemma shape_pipelineStep entityMap maxListNesting
    (blockTypes : list TypeDescriptor) enabledInlineStyles enabledEntityTypes
    (block : ContentBlock) :
  let block' :=
    pipelineStep entityMap maxListNesting (enabledBlockTypesOf blockTypes)
      enabledInlineStyles enabledEntityTypes false block in
  length (getCharacterList block) = String.length (getText block) ->
  getType block' = BLOCK_TYPE.ATOMIC ->
  getType block = BLOCK_TYPE.ATOMIC
  /\ getText block' = " "
  /\ String.length (getText block') = 1
  /\ length (getCharacterList block')
     = Nat.min 1 (length (getCharacterList block)).
Proof.
  intros block' Hlen Hat. unfold block', pipelineStep, atomicStep in *.
  set (styled := firstSteps maxListNesting (enabledBlockTypesOf blockTypes)
                   enabledInlineStyles block) in *.
  assert (Hstyled : getType styled = BLOCK_TYPE.ATOMIC).
  { revert Hat. unfold entityStep, normalise. simpl. by case_match. }
  assert (Hblock : getType block = BLOCK_TYPE.ATOMIC).
  { by apply getType_firstSteps_atomic in Hstyled. }
  assert (Htext : getText styled = getText block)
    by apply getText_firstSteps.
  assert (Hchars : getCharacterList styled
                   = List.map (keepStyles enabledInlineStyles)
                       (getCharacterList block))
    by apply getCharacterList_firstSteps.
  clearbody styled. clear block' Hat. split; [done|].
  unfold entityStep, normalise, needsNormalising, normaliseBlock.
  rewrite Hstyled, String.eqb_refl, Htext. simpl.
  destruct (String.eqb_spec (getText block) " ") as [Hspace|Hother]; simpl.
  - rewrite Htext, Hchars, !length_map, Hlen, Hspace. done.
  - rewrite Hchars, length_map, length_take, length_map. done.
Qed.

Lemma normalise_atomicNormalised (block : ContentBlock) :
  atomicNormalised block (normalise block).
Proof.
  unfold atomicNormalised, normalise, needsNormalising, normaliseBlock.
  destruct (String.eqb_spec (getType block) BLOCK_TYPE.ATOMIC) as [Hat|Hat];
    destruct (String.eqb_spec (getText block) " ") as [Htext|Htext]; simpl;
    repeat split; try done; intros [?|?]; done.
Qed.

(** *** The pipeline returns, and returns a content within the closures *)

Lemma blockResolves_firstSteps entityMap maxListNesting enabledBlockTypes
    enabledInlineStyles (block : ContentBlock) :
  blockResolves entityMap
    (firstSteps maxListNesting enabledBlockTypes enabledInlineStyles block)
  = blockResolves entityMap block.
Proof.
  unfold blockResolves. rewrite getCharacterList_firstSteps.
  induction (getCharacterList block) as [|c r IH]; simpl; [done|].
  by rewrite IH.
Qed.

Lemma forallb_firstn {A : Type} (p : A -> bool) (n : nat) (l : list A) :
  forallb p l = true -> forallb p (firstn n l) = true.
Proof.
  revert n. induction l as [|x r IH]; intros [|n]; simpl; try done.
  intros [Hx Hr]%andb_true_iff. rewrite Hx. simpl. by apply IH.
Qed.

Lemma blockResolves_atomicStep entityMap enabledTypes anyDemoted
    (block : ContentBlock) :
  blockResolves entityMap block = true ->
  blockResolves entityMap (atomicStep entityMap enabledTypes anyDemoted block)
  = true.
Proof.
  unfold blockResolves.
  destruct (chars_atomicStep_prefix entityMap enabledTypes anyDemoted block)
    as [n ->].
  apply forallb_firstn.
Qed.

Lemma blockResolves_atomicResolves entityMap (block : ContentBlock) :
  blockResolves entityMap block = true -> atomicResolves entityMap block = true.
Proof.
  unfold blockResolves, atomicResolves. rewrite getEntityAt_0.
  destruct (getCharacterList block) as [|c r]; simpl;
    [by rewrite orb_true_r|].
  intros [-> _]%andb_true_iff. by rewrite orb_true_r.
Qed.

(** The pipeline returns on every content whose truthy entity keys are all
    registered. *)
Lemma filterEditorState_total (editorState : EditorState)
    (maxListNesting : Z) (enableHorizontalRule : bool)
    (blockTypes inlineStyles entityTypes : list TypeDescriptor) :
  OrderedMap.wf (blockMapOf editorState) ->
  Forall (fun block => blockResolves (entityMapOf editorState) block = true)
    (blocksOf editorState) ->
  is_Some (filterEditorState editorState maxListNesting enableHorizontalRule
             blockTypes inlineStyles entityTypes).
Proof.
  intros Hwf Hall. rewrite Forall_forall in Hall.
  rewrite filterEditorState_eq by done. rewrite !omap_values_map.
  fold (blocksOf editorState).
  set (entityMap := entityMapOf editorState) in *.
  assert (forall (f : ContentBlock -> ContentBlock) (p : ContentBlock -> bool),
            (forall b, b ∈ blocksOf editorState -> p (f b) = true) ->
            forallb p (List.map f (blocksOf editorState)) = true) as Hmap.
  { intros f p Hp. apply forallb_forall. intros b' Hb'.
    apply List.in_map_iff in Hb' as (b & <- & Hb).
    apply Hp. by apply list_elem_of_In. }
  rewrite Hmap.
  2:{ intros b Hb. apply blockResolves_atomicResolves.
      rewrite blockResolves_firstSteps. by apply Hall. }
  rewrite List.map_map, Hmap; [done|].
  intros b Hb. apply blockResolves_atomicStep.
  rewrite blockResolves_firstSteps. by apply Hall.
Qed.

Lemma filterEditorState_closed (editorState editorState' : EditorState)
    (maxListNesting : Z) (enableHorizontalRule : bool)
    (blockTypes inlineStyles entityTypes : list TypeDescriptor) :
  OrderedMap.wf (blockMapOf editorState) ->
  filterEditorState editorState maxListNesting enableHorizontalRule
    blockTypes inlineStyles entityTypes = Some editorState' ->
  OrderedMap.wf (blockMapOf editorState')
  /\ depthBound maxListNesting editorState'
  /\ typeClosure blockTypes editorState'
  /\ styleClosure inlineStyles editorState'
  /\ entityClosure enableHorizontalRule entityTypes editorState'
  /\ imageContainment editorState'.
Proof.
  intros Hwf Hrun.
  pose proof (filterEditorState_entities _ _ _ _ _ _ _ Hwf Hrun) as Hall.
  assert (Hentities : entityClosure enableHorizontalRule entityTypes
                        editorState').
  { unfold entityClosure. eapply Forall_impl; [exact Hall|].
    intros b Hb. eapply Forall_impl; [exact Hb|].
    intros c Hc k Hk. destruct (Hc k Hk) as (entity & Hentity & Hin & _).
    exists entity. split; [done|]. by apply includes_enabledEntityTypesOf. }
  assert (Himages : imageContainment editorState').
  { unfold imageContainment. eapply Forall_impl; [exact Hall|].
    intros b Hb Hblock. eapply Forall_impl; [exact Hb|].
    intros c Hc entity (k & Hk & Hentity).
    destruct (Hc k Hk) as (entity' & Hentity' & _ & Himage).
    rewrite Hentity in Hentity'. injection Hentity' as <-.
    intros Htype. by apply Hblock, Himage. }
  apply filterEditorState_Some in Hrun as [Heq _]; [|done].
  repeat split; try done; rewrite Heq.
  - rewrite blockMapOf_setBlockMap. by apply wf_map.
  - unfold depthBound. rewrite blocksOf_setBlockMap_map.
    apply Forall_map_intro. intros b _. apply getDepth_pipelineStep.
  - unfold typeClosure. rewrite blocksOf_setBlockMap_map.
    apply Forall_map_intro. intros b _. apply getType_pipelineStep.
  - unfold styleClosure. rewrite blocksOf_setBlockMap_map.
    apply Forall_map_intro. intros b _. apply styles_pipelineStep.
Qed.

(** The text of an atomic block written by the pipeline when no block is
    demoted. *)
Lemma text_pipelineStep entityMap maxListNesting enabledBlockTypes
    enabledInlineStyles enabledEntityTypes (block : ContentBlock) :
  let block' :=
    pipelineStep entityMap maxListNesting enabledBlockTypes
      enabledInlineStyles enabledEntityTypes false block in
  getType block' = BLOCK_TYPE.ATOMIC -> getText block' = " ".
Proof.
  unfold pipelineStep.
  generalize (firstSteps maxListNesting enabledBlockTypes enabledInlineStyles
                block) as styled.
  intros styled.
  unfold atomicStep, entityStep, normalise, needsNormalising, normaliseBlock.
  destruct (String.eqb_spec (getType styled) BLOCK_TYPE.ATOMIC);
    destruct (String.eqb_spec (getText styled) " "); simpl; done.
Qed.

Lemma noAtomicDemoted_firstSteps (editorState : EditorState)
    enabledTypes maxListNesting (blockTypes : list TypeDescriptor)
    enabledInlineStyles :
  noAtomicDemoted enabledTypes editorState ->
  existsb (demoted (entityMapOf editorState) enabledTypes)
    (List.map
       (firstSteps maxListNesting (enabledBlockTypesOf blockTypes)
          enabledInlineStyles)
       (blocksOf editorState)) = false.
Proof.
  unfold noAtomicDemoted. rewrite Forall_forall. intros Hnone.
  apply existsb_false. intros b' Hb'.
  apply list_elem_of_In, List.in_map_iff in Hb' as (b & <- & Hb).
  rewrite demoted_firstSteps. apply noAtomicDemoted_demoted.
  apply Hnone. by apply list_elem_of_In.
Qed.

(** When the first run demotes no atomic block, a second run of the pipeline
    returns the result of the first. *)
Lemma filterEditorState_idempotent_undemoted
    (editorState editorState' : EditorState)
    (maxListNesting : Z) (enableHorizontalRule : bool)
    (blockTypes inlineStyles entityTypes : list TypeDescriptor) :
  OrderedMap.wf (blockMapOf editorState) ->
  noAtomicDemoted (enabledEntityTypesOf enableHorizontalRule entityTypes)
    editorState ->
  filterEditorState editorState maxListNesting enableHorizontalRule
    blockTypes inlineStyles entityTypes = Some editorState' ->
  filterEditorState editorState' maxListNesting enableHorizontalRule
    blockTypes inlineStyles entityTypes = Some editorState'.
Proof.
  intros Hwf Hnone Hrun.
  destruct (filterEditorState_closed _ _ _ _ _ _ _ Hwf Hrun)
    as (Hwf' & Hdepth & Htype & Hstyles & Hentities & Himages).
  apply filterEditorState_stable; try done.
  apply filterEditorState_Some in Hrun as [-> _]; [|done].
  rewrite noAtomicDemoted_firstSteps by done.
  rewrite blocksOf_setBlockMap_map. apply Forall_map_intro.
  intros b _. apply text_pipelineStep.
Qed.

(** ** Properties of the filters *)

Ltac split_Forall :=
  repeat match goal with
         | |- Forall _ _ => constructor
         | |- Forall2 _ _ _ => constructor
         end.

Ltac solve_wf :=
  unfold OrderedMap.wf; apply (bool_decide_unpack _); vm_compute; exact I.

(** C1, on the code: the pipeline is not idempotent.  When [resetAtomicBlocks]
    demotes a block, it merges [resetBlocks] into the block map it was given
    and not into the normalised blocks, so that another atomic block keeps its
    text; a second run of the pipeline, which demotes no block, normalises
    it. *)
Theorem C1_idempotence_fails :
  OrderedMap.wf (blockMapOf mixedAtomicState)
  /\ filterEditorState mixedAtomicState 0 false [] [] []
     = Some mixedAtomicOutput
  /\ filterEditorState mixedAtomicOutput 0 false [] [] []
     = Some mixedAtomicOutputTwice
  /\ mixedAtomicOutputTwice <> mixedAtomicOutput.
Proof.
  split; [solve_wf|]. split; [by vm_compute|]. split; [by vm_compute|].
  intros Heq. apply (f_equal blocksOf) in Heq. simpl in Heq. discriminate.
Qed.

(** C2, as stated, fails on an atomic block without text: the pipeline
    writes the placeholder as its text and leaves its character list empty. *)
Lemma C2_atomic_shape_counterexample :
  OrderedMap.wf (blockMapOf emptyAtomicState)
  /\ charactersMatchText emptyAtomicState
  /\ filterEditorState emptyAtomicState 0 false [] [] [] = Some emptyAtomicOutput
  /\ ~ atomicShape emptyAtomicOutput.
Proof.
  split; [solve_wf|]. split; [|split].
  - unfold charactersMatchText. simpl. by split_Forall.
  - vm_compute. reflexivity.
  - unfold atomicShape, atomicShapeBlock. simpl. intros Hshape.
    apply Forall_cons in Hshape as [Hblock _]. simpl in Hblock.
    destruct (Hblock eq_refl) as (_ & _ & Hchars). discriminate.
Qed.

(** C2, amended: on a content with one character-metadata entry per text
    position, and when no atomic block is demoted, every atomic block in the
    output of the pipeline entered as an atomic block, has the placeholder
    character as its text, of length 1, and has one character-metadata entry
    if it entered with some, none otherwise; [resetAtomicBlocks] rewrites an
    atomic block whose text is not the placeholder to the placeholder with its
    character list cut down to its first entry, and returns the other blocks
    unchanged. *)
Theorem C2_atomic_shape_amended (editorState editorState' : EditorState)
    (maxListNesting : Z) (enableHorizontalRule : bool)
    (blockTypes inlineStyles entityTypes : list TypeDescriptor) :
  OrderedMap.wf (blockMapOf editorState) ->
  charactersMatchText editorState ->
  noAtomicDemoted (enabledEntityTypesOf enableHorizontalRule entityTypes)
    editorState ->
  filterEditorState editorState maxListNesting enableHorizontalRule
    blockTypes inlineStyles entityTypes = Some editorState' ->
  Forall2 (fun b b' =>
    getType b' = BLOCK_TYPE.ATOMIC ->
    getType b = BLOCK_TYPE.ATOMIC
    /\ getText b' = " "
    /\ String.length (getText b') = 1
    /\ length (getCharacterList b') = Nat.min 1 (length (getCharacterList b)))
    (blocksOf editorState) (blocksOf editorState')
  /\ onOutput
       (resetAtomicBlocks editorState
          (enabledEntityTypesOf enableHorizontalRule entityTypes))
       (fun normalised =>
          Forall2 atomicNormalised (blocksOf editorState)
            (blocksOf normalised)).
Proof.
  unfold charactersMatchText, noAtomicDemoted. rewrite !Forall_forall.
  intros Hwf Hlen Hnone Hrun.
  set (entityMap := entityMapOf editorState) in *.
  set (enabledEntityTypes :=
         enabledEntityTypesOf enableHorizontalRule entityTypes) in *.
  assert (Hdemoted : forall b, b ∈ blocksOf editorState ->
            demoted entityMap enabledEntityTypes b = false).
  { intros b Hb. apply noAtomicDemoted_demoted. exact (Hnone b Hb). }
  split.
  - apply filterEditorState_Some in Hrun as [-> _]; [|done].
    fold entityMap enabledEntityTypes.
    rewrite existsb_false.
    2:{ intros b' Hb'.
        apply list_elem_of_In, List.in_map_iff in Hb' as (b & <- & Hb).
        rewrite demoted_firstSteps. apply Hdemoted.
        by apply list_elem_of_In. }
    rewrite blocksOf_setBlockMap_map. apply Forall2_map_intro.
    intros b Hb. apply shape_pipelineStep. exact (Hlen b Hb).
  - rewrite resetAtomicBlocks_eq by done. fold entityMap.
    destruct (forallb _ _); simpl; [|done].
    rewrite existsb_false by done.
    rewrite blocksOf_setBlockMap_map. apply Forall2_map_intro.
    intros b _. unfold atomicStep. apply normalise_atomicNormalised.
Qed.

Lemma C2_atomic_shape_amended_witness :
  OrderedMap.wf (blockMapOf sampleState)
  /\ charactersMatchText sampleState
  /\ noAtomicDemoted (enabledEntityTypesOf true sampleEntityTypes) sampleState
  /\ filterEditorState sampleState 4 true
       sampleBlockTypes sampleInlineStyles sampleEntityTypes = Some sampleOutput
  /\ Forall2 (fun b b' =>
       getType b' = BLOCK_TYPE.ATOMIC ->
       getType b = BLOCK_TYPE.ATOMIC
       /\ getText b' = " "
       /\ String.length (getText b') = 1
       /\ length (getCharacterList b') = Nat.min 1 (length (getCharacterList b)))
       (blocksOf sampleState) (blocksOf sampleOutput).
Proof.
  assert (Hwf : OrderedMap.wf (blockMapOf sampleState)) by solve_wf.
  assert (Hlen : charactersMatchText sampleState).
  { unfold charactersMatchText. simpl. by split_Forall. }
  assert (Hnone : noAtomicDemoted (enabledEntityTypesOf true sampleEntityTypes)
                    sampleState).
  { unfold noAtomicDemoted, references, carriesKey. simpl.
    split_Forall; simpl; intros Hat c entity Hc (k & [Hk _] & Hentity);
      try done; injection Hc as <-; injection Hk as <-;
      injection Hentity as <-; simpl.
    - by left.
    - right. by left. }
  assert (Hrun : filterEditorState sampleState 4 true
            sampleBlockTypes sampleInlineStyles sampleEntityTypes
          = Some sampleOutput) by (vm_compute; reflexivity).
  repeat (split; [assumption|]).
  exact (proj1 (C2_atomic_shape_amended sampleState sampleOutput 4 true
                  sampleBlockTypes sampleInlineStyles sampleEntityTypes
                  Hwf Hlen Hnone Hrun)).
Defined.

(** C3: every block in the output of [resetBlockDepth], and of the full
    pipeline, has a depth of at most [maxListNesting]; [resetBlockDepth]
    returns the blocks that were within range unchanged, sets the depth of
    the others to [maxListNesting] and keeps all their other fields, in the
    same order under the same keys. *)
Theorem C3_depth_bound (editorState editorState' : EditorState)
    (maxListNesting : Z) (enableHorizontalRule : bool)
    (blockTypes inlineStyles entityTypes : list TypeDescriptor) :
  OrderedMap.wf (blockMapOf editorState) ->
  filterEditorState editorState maxListNesting enableHorizontalRule
    blockTypes inlineStyles entityTypes = Some editorState' ->
  depthBound maxListNesting (resetBlockDepth editorState maxListNesting)
  /\ depthBound maxListNesting editorState'
  /\ OrderedMap.keys (blockMapOf (resetBlockDepth editorState maxListNesting))
     = OrderedMap.keys (blockMapOf editorState)
  /\ Forall2 (fun b b' =>
       ((getDepth b <= maxListNesting)%Z -> b' = b)
       /\ ((getDepth b > maxListNesting)%Z -> getDepth b' = maxListNesting)
       /\ sameButDepth b b')
       (blocksOf editorState)
       (blocksOf (resetBlockDepth editorState maxListNesting)).
Proof.
  intros Hwf Hrun.
  destruct (filterEditorState_closed _ _ _ _ _ _ _ Hwf Hrun)
    as (_ & Hdepth & _).
  rewrite resetBlockDepth_eq by done. unfold depthBound in *.
  rewrite !blocksOf_setBlockMap_map, blockMapOf_setBlockMap, omap_keys_map.
  repeat split; [|done|].
  - apply Forall_map_intro. intros b _. unfold clampDepth.
    case_match; simpl; lia.
  - apply Forall2_map_intro. intros b _. unfold clampDepth, sameButDepth.
    case_match; simpl; repeat split; try done; lia.
Qed.

Lemma C3_depth_bound_witness :
  OrderedMap.wf (blockMapOf sampleState)
  /\ filterEditorState sampleState 4 true
       sampleBlockTypes sampleInlineStyles sampleEntityTypes = Some sampleOutput
  /\ depthBound 4 sampleOutput.
Proof.
  assert (Hwf : OrderedMap.wf (blockMapOf sampleState)) by solve_wf.
  assert (Hrun : filterEditorState sampleState 4 true
            sampleBlockTypes sampleInlineStyles sampleEntityTypes
          = Some sampleOutput) by (vm_compute; reflexivity).
  split; [exact Hwf|]. split; [exact Hrun|].
  exact (proj1 (proj2 (C3_depth_bound sampleState sampleOutput 4 true
                         sampleBlockTypes sampleInlineStyles sampleEntityTypes
                         Hwf Hrun))).
Defined.

(** C4: every block in the output of the pipeline has a type of
    [blockTypes], or the unstyled type, or the atomic type; [resetBlockType]
    returns the blocks of such a type unchanged, resets the type of the others
    to unstyled and keeps their text, characters, depth and other fields. *)
Theorem C4_type_closure (editorState editorState' : EditorState)
    (maxListNesting : Z) (enableHorizontalRule : bool)
    (blockTypes inlineStyles entityTypes : list TypeDescriptor) :
  OrderedMap.wf (blockMapOf editorState) ->
  filterEditorState editorState maxListNesting enableHorizontalRule
    blockTypes inlineStyles entityTypes = Some editorState' ->
  typeClosure blockTypes editorState'
  /\ Forall2 (fun b b' =>
       (allowedBlockType blockTypes (getType b) -> b' = b)
       /\ (~ allowedBlockType blockTypes (getType b) ->
           getType b' = BLOCK_TYPE.UNSTYLED)
       /\ sameButType b b')
       (blocksOf editorState)
       (blocksOf (resetBlockType editorState (enabledBlockTypesOf blockTypes))).
Proof.
  intros Hwf Hrun.
  destruct (filterEditorState_closed _ _ _ _ _ _ _ Hwf Hrun)
    as (_ & _ & Htype & _).
  rewrite resetBlockType_eq by done.
  rewrite blocksOf_setBlockMap_map. split; [done|].
  apply Forall2_map_intro. intros b _. unfold demoteType, sameButType.
  destruct (includes (enabledBlockTypesOf blockTypes) (getType b)) eqn:Hin;
    simpl.
  - apply includes_enabledBlockTypesOf in Hin. by repeat split.
  - repeat split; try done. intros Hallowed.
    apply includes_enabledBlockTypesOf in Hallowed. congruence.
Qed.

Lemma C4_type_closure_witness :
  OrderedMap.wf (blockMapOf sampleState)
  /\ filterEditorState sampleState 4 true
       sampleBlockTypes sampleInlineStyles sampleEntityTypes = Some sampleOutput
  /\ typeClosure sampleBlockTypes sampleOutput.
Proof.
  assert (Hwf : OrderedMap.wf (blockMapOf sampleState)) by solve_wf.
  assert (Hrun : filterEditorState sampleState 4 true
            sampleBlockTypes sampleInlineStyles sampleEntityTypes
          = Some sampleOutput) by (vm_compute; reflexivity).
  split; [exact Hwf|]. split; [exact Hrun|].
  exact (proj1 (C4_type_closure sampleState sampleOutput 4 true
                  sampleBlockTypes sampleInlineStyles sampleEntityTypes
                  Hwf Hrun)).
Defined.

(** C5: every character of every block in the output of the pipeline has
    its styles among [inlineStyles]; [filterInlineStyle] removes from each
    character the styles that are not allowed and keeps those that are,
    leaving the entity of the character and the rest of the block as they
    were. *)
Theorem C5_style_closure (editorState editorState' : EditorState)
    (maxListNesting : Z) (enableHorizontalRule : bool)
    (blockTypes inlineStyles entityTypes : list TypeDescriptor) :
  OrderedMap.wf (blockMapOf editorState) ->
  filterEditorState editorState maxListNesting enableHorizontalRule
    blockTypes inlineStyles entityTypes = Some editorState' ->
  styleClosure inlineStyles editorState'
  /\ Forall2 (fun b b' =>
       sameButCharacters b b'
       /\ Forall2 (fun c c' =>
            getEntity c' = getEntity c
            /\ forall style,
                 style ∈ getStyle c'
                 <-> style ∈ getStyle c /\ style ∈ List.map type inlineStyles)
            (getCharacterList b) (getCharacterList b'))
       (blocksOf editorState)
       (blocksOf (filterInlineStyle editorState
                    (enabledInlineStylesOf inlineStyles))).
Proof.
  intros Hwf Hrun.
  destruct (filterEditorState_closed _ _ _ _ _ _ _ Hwf Hrun)
    as (_ & _ & _ & Hstyles & _).
  rewrite filterInlineStyle_eq by done.
  rewrite blocksOf_setBlockMap_map. split; [done|].
  apply Forall2_map_intro. intros b _. split; [done|].
  unfold styleStep. simpl. apply Forall2_map_intro. intros c _.
  split; [done|]. intros style. apply elem_of_keepStyles.
Qed.

Lemma C5_style_closure_witness :
  OrderedMap.wf (blockMapOf sampleState)
  /\ filterEditorState sampleState 4 true
       sampleBlockTypes sampleInlineStyles sampleEntityTypes = Some sampleOutput
  /\ styleClosure sampleInlineStyles sampleOutput.
Proof.
  assert (Hwf : OrderedMap.wf (blockMapOf sampleState)) by solve_wf.
  assert (Hrun : filterEditorState sampleState 4 true
            sampleBlockTypes sampleInlineStyles sampleEntityTypes
          = Some sampleOutput) by (vm_compute; reflexivity).
  split; [exact Hwf|]. split; [exact Hrun|].
  exact (proj1 (C5_style_closure sampleState sampleOutput 4 true
                  sampleBlockTypes sampleInlineStyles sampleEntityTypes
                  Hwf Hrun)).
Defined.

(** C6: every character in the output of the pipeline that still carries a
    non-empty entity key references a registered entity whose type is in the
    effective allowed set, which is [entityTypes] extended with the
    horizontal-rule type if and only if [enableHorizontalRule] is true;
    [filterEntityType] clears the references to entities of other types, and
    returns each entity key either unchanged or cleared. *)
Theorem C6_entity_closure (editorState editorState' : EditorState)
    (maxListNesting : Z) (enableHorizontalRule : bool)
    (blockTypes inlineStyles entityTypes : list TypeDescriptor) :
  OrderedMap.wf (blockMapOf editorState) ->
  filterEditorState editorState maxListNesting enableHorizontalRule
    blockTypes inlineStyles entityTypes = Some editorState' ->
  entityClosure enableHorizontalRule entityTypes editorState'
  /\ (forall t,
        t ∈ enabledEntityTypesOf enableHorizontalRule entityTypes
        <-> effectiveEntityType enableHorizontalRule entityTypes t)
  /\ onOutput
       (filterEntityType editorState
          (enabledEntityTypesOf enableHorizontalRule entityTypes))
       (fun filtered =>
          Forall2 (fun b b' =>
            sameButCharacters b b'
            /\ Forall2 (fun c c' =>
                 (getEntity c' = getEntity c \/ getEntity c' = None)
                 /\ forall entity,
                      references (entityMapOf editorState) c entity ->
                      ~ effectiveEntityType enableHorizontalRule entityTypes
                          (entityType entity) ->
                      getEntity c' = None)
                 (getCharacterList b) (getCharacterList b'))
            (blocksOf editorState) (blocksOf filtered)).
Proof.
  intros Hwf Hrun. split; [|split].
  - by destruct (filterEditorState_closed _ _ _ _ _ _ _ Hwf Hrun)
      as (_ & _ & _ & _ & Hentities & _).
  - intros t. rewrite <- includes_true. apply includes_enabledEntityTypesOf.
  - pose proof (filterEntityType_entityFiltered editorState
                  (enabledEntityTypesOf enableHorizontalRule entityTypes) Hwf)
      as Hstage.
    destruct (filterEntityType _ _) as [filtered|]; simpl in *; [|done].
    eapply Forall2_impl; [exact Hstage|].
    intros b b' [Hsame Hchars]. split; [done|].
    eapply Forall2_impl; [exact Hchars|].
    intros c c' (_ & Hkept & Hcleared & _). split; [done|].
    intros entity Href Hnot. apply (Hcleared entity Href).
    intros Hin. apply Hnot.
    by apply includes_enabledEntityTypesOf, includes_true.
Qed.

Lemma C6_entity_closure_witness :
  OrderedMap.wf (blockMapOf sampleState)
  /\ filterEditorState sampleState 4 true
       sampleBlockTypes sampleInlineStyles sampleEntityTypes = Some sampleOutput
  /\ entityClosure true sampleEntityTypes sampleOutput.
Proof.
  assert (Hwf : OrderedMap.wf (blockMapOf sampleState)) by solve_wf.
  assert (Hrun : filterEditorState sampleState 4 true
            sampleBlockTypes sampleInlineStyles sampleEntityTypes
          = Some sampleOutput) by (vm_compute; reflexivity).
  split; [exact Hwf|]. split; [exact Hrun|].
  exact (proj1 (C6_entity_closure sampleState sampleOutput 4 true
                  sampleBlockTypes sampleInlineStyles sampleEntityTypes
                  Hwf Hrun)).
Defined.

(** C7: no character in the output of the pipeline that lies in a block of
    non-atomic type references an entity of the image type;
    [filterEntityType] clears such a reference whatever the enabled entity
    types are, and leaves the styles of the character and the text, type and
    other fields of the block as they were. *)
Theorem C7_image_containment (editorState editorState' : EditorState)
    (maxListNesting : Z) (enableHorizontalRule : bool)
    (blockTypes inlineStyles entityTypes : list TypeDescriptor)
    (enabledTypes : list string) :
  OrderedMap.wf (blockMapOf editorState) ->
  filterEditorState editorState maxListNesting enableHorizontalRule
    blockTypes inlineStyles entityTypes = Some editorState' ->
  imageContainment editorState'
  /\ onOutput (filterEntityType editorState enabledTypes)
       (fun filtered =>
          Forall2 (fun b b' =>
            sameButCharacters b b'
            /\ Forall2 (fun c c' =>
                 getStyle c' = getStyle c
                 /\ forall entity,
                      references (entityMapOf editorState) c entity ->
                      entityType entity = ENTITY_TYPE.IMAGE ->
                      getType b <> BLOCK_TYPE.ATOMIC ->
                      getEntity c' = None)
                 (getCharacterList b) (getCharacterList b'))
            (blocksOf editorState) (blocksOf filtered)).
Proof.
  intros Hwf Hrun. split.
  - by destruct (filterEditorState_closed _ _ _ _ _ _ _ Hwf Hrun)
      as (_ & _ & _ & _ & _ & Himages).
  - pose proof (filterEntityType_entityFiltered editorState enabledTypes Hwf)
      as Hstage.
    destruct (filterEntityType _ _) as [filtered|]; simpl in *; [|done].
    eapply Forall2_impl; [exact Hstage|].
    intros b b' [Hsame Hchars]. split; [done|].
    eapply Forall2_impl; [exact Hchars|].
    by intros c c' (Hstyle & _ & _ & Himage).
Qed.

Lemma C7_image_containment_witness :
  OrderedMap.wf (blockMapOf sampleState)
  /\ filterEditorState sampleState 4 true
       sampleBlockTypes sampleInlineStyles sampleEntityTypes = Some sampleOutput
  /\ imageContainment sampleOutput.
Proof.
  assert (Hwf : OrderedMap.wf (blockMapOf sampleState)) by solve_wf.
  assert (Hrun : filterEditorState sampleState 4 true
            sampleBlockTypes sampleInlineStyles sampleEntityTypes
          = Some sampleOutput) by (vm_compute; reflexivity).
  split; [exact Hwf|]. split; [exact Hrun|].
  exact (proj1 (C7_image_containment sampleState sampleOutput 4 true
                  sampleBlockTypes sampleInlineStyles sampleEntityTypes
                  ["IMAGE"] Hwf Hrun)).
Defined.

(** C8: on a content that already satisfies the depth bound, the type,
    style and entity closures, the image containment and the atomic shape
    under a configuration, the pipeline returns the content itself: the same
    blocks with the same fields and the same entity references. *)
Theorem C8_stability (editorState : EditorState)
    (maxListNesting : Z) (enableHorizontalRule : bool)
    (blockTypes inlineStyles entityTypes : list TypeDescriptor) :
  OrderedMap.wf (blockMapOf editorState) ->
  depthBound maxListNesting editorState ->
  typeClosure blockTypes editorState ->
  styleClosure inlineStyles editorState ->
  entityClosure enableHorizontalRule entityTypes editorState ->
  imageContainment editorState ->
  atomicShape editorState ->
  filterEditorState editorState maxListNesting enableHorizontalRule
    blockTypes inlineStyles entityTypes = Some editorState.
Proof.
  intros Hwf Hdepth Htype Hstyles Hentities Himages Hshape.
  apply filterEditorState_stable; try done.
  eapply Forall_impl; [exact Hshape|].
  intros b Hb Hat. by destruct (Hb Hat) as (? & _).
Qed.

Lemma C8_stability_witness :
  OrderedMap.wf (blockMapOf sampleOutput)
  /\ depthBound 4 sampleOutput
  /\ typeClosure sampleBlockTypes sampleOutput
  /\ styleClosure sampleInlineStyles sampleOutput
  /\ entityClosure true sampleEntityTypes sampleOutput
  /\ imageContainment sampleOutput
  /\ atomicShape sampleOutput
  /\ filterEditorState sampleOutput 4 true
       sampleBlockTypes sampleInlineStyles sampleEntityTypes = Some sampleOutput.
Proof.
  assert (Hwf : OrderedMap.wf (blockMapOf sampleOutput)) by solve_wf.
  assert (Hdepth : depthBound 4 sampleOutput).
  { unfold depthBound. simpl. split_Forall; simpl; lia. }
  assert (Htype : typeClosure sampleBlockTypes sampleOutput).
  { unfold typeClosure, allowedBlockType. simpl.
    split_Forall; simpl;
      first [by left; left | by right; left | by right; right]. }
  assert (Hstyles : styleClosure sampleInlineStyles sampleOutput).
  { unfold styleClosure. simpl. split_Forall; simpl; split_Forall;
      intros style Hs; simpl in Hs;
      repeat (apply elem_of_cons in Hs as [->|Hs]; [by left|]);
      by apply elem_of_nil in Hs. }
  assert (Hentities : entityClosure true sampleEntityTypes sampleOutput).
  { unfold entityClosure, carriesKey, effectiveEntityType. simpl.
    split_Forall; simpl; split_Forall; simpl; intros k [Hk Hne]; try done;
      injection Hk as <-.
    - exists (mkEntity "IMAGE" "IMMUTABLE" []). split; [done|]. left. by left.
    - exists (mkEntity "HORIZONTAL_RULE" "IMMUTABLE" []). split; [done|].
      by right. }
  assert (Himages : imageContainment sampleOutput).
  { unfold imageContainment, references, carriesKey. simpl.
    split_Forall; simpl; intros Hblock; try done;
      split_Forall; simpl; intros entity (k & [Hk _] & _); done. }
  assert (Hshape : atomicShape sampleOutput).
  { unfold atomicShape, atomicShapeBlock. simpl.
    split_Forall; simpl; try done. }
  repeat (split; [assumption|]).
  exact (C8_stability sampleOutput 4 true
           sampleBlockTypes sampleInlineStyles sampleEntityTypes
           Hwf Hdepth Htype Hstyles Hentities Himages Hshape).
Defined.

(** C9: each of the five filters, and the full pipeline, returns the block
    keys of its input, in the same order: no block is inserted, deleted, split
    or merged. *)
Theorem C9_keys_preserved (editorState : EditorState)
    (maxListNesting : Z) (enableHorizontalRule : bool)
    (blockTypes inlineStyles entityTypes : list TypeDescriptor)
    (enabledTypes : list string) :
  OrderedMap.wf (blockMapOf editorState) ->
  sameKeys editorState (resetBlockDepth editorState maxListNesting)
  /\ sameKeys editorState (resetBlockType editorState enabledTypes)
  /\ sameKeys editorState (filterInlineStyle editorState enabledTypes)
  /\ onOutput (resetAtomicBlocks editorState enabledTypes) (sameKeys editorState)
  /\ onOutput (filterEntityType editorState enabledTypes) (sameKeys editorState)
  /\ onOutput (filterEditorState editorState maxListNesting enableHorizontalRule
                 blockTypes inlineStyles entityTypes)
       (sameKeys editorState).
Proof.
  intros Hwf.
  rewrite resetBlockDepth_eq, resetBlockType_eq, filterInlineStyle_eq,
    resetAtomicBlocks_eq, filterEntityType_eq, filterEditorState_eq by done.
  repeat split; try (apply sameKeys_map; intros b; by step_cases).
  - destruct (forallb _ _); simpl; [|done].
    apply sameKeys_map. intros b. by step_cases.
  - destruct (forallb _ _); simpl; [|done].
    apply sameKeys_map. intros b. by step_cases.
  - destruct (_ && _); simpl; [|done].
    apply sameKeys_map. intros b. by step_cases.
Qed.

Lemma C9_keys_preserved_witness :
  OrderedMap.wf (blockMapOf sampleState)
  /\ filterEditorState sampleState 4 true
       sampleBlockTypes sampleInlineStyles sampleEntityTypes = Some sampleOutput
  /\ sameKeys sampleState sampleOutput.
Proof.
  assert (Hwf : OrderedMap.wf (blockMapOf sampleState)) by solve_wf.
  assert (Hrun : filterEditorState sampleState 4 true
            sampleBlockTypes sampleInlineStyles sampleEntityTypes
          = Some sampleOutput) by (vm_compute; reflexivity).
  split; [exact Hwf|]. split; [exact Hrun|].
  pose proof (C9_keys_preserved sampleState 4 true
                sampleBlockTypes sampleInlineStyles sampleEntityTypes
                ["IMAGE"] Hwf) as (_ & _ & _ & _ & _ & Hkeys).
  rewrite Hrun in Hkeys. exact Hkeys.
Defined.

(** C10, on the code: [resetAtomicBlocks] returns an atomic block without
    text unchanged, with its empty text, when it demotes another block of the
    content; the same holds of the full pipeline. *)
Theorem C10_empty_atomic_not_normalised :
  OrderedMap.wf (blockMapOf emptyAndDisabledAtomicState)
  /\ head (blocksOf emptyAndDisabledAtomicState)
     = Some (mkBlock "a" "atomic" "" [] 0 [])
  /\ resetAtomicBlocks emptyAndDisabledAtomicState []
     = Some emptyAndDisabledAtomicOutput
  /\ head (blocksOf emptyAndDisabledAtomicOutput)
     = Some (mkBlock "a" "atomic" "" [] 0 [])
  /\ filterEditorState emptyAndDisabledAtomicState 0 false [] [] []
     = Some emptyAndDisabledAtomicFiltered
  /\ head (blocksOf emptyAndDisabledAtomicFiltered)
     = Some (mkBlock "a" "atomic" "" [] 0 []).
Proof.
  split; [solve_wf|]. split; [done|]. split; [by vm_compute|].
  split; [done|]. split; [by vm_compute|]. done.
Qed.

(** ** Further properties of the filters *)

(** *** The entity registry and the entity keys *)

Lemma resolves_false_iff (entityMap : gmap string DraftEntityInstance)
    (char : CharacterMetadata) :
  resolves entityMap (getEntity char) = false <-> unregisteredKey entityMap char.
Proof.
  unfold resolves, unregisteredKey, carriesKey.
  destruct (getEntity char) as [k|].
  - destruct (String.eqb_spec k "") as [->|Hne].
    + simpl. split; [done|]. by intros (k & [[= <-] Hk] & _).
    + rewrite truthy_Some by done. split.
      * intros Hnone. exists k. repeat split; [done|].
        by destruct (entityMap !! k).
      * intros (k' & [[= <-] _] & ->). done.
  - split; [done|]. by intros (k & [? _] & _).
Qed.

Lemma resolves_true_iff (entityMap : gmap string DraftEntityInstance)
    (char : CharacterMetadata) :
  resolves entityMap (getEntity char) = true
  <-> ~ unregisteredKey entityMap char.
Proof.
  rewrite <- resolves_false_iff.
  destruct (resolves entityMap (getEntity char)); split; done.
Qed.

Lemma blockResolves_true_iff (entityMap : gmap string DraftEntityInstance)
    (block : ContentBlock) :
  blockResolves entityMap block = true
  <-> Forall (fun char => ~ unregisteredKey entityMap char)
        (getCharacterList block).
Proof.
  unfold blockResolves. rewrite forallb_forall, Forall_forall. split.
  - intros Hall c Hc. apply resolves_true_iff, Hall. by apply list_elem_of_In.
  - intros Hall c Hc. apply resolves_true_iff, Hall. by apply list_elem_of_In.
Qed.

Lemma forallb_false_Exists {A : Type} (p : A -> bool) (l : list A) :
  forallb p l = false <-> Exists (fun x => p x = false) l.
Proof.
  induction l as [|x r IH]; simpl.
  - split; [done|]. intros H. by apply Exists_nil in H.
  - rewrite Exists_cons, andb_false_iff, IH. done.
Qed.

Lemma blockResolves_false_iff (entityMap : gmap string DraftEntityInstance)
    (block : ContentBlock) :
  blockResolves entityMap block = false
  <-> Exists (unregisteredKey entityMap) (getCharacterList block).
Proof.
  unfold blockResolves. rewrite forallb_false_Exists.
  split; intros Hex; (eapply Exists_impl; [exact Hex|]); intros c Hc;
    by apply resolves_false_iff.
Qed.

(** X1: no filter, and not the pipeline, changes the entity registry: the
    entities whose last reference is cleared stay registered. *)
Theorem X1_registry_unchanged (editorState : EditorState)
    (maxListNesting : Z) (enableHorizontalRule : bool)
    (blockTypes inlineStyles entityTypes : list TypeDescriptor)
    (enabledTypes : list string) :
  entityMapOf (resetBlockDepth editorState maxListNesting)
  = entityMapOf editorState
  /\ entityMapOf (resetBlockType editorState enabledTypes)
     = entityMapOf editorState
  /\ entityMapOf (filterInlineStyle editorState enabledTypes)
     = entityMapOf editorState
  /\ onOutput (resetAtomicBlocks editorState enabledTypes)
       (fun editorState' => entityMapOf editorState' = entityMapOf editorState)
  /\ onOutput (filterEntityType editorState enabledTypes)
       (fun editorState' => entityMapOf editorState' = entityMapOf editorState)
  /\ onOutput (filterEditorState editorState maxListNesting
                 enableHorizontalRule blockTypes inlineStyles entityTypes)
       (fun editorState' => entityMapOf editorState' = entityMapOf editorState).
Proof.
  assert (Hdepth : forall s m, entityMapOf (resetBlockDepth s m) = entityMapOf s).
  { intros s m. unfold resetBlockDepth.
    destruct (negb _); reflexivity. }
  assert (Htype : forall s en, entityMapOf (resetBlockType s en) = entityMapOf s).
  { intros s en. unfold resetBlockType.
    destruct (negb _); reflexivity. }
  assert (Hatomic : forall s en,
            onOutput (resetAtomicBlocks s en)
              (fun s' => entityMapOf s' = entityMapOf s)).
  { intros s en. unfold resetAtomicBlocks.
    destruct (OrderedMap.filterM _ _); [reflexivity|exact I]. }
  assert (Hentity : forall s en,
            onOutput (filterEntityType s en)
              (fun s' => entityMapOf s' = entityMapOf s)).
  { intros s en. unfold filterEntityType.
    destruct (OrderedMap.mapM _ _); [reflexivity|exact I]. }
  split; [apply Hdepth|]. split; [apply Htype|]. split; [reflexivity|].
  split; [apply Hatomic|]. split; [apply Hentity|].
  unfold filterEditorState.
  set (styled := filterInlineStyle _ _).
  assert (Hstyled : entityMapOf styled = entityMapOf editorState).
  { unfold styled, filterInlineStyle.
    rewrite entityMapOf_setBlockMap. by rewrite Htype, Hdepth. }
  pose proof (Hatomic styled
                (enabledEntityTypesOf enableHorizontalRule entityTypes))
    as Hreset.
  destruct (resetAtomicBlocks styled _) as [reset|]; [|exact I].
  unfold onOutput in Hreset.
  pose proof (Hentity reset
                (enabledEntityTypesOf enableHorizontalRule entityTypes))
    as Hfiltered.
  destruct (filterEntityType reset _) as [filtered|]; [|exact I].
  unfold onOutput in *. congruence.
Qed.

(** X2: the pipeline returns on every content whose non-empty entity keys
    are all registered, whatever the configuration. *)
Theorem X2_pipeline_returns (editorState : EditorState)
    (maxListNesting : Z) (enableHorizontalRule : bool)
    (blockTypes inlineStyles entityTypes : list TypeDescriptor) :
  OrderedMap.wf (blockMapOf editorState) ->
  allKeysRegistered editorState ->
  exists editorState',
    filterEditorState editorState maxListNesting enableHorizontalRule
      blockTypes inlineStyles entityTypes = Some editorState'.
Proof.
  intros Hwf Hall. apply filterEditorState_total; [done|].
  eapply Forall_impl; [exact Hall|].
  intros b Hb. by apply blockResolves_true_iff.
Qed.

Lemma sampleState_allKeysRegistered : allKeysRegistered sampleState.
Proof.
  unfold allKeysRegistered, unregisteredKey, carriesKey. simpl.
  split_Forall; simpl; split_Forall; simpl;
    intros (k & [Hk _] & Hnone); try discriminate Hk;
    injection Hk as <-; vm_compute in Hnone; discriminate Hnone.
Qed.

Lemma X2_pipeline_returns_witness :
  OrderedMap.wf (blockMapOf sampleState)
  /\ allKeysRegistered sampleState
  /\ exists editorState',
       filterEditorState sampleState 4 true
         sampleBlockTypes sampleInlineStyles sampleEntityTypes
       = Some editorState'.
Proof.
  assert (Hwf : OrderedMap.wf (blockMapOf sampleState)) by solve_wf.
  split; [exact Hwf|]. split; [exact sampleState_allKeysRegistered|].
  apply (X2_pipeline_returns sampleState 4 true
           sampleBlockTypes sampleInlineStyles sampleEntityTypes
           Hwf sampleState_allKeysRegistered).
Defined.

Lemma atomicStep_not_atomic entityMap enabledTypes anyDemoted
    (block : ContentBlock) :
  getType block <> BLOCK_TYPE.ATOMIC ->
  atomicStep entityMap enabledTypes anyDemoted block = block.
Proof.
  intros Hblock.
  assert (Hat : isAtomic block = false).
  { apply not_true_is_false. by rewrite isAtomic_true. }
  unfold atomicStep, demoted, normalise, needsNormalising.
  fold (isAtomic block). rewrite Hat. simpl. by destruct anyDemoted.
Qed.

(** X3: the pipeline raises, whatever the configuration, on a content in
    which a character of a block that is not atomic carries an entity key that
    is not registered. *)
Theorem X3_pipeline_raises_on_unregistered_key (editorState : EditorState)
    (maxListNesting : Z) (enableHorizontalRule : bool)
    (blockTypes inlineStyles entityTypes : list TypeDescriptor)
    (block : ContentBlock) (char : CharacterMetadata) :
  OrderedMap.wf (blockMapOf editorState) ->
  block ∈ blocksOf editorState ->
  getType block <> BLOCK_TYPE.ATOMIC ->
  char ∈ getCharacterList block ->
  unregisteredKey (entityMapOf editorState) char ->
  filterEditorState editorState maxListNesting enableHorizontalRule
    blockTypes inlineStyles entityTypes = None.
Proof.
  intros Hwf Hblock Htype Hchar Hkey.
  rewrite filterEditorState_eq by done.
  destruct (forallb (atomicResolves _) _); simpl; [|done].
  rewrite !omap_values_map. fold (blocksOf editorState).
  rewrite List.map_map.
  assert (forallb (blockResolves (entityMapOf editorState))
            (List.map
               (fun b =>
                  atomicStep (entityMapOf editorState)
                    (enabledEntityTypesOf enableHorizontalRule entityTypes)
                    (existsb
                       (demoted (entityMapOf editorState)
                          (enabledEntityTypesOf enableHorizontalRule
                             entityTypes))
                       (List.map
                          (firstSteps maxListNesting
                             (enabledBlockTypesOf blockTypes)
                             (enabledInlineStylesOf inlineStyles))
                          (blocksOf editorState)))
                    (firstSteps maxListNesting (enabledBlockTypesOf blockTypes)
                       (enabledInlineStylesOf inlineStyles) b))
               (blocksOf editorState)) = false) as ->; [|done].
  apply forallb_false_Exists, Exists_exists.
  eexists. split.
  { apply list_elem_of_In, List.in_map. apply list_elem_of_In, Hblock. }
  rewrite atomicStep_not_atomic.
  2:{ intros Hat. by apply getType_firstSteps_atomic in Hat. }
  rewrite blockResolves_firstSteps.
  apply blockResolves_false_iff, Exists_exists. by exists char.
Qed.

Lemma X3_pipeline_raises_on_unregistered_key_witness :
  OrderedMap.wf (blockMapOf danglingKeyState)
  /\ filterEditorState danglingKeyState 4 true
       sampleBlockTypes sampleInlineStyles sampleEntityTypes = None.
Proof.
  assert (Hwf : OrderedMap.wf (blockMapOf danglingKeyState)) by solve_wf.
  split; [exact Hwf|].
  apply (X3_pipeline_raises_on_unregistered_key danglingKeyState 4 true
           sampleBlockTypes sampleInlineStyles sampleEntityTypes
           (mkBlock "a" "unstyled" "x" [mkChar [] (Some "9")] 0 [])
           (mkChar [] (Some "9")) Hwf).
  - simpl. by left.
  - simpl. discriminate.
  - simpl. by left.
  - exists "9". split; [by split|]. by vm_compute.
Defined.

(** X4: [filterEntityType] raises exactly on the contents in which some
    character carries an entity key that is not registered, whatever the
    enabled types and the type of the block. *)
Theorem X4_filterEntityType_raises (editorState : EditorState)
    (enabledTypes : list string) :
  filterEntityType editorState enabledTypes = None
  <-> Exists (fun block =>
        Exists (unregisteredKey (entityMapOf editorState))
          (getCharacterList block))
        (blocksOf editorState).
Proof.
  unfold filterEntityType. rewrite omap_mapM_eq.
  fold (blockMapOf editorState) (blocksOf editorState).
  rewrite (forallb_ext _ (blockResolves (entityMapOf editorState))).
  2:{ intros b. rewrite filterEntityTypeBlock_eq.
      fold (entityMapOf editorState). by destruct (blockResolves _ b). }
  destruct (forallb _ _) eqn:Hall.
  - split; [done|]. intros Hex.
    assert (forallb (blockResolves (entityMapOf editorState))
              (blocksOf editorState) = false); [|congruence].
    apply forallb_false_Exists. eapply Exists_impl; [exact Hex|].
    intros b Hb. by apply blockResolves_false_iff.
  - split; [|done]. intros _. apply forallb_false_Exists in Hall.
    eapply Exists_impl; [exact Hall|].
    intros b Hb. by apply blockResolves_false_iff.
Qed.

(** X5: [resetAtomicBlocks] raises exactly on the contents in which the first
    character of some atomic block carries an entity key that is not
    registered, whatever the enabled types. *)
Theorem X5_resetAtomicBlocks_raises (editorState : EditorState)
    (enabledTypes : list string) :
  OrderedMap.wf (blockMapOf editorState) ->
  resetAtomicBlocks editorState enabledTypes = None
  <-> Exists (fun block =>
        getType block = BLOCK_TYPE.ATOMIC
        /\ exists char,
             head (getCharacterList block) = Some char
             /\ unregisteredKey (entityMapOf editorState) char)
        (blocksOf editorState).
Proof.
  intros Hwf. rewrite resetAtomicBlocks_eq by done.
  assert (Hblock : forall b,
            atomicResolves (entityMapOf editorState) b = false
            <-> getType b = BLOCK_TYPE.ATOMIC
                /\ exists char,
                     head (getCharacterList b) = Some char
                     /\ unregisteredKey (entityMapOf editorState) char).
  { intros b. unfold atomicResolves. rewrite orb_false_iff, negb_false_iff.
    rewrite isAtomic_true, getEntityAt_0.
    destruct (getCharacterList b) as [|c r]; simpl.
    - split; [by intros [_ ?]|]. by intros [_ (c & ? & _)].
    - rewrite resolves_false_iff. split.
      + intros [Hat Hkey]. split; [done|]. by exists c.
      + intros [Hat (c' & [= <-] & Hkey)]. done. }
  destruct (forallb _ _) eqn:Hall.
  - split; [done|]. intros Hex.
    assert (forallb (atomicResolves (entityMapOf editorState))
              (blocksOf editorState) = false); [|congruence].
    apply forallb_false_Exists. eapply Exists_impl; [exact Hex|].
    intros b Hb. by apply Hblock.
  - split; [|done]. intros _. apply forallb_false_Exists in Hall.
    eapply Exists_impl; [exact Hall|].
    intros b Hb. by apply Hblock.
Qed.

Lemma X5_resetAtomicBlocks_raises_witness :
  OrderedMap.wf (blockMapOf mixedAtomicState)
  /\ (resetAtomicBlocks mixedAtomicState [] = None
      <-> Exists (fun block =>
            getType block = BLOCK_TYPE.ATOMIC
            /\ exists char,
                 head (getCharacterList block) = Some char
                 /\ unregisteredKey (entityMapOf mixedAtomicState) char)
            (blocksOf mixedAtomicState)).
Proof.
  assert (Hwf : OrderedMap.wf (blockMapOf mixedAtomicState)) by solve_wf.
  split; [exact Hwf|].
  apply (X5_resetAtomicBlocks_raises mixedAtomicState [] Hwf).
Defined.

(** *** Runs of the pipeline *)

Lemma entityClosure_allKeysRegistered (enableHorizontalRule : bool)
    (entityTypes : list TypeDescriptor) (editorState : EditorState) :
  entityClosure enableHorizontalRule entityTypes editorState ->
  allKeysRegistered editorState.
Proof.
  unfold entityClosure, allKeysRegistered. intros Hall.
  eapply Forall_impl; [exact Hall|]. intros b Hb.
  eapply Forall_impl; [exact Hb|]. intros c Hc (k & Hk & Hnone).
  destruct (Hc k Hk) as (entity & Hentity & _). congruence.
Qed.

Lemma entityClosure_noAtomicDemoted (enableHorizontalRule : bool)
    (entityTypes : list TypeDescriptor) (editorState : EditorState) :
  entityClosure enableHorizontalRule entityTypes editorState ->
  noAtomicDemoted (enabledEntityTypesOf enableHorizontalRule entityTypes)
    editorState.
Proof.
  unfold entityClosure, noAtomicDemoted. intros Hall.
  eapply Forall_impl; [exact Hall|].
  intros b Hb _ c entity Hhead (k & Hk & Hentity).
  rewrite Forall_forall in Hb.
  assert (Hc : c ∈ getCharacterList b).
  { destruct (getCharacterList b) as [|c0 r]; [done|].
    injection Hhead as ->. by left. }
  destruct (Hb c Hc k Hk) as (entity' & Hentity' & Heff).
  rewrite Hentity in Hentity'. injection Hentity' as <-.
  by apply includes_true, includes_enabledEntityTypesOf.
Qed.

(** X6: the result of a second run of the pipeline is a fixed point of the
    pipeline, and a second run always returns; when the first run demotes no
    atomic block, its own result is already a fixed point. *)
Theorem X6_second_run_is_fixed_point (editorState editorState' : EditorState)
    (maxListNesting : Z) (enableHorizontalRule : bool)
    (blockTypes inlineStyles entityTypes : list TypeDescriptor) :
  OrderedMap.wf (blockMapOf editorState) ->
  filterEditorState editorState maxListNesting enableHorizontalRule
    blockTypes inlineStyles entityTypes = Some editorState' ->
  (exists editorState'',
     filterEditorState editorState' maxListNesting enableHorizontalRule
       blockTypes inlineStyles entityTypes = Some editorState''
     /\ filterEditorState editorState'' maxListNesting enableHorizontalRule
          blockTypes inlineStyles entityTypes = Some editorState'')
  /\ (noAtomicDemoted (enabledEntityTypesOf enableHorizontalRule entityTypes)
        editorState ->
      filterEditorState editorState' maxListNesting enableHorizontalRule
        blockTypes inlineStyles entityTypes = Some editorState').
Proof.
  intros Hwf Hrun. split.
  - destruct (filterEditorState_closed _ _ _ _ _ _ _ Hwf Hrun)
      as (Hwf' & _ & _ & _ & Hentities & _).
    destruct (filterEditorState_total editorState' maxListNesting
                enableHorizontalRule blockTypes inlineStyles entityTypes Hwf')
      as [editorState'' Hrun'].
    { apply entityClosure_allKeysRegistered in Hentities.
      eapply Forall_impl; [exact Hentities|].
      intros b Hb. by apply blockResolves_true_iff. }
    exists editorState''. split; [done|].
    apply (filterEditorState_idempotent_undemoted editorState'); [done| |done].
    by apply entityClosure_noAtomicDemoted.
  - intros Hnone. by apply (filterEditorState_idempotent_undemoted editorState).
Qed.

Lemma X6_second_run_is_fixed_point_witness :
  OrderedMap.wf (blockMapOf mixedAtomicState)
  /\ filterEditorState mixedAtomicState 0 false [] [] []
     = Some mixedAtomicOutput
  /\ exists editorState'',
       filterEditorState mixedAtomicOutput 0 false [] [] []
       = Some editorState''
       /\ filterEditorState editorState'' 0 false [] [] []
          = Some editorState''.
Proof.
  assert (Hwf : OrderedMap.wf (blockMapOf mixedAtomicState)) by solve_wf.
  assert (Hrun : filterEditorState mixedAtomicState 0 false [] [] []
                 = Some mixedAtomicOutput) by (vm_compute; reflexivity).
  split; [exact Hwf|]. split; [exact Hrun|].
  apply (X6_second_run_is_fixed_point mixedAtomicState mixedAtomicOutput
           0 false [] [] [] Hwf Hrun).
Defined.

(** *** The configuration lists as sets *)

Section SameEnabledTypes.
Variables enabledTypes enabledTypes' : list string.
Hypothesis Hsame :
  forall t, includes enabledTypes t = includes enabledTypes' t.

Lemma demoteType_same (block : ContentBlock) :
  demoteType enabledTypes block = demoteType enabledTypes' block.
Proof using Hsame. unfold demoteType. by rewrite Hsame. Qed.

Lemma styleStep_same (block : ContentBlock) :
  styleStep enabledTypes block = styleStep enabledTypes' block.
Proof using Hsame.
  unfold styleStep, keepStyles. f_equal. apply List.map_ext. intros c.
  f_equal. by apply List.filter_ext.
Qed.

Lemma demoted_same entityMap (block : ContentBlock) :
  demoted entityMap enabledTypes block = demoted entityMap enabledTypes' block.
Proof using Hsame.
  unfold demoted, disabledEntity. f_equal.
  destruct (getEntityAt 0 block) as [k|]; [|done]. f_equal.
  destruct (entityMap !! k); [|done]. by rewrite Hsame.
Qed.

Lemma atomicStep_same entityMap anyDemoted (block : ContentBlock) :
  atomicStep entityMap enabledTypes anyDemoted block
  = atomicStep entityMap enabledTypes' anyDemoted block.
Proof using Hsame. unfold atomicStep. by rewrite demoted_same. Qed.

Lemma entityStep_same entityMap (block : ContentBlock) :
  entityStep entityMap enabledTypes block
  = entityStep entityMap enabledTypes' block.
Proof using Hsame.
  unfold entityStep. f_equal. apply List.map_ext. intros c.
  unfold clearChar, shouldClear. destruct (getEntity c) as [k|]; [|done].
  destruct (entityMap !! k); [|done]. by rewrite Hsame.
Qed.
End SameEnabledTypes.

Lemma existsb_ext {A : Type} (p q : A -> bool) (l : list A) :
  (forall x, p x = q x) -> existsb p l = existsb q l.
Proof.
  intros Hpq. induction l as [|x r IH]; simpl; [done|]. by rewrite Hpq, IH.
Qed.

Lemma includes_same (xs ys : list string) :
  (forall t, t ∈ xs <-> t ∈ ys) -> forall t, includes xs t = includes ys t.
Proof.
  intros Hsame t. apply eq_true_iff_eq. rewrite !includes_true. apply Hsame.
Qed.

(** X7: the result of the pipeline depends on the block types, inline styles
    and entity types of the configuration as sets: two configurations that
    allow the same types, in any order, with any repetition and any
    description, give the same result, or both raise. *)
Theorem X7_configuration_as_sets (editorState : EditorState)
    (maxListNesting : Z) (enableHorizontalRule : bool)
    (blockTypes inlineStyles entityTypes : list TypeDescriptor)
    (blockTypes' inlineStyles' entityTypes' : list TypeDescriptor) :
  OrderedMap.wf (blockMapOf editorState) ->
  sameTypes blockTypes blockTypes' ->
  sameTypes inlineStyles inlineStyles' ->
  sameTypes entityTypes entityTypes' ->
  filterEditorState editorState maxListNesting enableHorizontalRule
    blockTypes inlineStyles entityTypes
  = filterEditorState editorState maxListNesting enableHorizontalRule
      blockTypes' inlineStyles' entityTypes'.
Proof.
  intros Hwf Hblocks Hstyles Hentities.
  assert (Hb : forall t, includes (enabledBlockTypesOf blockTypes) t
                         = includes (enabledBlockTypesOf blockTypes') t).
  { intros t. apply eq_true_iff_eq. rewrite !includes_enabledBlockTypesOf.
    unfold allowedBlockType. by rewrite (Hblocks t). }
  assert (Hs : forall t, includes (enabledInlineStylesOf inlineStyles) t
                         = includes (enabledInlineStylesOf inlineStyles') t).
  { by apply includes_same. }
  assert (He : forall t,
            includes (enabledEntityTypesOf enableHorizontalRule entityTypes) t
            = includes (enabledEntityTypesOf enableHorizontalRule entityTypes')
                t).
  { intros t. apply eq_true_iff_eq. rewrite !includes_enabledEntityTypesOf.
    unfold effectiveEntityType. by rewrite (Hentities t). }
  rewrite !filterEditorState_eq by done.
  assert (Hfirst : forall b,
            firstSteps maxListNesting (enabledBlockTypesOf blockTypes)
              (enabledInlineStylesOf inlineStyles) b
            = firstSteps maxListNesting (enabledBlockTypesOf blockTypes')
                (enabledInlineStylesOf inlineStyles') b).
  { intros b. unfold firstSteps.
    rewrite (demoteType_same _ _ Hb). apply (styleStep_same _ _ Hs). }
  rewrite (omap_map_ext_values
             (firstSteps maxListNesting (enabledBlockTypesOf blockTypes)
                (enabledInlineStylesOf inlineStyles))
             (firstSteps maxListNesting (enabledBlockTypesOf blockTypes')
                (enabledInlineStylesOf inlineStyles'))) by done.
  rewrite (existsb_ext
             (demoted (entityMapOf editorState)
                (enabledEntityTypesOf enableHorizontalRule entityTypes))
             (demoted (entityMapOf editorState)
                (enabledEntityTypesOf enableHorizontalRule entityTypes')))
    by (intros b; apply (demoted_same _ _ He)).
  set (anyDemoted := existsb _ _).
  rewrite (omap_map_ext_values
             (atomicStep (entityMapOf editorState)
                (enabledEntityTypesOf enableHorizontalRule entityTypes)
                anyDemoted)
             (atomicStep (entityMapOf editorState)
                (enabledEntityTypesOf enableHorizontalRule entityTypes')
                anyDemoted))
    by (intros b _; apply (atomicStep_same _ _ He)).
  destruct (_ && _); [|done]. f_equal. f_equal.
  apply omap_map_ext_values. intros b _. unfold pipelineStep.
  rewrite Hfirst, (atomicStep_same _ _ He). apply (entityStep_same _ _ He).
Qed.

Lemma X7_configuration_as_sets_witness :
  OrderedMap.wf (blockMapOf sampleState)
  /\ sameTypes sampleBlockTypes sampleBlockTypesAgain
  /\ sameTypes sampleInlineStyles sampleInlineStylesAgain
  /\ sameTypes sampleEntityTypes sampleEntityTypesAgain
  /\ filterEditorState sampleState 4 true
       sampleBlockTypes sampleInlineStyles sampleEntityTypes
     = filterEditorState sampleState 4 true
         sampleBlockTypesAgain sampleInlineStylesAgain sampleEntityTypesAgain.
Proof.
  assert (Hwf : OrderedMap.wf (blockMapOf sampleState)) by solve_wf.
  assert (Hsame : forall x : string, forall t, t ∈ [x] <-> t ∈ [x; x]).
  { intros x t. rewrite !elem_of_cons, elem_of_nil. tauto. }
  assert (Hb : sameTypes sampleBlockTypes sampleBlockTypesAgain)
    by (intros t; apply Hsame).
  assert (Hs : sameTypes sampleInlineStyles sampleInlineStylesAgain)
    by (intros t; apply Hsame).
  assert (He : sameTypes sampleEntityTypes sampleEntityTypesAgain)
    by (intros t; apply Hsame).
  repeat (split; [assumption|]).
  apply (X7_configuration_as_sets sampleState 4 true
           sampleBlockTypes sampleInlineStyles sampleEntityTypes
           sampleBlockTypesAgain sampleInlineStylesAgain sampleEntityTypesAgain
           Hwf Hb Hs He).
Defined.

(** *** How the filters compose *)

Lemma stage_after_map (editorState : EditorState)
    (f g : ContentBlock -> ContentBlock) :
  setBlockMap
    (setBlockMap editorState (OrderedMap.map f (blockMapOf editorState)))
    (OrderedMap.map g
       (blockMapOf
          (setBlockMap editorState
             (OrderedMap.map f (blockMapOf editorState)))))
  = setBlockMap editorState
      (OrderedMap.map (fun b => g (f b)) (blockMapOf editorState)).
Proof.
  by rewrite blockMapOf_setBlockMap, setBlockMap_setBlockMap, omap_map_map.
Qed.

Lemma setBlockMap_map_ext (editorState : EditorState)
    (f g : ContentBlock -> ContentBlock) :
  (forall b, f b = g b) ->
  setBlockMap editorState (OrderedMap.map f (blockMapOf editorState))
  = setBlockMap editorState (OrderedMap.map g (blockMapOf editorState)).
Proof. intros Hfg. f_equal. by apply omap_map_ext_values. Qed.

Lemma clampDepth_clampDepth (m1 m2 : Z) (block : ContentBlock) :
  clampDepth m2 (clampDepth m1 block) = clampDepth (Z.min m1 m2) block.
Proof.
  unfold clampDepth, setDepth.
  destruct (getDepth block >? m1)%Z eqn:H1; simpl;
    destruct (m1 >? m2)%Z eqn:H12;
    destruct (getDepth block >? m2)%Z eqn:H2;
    destruct (getDepth block >? Z.min m1 m2)%Z eqn:Hmin;
    simpl; try done; try lia; f_equal; lia.
Qed.

(** X8: limiting the depth to [m1] and then to [m2] is limiting it to the
    smaller of the two; in particular [resetBlockDepth] is idempotent. *)
Theorem X8_resetBlockDepth_twice (editorState : EditorState) (m1 m2 : Z) :
  OrderedMap.wf (blockMapOf editorState) ->
  resetBlockDepth (resetBlockDepth editorState m1) m2
  = resetBlockDepth editorState (Z.min m1 m2).
Proof.
  intros Hwf. rewrite (resetBlockDepth_eq editorState m1) by done.
  rewrite resetBlockDepth_eq by (by apply wf_map).
  rewrite stage_after_map, resetBlockDepth_eq by done.
  apply setBlockMap_map_ext. intros b. apply clampDepth_clampDepth.
Qed.

Lemma X8_resetBlockDepth_twice_witness :
  OrderedMap.wf (blockMapOf sampleState)
  /\ resetBlockDepth (resetBlockDepth sampleState 4) 2
     = resetBlockDepth sampleState (Z.min 4 2).
Proof.
  assert (Hwf : OrderedMap.wf (blockMapOf sampleState)) by solve_wf.
  split; [exact Hwf|].
  apply (X8_resetBlockDepth_twice sampleState 4 2 Hwf).
Defined.

Lemma demoteType_demoteType (enabledTypes : list string) (block : ContentBlock) :
  demoteType enabledTypes (demoteType enabledTypes block)
  = demoteType enabledTypes block.
Proof.
  unfold demoteType.
  destruct (includes enabledTypes (getType block)) eqn:Hin; simpl.
  - by rewrite Hin.
  - by destruct (includes enabledTypes BLOCK_TYPE.UNSTYLED).
Qed.

Lemma keepStyles_keepStyles (enabledTypes : list string)
    (char : CharacterMetadata) :
  keepStyles enabledTypes (keepStyles enabledTypes char)
  = keepStyles enabledTypes char.
Proof.
  unfold keepStyles. simpl. f_equal. rewrite filter_filter_list.
  apply List.filter_ext. intros s. by destruct (includes enabledTypes s).
Qed.

Lemma styleStep_styleStep (enabledTypes : list string) (block : ContentBlock) :
  styleStep enabledTypes (styleStep enabledTypes block)
  = styleStep enabledTypes block.
Proof.
  unfold styleStep, setCharacterList. simpl. f_equal.
  rewrite List.map_map. apply List.map_ext. apply keepStyles_keepStyles.
Qed.

Lemma clearChar_clearChar entityMap enabledTypes blockType
    (char : CharacterMetadata) :
  clearChar entityMap enabledTypes blockType
    (clearChar entityMap enabledTypes blockType char)
  = clearChar entityMap enabledTypes blockType char.
Proof.
  unfold clearChar.
  destruct (shouldClear entityMap enabledTypes blockType char) eqn:Hclear.
  - done.
  - by rewrite Hclear.
Qed.

Lemma entityStep_entityStep entityMap enabledTypes (block : ContentBlock) :
  entityStep entityMap enabledTypes (entityStep entityMap enabledTypes block)
  = entityStep entityMap enabledTypes block.
Proof.
  unfold entityStep, setCharacterList. simpl. f_equal.
  rewrite List.map_map. apply List.map_ext. apply clearChar_clearChar.
Qed.

Lemma resolves_clearChar entityMap enabledTypes blockType
    (char : CharacterMetadata) :
  resolves entityMap (getEntity char) = true ->
  resolves entityMap
    (getEntity (clearChar entityMap enabledTypes blockType char)) = true.
Proof. unfold clearChar. by case_match. Qed.

Lemma blockResolves_entityStep entityMap enabledTypes (block : ContentBlock) :
  blockResolves entityMap block = true ->
  blockResolves entityMap (entityStep entityMap enabledTypes block) = true.
Proof.
  unfold blockResolves, entityStep. simpl. rewrite !forallb_forall.
  intros Hall c' Hc'. apply List.in_map_iff in Hc' as (c & <- & Hc).
  apply resolves_clearChar. by apply Hall.
Qed.

(** X9: [resetBlockType], [filterInlineStyle] and [filterEntityType] are
    idempotent: filtering the result of a filter again, with the same enabled
    types, returns it unchanged. *)
Theorem X9_filters_idempotent (editorState : EditorState)
    (enabledTypes : list string) :
  OrderedMap.wf (blockMapOf editorState) ->
  resetBlockType (resetBlockType editorState enabledTypes) enabledTypes
  = resetBlockType editorState enabledTypes
  /\ filterInlineStyle (filterInlineStyle editorState enabledTypes) enabledTypes
     = filterInlineStyle editorState enabledTypes
  /\ onOutput (filterEntityType editorState enabledTypes)
       (fun editorState' =>
          filterEntityType editorState' enabledTypes = Some editorState').
Proof.
  intros Hwf. split; [|split].
  - rewrite (resetBlockType_eq editorState) by done.
    rewrite resetBlockType_eq by (by apply wf_map).
    rewrite stage_after_map.
    apply setBlockMap_map_ext. intros b. apply demoteType_demoteType.
  - rewrite (filterInlineStyle_eq editorState) by done.
    rewrite filterInlineStyle_eq by (by apply wf_map).
    rewrite stage_after_map.
    apply setBlockMap_map_ext. intros b. apply styleStep_styleStep.
  - rewrite (filterEntityType_eq editorState) by done.
    destruct (forallb _ _) eqn:Hall; simpl; [|done].
    rewrite filterEntityType_eq by (by apply wf_map).
    rewrite entityMapOf_setBlockMap, blocksOf_setBlockMap_map.
    rewrite stage_after_map.
    assert (forallb (blockResolves (entityMapOf editorState))
              (List.map (entityStep (entityMapOf editorState) enabledTypes)
                 (blocksOf editorState)) = true) as ->.
    { rewrite forallb_forall in Hall. apply forallb_forall. intros b' Hb'.
      apply List.in_map_iff in Hb' as (b & <- & Hb).
      apply blockResolves_entityStep. by apply Hall. }
    f_equal. apply setBlockMap_map_ext. intros b. apply entityStep_entityStep.
Qed.

Lemma X9_filters_idempotent_witness :
  OrderedMap.wf (blockMapOf sampleState)
  /\ resetBlockType (resetBlockType sampleState ["atomic"]) ["atomic"]
     = resetBlockType sampleState ["atomic"].
Proof.
  assert (Hwf : OrderedMap.wf (blockMapOf sampleState)) by solve_wf.
  split; [exact Hwf|].
  apply (X9_filters_idempotent sampleState ["atomic"] Hwf).
Defined.

Lemma forallb_map_ext {A : Type} (p q : A -> bool) (f : A -> A) (l : list A) :
  (forall x, p (f x) = q x) -> forallb p (List.map f l) = forallb q l.
Proof.
  intros Hpq. induction l as [|x r IH]; simpl; [done|]. by rewrite Hpq, IH.
Qed.

Lemma existsb_map_ext {A : Type} (p q : A -> bool) (f : A -> A) (l : list A) :
  (forall x, p (f x) = q x) -> existsb p (List.map f l) = existsb q l.
Proof.
  intros Hpq. induction l as [|x r IH]; simpl; [done|]. by rewrite Hpq, IH.
Qed.

(** A rewriting of the blocks that the atomic and entity filters do not see:
    it leaves their tests alone and commutes with what they write. *)
Section IndependentStep.
Variable f : ContentBlock -> ContentBlock.
Hypothesis f_atomicResolves :
  forall entityMap b, atomicResolves entityMap (f b) = atomicResolves entityMap b.
Hypothesis f_demoted :
  forall entityMap enabledTypes b,
    demoted entityMap enabledTypes (f b) = demoted entityMap enabledTypes b.
Hypothesis f_atomicStep :
  forall entityMap enabledTypes anyDemoted b,
    atomicStep entityMap enabledTypes anyDemoted (f b)
    = f (atomicStep entityMap enabledTypes anyDemoted b).
Hypothesis f_blockResolves :
  forall entityMap b, blockResolves entityMap (f b) = blockResolves entityMap b.
Hypothesis f_entityStep :
  forall entityMap enabledTypes b,
    entityStep entityMap enabledTypes (f b)
    = f (entityStep entityMap enabledTypes b).

Lemma resetAtomicBlocks_independent (editorState : EditorState)
    (enabledTypes : list string) :
  OrderedMap.wf (blockMapOf editorState) ->
  resetAtomicBlocks
    (setBlockMap editorState (OrderedMap.map f (blockMapOf editorState)))
    enabledTypes
  = option_map
      (fun editorState' =>
         setBlockMap editorState'
           (OrderedMap.map f (blockMapOf editorState')))
      (resetAtomicBlocks editorState enabledTypes).
Proof using f_atomicResolves f_demoted f_atomicStep.
  intros Hwf. rewrite resetAtomicBlocks_eq by (by apply wf_map).
  rewrite (resetAtomicBlocks_eq editorState) by done.
  rewrite entityMapOf_setBlockMap, blocksOf_setBlockMap_map.
  rewrite (forallb_map_ext _ (atomicResolves (entityMapOf editorState)))
    by (intros b; apply f_atomicResolves).
  rewrite (existsb_map_ext _ (demoted (entityMapOf editorState) enabledTypes))
    by (intros b; apply f_demoted).
  destruct (forallb _ _); simpl; [|done]. f_equal.
  rewrite !stage_after_map. apply setBlockMap_map_ext.
  intros b. apply f_atomicStep.
Qed.

Lemma filterEntityType_independent (editorState : EditorState)
    (enabledTypes : list string) :
  OrderedMap.wf (blockMapOf editorState) ->
  filterEntityType
    (setBlockMap editorState (OrderedMap.map f (blockMapOf editorState)))
    enabledTypes
  = option_map
      (fun editorState' =>
         setBlockMap editorState'
           (OrderedMap.map f (blockMapOf editorState')))
      (filterEntityType editorState enabledTypes).
Proof using f_blockResolves f_entityStep.
  intros Hwf. rewrite filterEntityType_eq by (by apply wf_map).
  rewrite (filterEntityType_eq editorState) by done.
  rewrite entityMapOf_setBlockMap, blocksOf_setBlockMap_map.
  rewrite (forallb_map_ext _ (blockResolves (entityMapOf editorState)))
    by (intros b; apply f_blockResolves).
  destruct (forallb _ _); simpl; [|done]. f_equal.
  rewrite !stage_after_map. apply setBlockMap_map_ext.
  intros b. apply f_entityStep.
Qed.
End IndependentStep.

Lemma atomicStep_clampDepth entityMap enabledTypes anyDemoted (m : Z)
    (block : ContentBlock) :
  atomicStep entityMap enabledTypes anyDemoted (clampDepth m block)
  = clampDepth m (atomicStep entityMap enabledTypes anyDemoted block).
Proof.
  assert (Hdepth : getDepth (atomicStep entityMap enabledTypes anyDemoted block)
                   = getDepth block) by (by step_cases).
  unfold clampDepth. rewrite Hdepth.
  destruct (getDepth block >? m)%Z; [|done].
  unfold atomicStep, demoted, normalise, needsNormalising, normaliseBlock,
    isAtomic, getEntityAt. simpl.
  by repeat case_match.
Qed.

Lemma entityStep_clampDepth entityMap enabledTypes (m : Z)
    (block : ContentBlock) :
  entityStep entityMap enabledTypes (clampDepth m block)
  = clampDepth m (entityStep entityMap enabledTypes block).
Proof. unfold clampDepth, entityStep. simpl. by case_match. Qed.

Lemma clearChar_keepStyles entityMap enabledTypes styles blockType
    (char : CharacterMetadata) :
  clearChar entityMap enabledTypes blockType (keepStyles styles char)
  = keepStyles styles (clearChar entityMap enabledTypes blockType char).
Proof.
  unfold clearChar, shouldClear, keepStyles. simpl. by case_match.
Qed.

Lemma entityStep_styleStep entityMap enabledTypes styles
    (block : ContentBlock) :
  entityStep entityMap enabledTypes (styleStep styles block)
  = styleStep styles (entityStep entityMap enabledTypes block).
Proof.
  unfold entityStep, styleStep, setCharacterList. simpl. f_equal.
  rewrite !List.map_map. apply List.map_ext. intros c.
  apply clearChar_keepStyles.
Qed.

Lemma getEntityAt_styleStep styles (block : ContentBlock) :
  getEntityAt 0 (styleStep styles block) = getEntityAt 0 block.
Proof.
  rewrite !getEntityAt_0. unfold styleStep. simpl.
  by destruct (getCharacterList block).
Qed.

Lemma atomicStep_styleStep entityMap enabledTypes anyDemoted styles
    (block : ContentBlock) :
  atomicStep entityMap enabledTypes anyDemoted (styleStep styles block)
  = styleStep styles (atomicStep entityMap enabledTypes anyDemoted block).
Proof.
  assert (Hdemoted : demoted entityMap enabledTypes (styleStep styles block)
                     = demoted entityMap enabledTypes block).
  { unfold demoted. by rewrite getEntityAt_styleStep. }
  assert (Hnormalise : normalise (styleStep styles block)
                       = styleStep styles (normalise block)).
  { unfold normalise, needsNormalising, normaliseBlock, styleStep. simpl.
    case_match; [|done]. simpl.
    unfold mergeTextAndCharacterList, setCharacterList. simpl. f_equal.
    apply List.firstn_map. }
  unfold atomicStep. rewrite Hdemoted, Hnormalise.
  by repeat case_match.
Qed.

Lemma blockResolves_styleStep entityMap styles (block : ContentBlock) :
  blockResolves entityMap (styleStep styles block)
  = blockResolves entityMap block.
Proof.
  unfold blockResolves, styleStep. simpl.
  induction (getCharacterList block) as [|c r IH]; simpl; [done|].
  by rewrite IH.
Qed.

Lemma styleStep_clampDepth styles (m : Z) (block : ContentBlock) :
  styleStep styles (clampDepth m block) = clampDepth m (styleStep styles block).
Proof. unfold clampDepth, styleStep. simpl. by case_match. Qed.

Lemma demoteType_clampDepth enabledTypes (m : Z) (block : ContentBlock) :
  demoteType enabledTypes (clampDepth m block)
  = clampDepth m (demoteType enabledTypes block).
Proof.
  unfold clampDepth, demoteType.
  destruct (getDepth block >? m)%Z eqn:Hdepth;
    destruct (includes enabledTypes (getType block)) eqn:Hin;
    simpl; by rewrite ?Hdepth, ?Hin.
Qed.

Lemma demoteType_styleStep enabledTypes styles (block : ContentBlock) :
  demoteType enabledTypes (styleStep styles block)
  = styleStep styles (demoteType enabledTypes block).
Proof. unfold demoteType, styleStep. simpl. by case_match. Qed.

Lemma demoted_clampDepth entityMap enabledTypes (m : Z) (block : ContentBlock) :
  demoted entityMap enabledTypes (clampDepth m block)
  = demoted entityMap enabledTypes block.
Proof. unfold clampDepth. by case_match. Qed.

(** X10: [resetBlockDepth] and [filterInlineStyle] commute with every other
    filter: the depth limit and the style filter can run at any place of the
    pipeline, before or after any of the other filters, also when these
    raise. *)
Theorem X10_depth_and_style_commute (editorState : EditorState)
    (maxListNesting : Z) (styles enabledTypes : list string) :
  OrderedMap.wf (blockMapOf editorState) ->
  filterInlineStyle (resetBlockDepth editorState maxListNesting) styles
  = resetBlockDepth (filterInlineStyle editorState styles) maxListNesting
  /\ resetBlockType (resetBlockDepth editorState maxListNesting) enabledTypes
     = resetBlockDepth (resetBlockType editorState enabledTypes) maxListNesting
  /\ resetBlockType (filterInlineStyle editorState styles) enabledTypes
     = filterInlineStyle (resetBlockType editorState enabledTypes) styles
  /\ resetAtomicBlocks (resetBlockDepth editorState maxListNesting) enabledTypes
     = option_map (fun editorState' =>
                     resetBlockDepth editorState' maxListNesting)
         (resetAtomicBlocks editorState enabledTypes)
  /\ filterEntityType (resetBlockDepth editorState maxListNesting) enabledTypes
     = option_map (fun editorState' =>
                     resetBlockDepth editorState' maxListNesting)
         (filterEntityType editorState enabledTypes)
  /\ resetAtomicBlocks (filterInlineStyle editorState styles) enabledTypes
     = option_map (fun editorState' => filterInlineStyle editorState' styles)
         (resetAtomicBlocks editorState enabledTypes)
  /\ filterEntityType (filterInlineStyle editorState styles) enabledTypes
     = option_map (fun editorState' => filterInlineStyle editorState' styles)
         (filterEntityType editorState enabledTypes).
Proof.
  intros Hwf.
  assert (Hwf' : forall o : option EditorState,
            onOutput o (fun s => sameKeys editorState s) ->
            onOutput o (fun s => OrderedMap.wf (blockMapOf s))).
  { intros [s|] Hs; [|done]. simpl in *. destruct Hs as [Hkeys _].
    unfold OrderedMap.wf. by rewrite Hkeys. }
  assert (Hatomic : onOutput (resetAtomicBlocks editorState enabledTypes)
                      (fun s => OrderedMap.wf (blockMapOf s))).
  { apply Hwf'. rewrite resetAtomicBlocks_eq by done.
    destruct (forallb _ _); simpl; [|done].
    apply sameKeys_map. intros b. by step_cases. }
  assert (Hentity : onOutput (filterEntityType editorState enabledTypes)
                      (fun s => OrderedMap.wf (blockMapOf s))).
  { apply Hwf'. rewrite filterEntityType_eq by done.
    destruct (forallb _ _); simpl; [|done].
    apply sameKeys_map. intros b. by step_cases. }
  repeat split.
  - rewrite (resetBlockDepth_eq editorState),
      (filterInlineStyle_eq editorState) by done.
    rewrite filterInlineStyle_eq, resetBlockDepth_eq by (by apply wf_map).
    rewrite !stage_after_map. apply setBlockMap_map_ext.
    intros b. apply styleStep_clampDepth.
  - rewrite (resetBlockDepth_eq editorState),
      (resetBlockType_eq editorState) by done.
    rewrite resetBlockType_eq, resetBlockDepth_eq by (by apply wf_map).
    rewrite !stage_after_map. apply setBlockMap_map_ext.
    intros b. apply demoteType_clampDepth.
  - rewrite (filterInlineStyle_eq editorState),
      (resetBlockType_eq editorState) by done.
    rewrite resetBlockType_eq, filterInlineStyle_eq by (by apply wf_map).
    rewrite !stage_after_map. apply setBlockMap_map_ext.
    intros b. apply demoteType_styleStep.
  - rewrite (resetBlockDepth_eq editorState) by done.
    rewrite (resetAtomicBlocks_independent (clampDepth maxListNesting));
      [| |intros; by rewrite demoted_clampDepth
         |intros; apply atomicStep_clampDepth|done].
    + destruct (resetAtomicBlocks editorState enabledTypes) as [s|];
        simpl in *; [|done].
      by rewrite resetBlockDepth_eq.
    + intros em b. unfold clampDepth. by case_match.
  - rewrite (resetBlockDepth_eq editorState) by done.
    rewrite (filterEntityType_independent (clampDepth maxListNesting));
      [| |intros; apply entityStep_clampDepth|done].
    + destruct (filterEntityType editorState enabledTypes) as [s|];
        simpl in *; [|done].
      by rewrite resetBlockDepth_eq.
    + intros em b. unfold clampDepth. by case_match.
  - rewrite (filterInlineStyle_eq editorState) by done.
    rewrite (resetAtomicBlocks_independent (styleStep styles));
      [| |intros; unfold demoted; by rewrite getEntityAt_styleStep
         |intros; apply atomicStep_styleStep|done].
    + destruct (resetAtomicBlocks editorState enabledTypes) as [s|];
        simpl in *; [|done].
      by rewrite filterInlineStyle_eq.
    + intros em b. unfold atomicResolves. by rewrite getEntityAt_styleStep.
  - rewrite (filterInlineStyle_eq editorState) by done.
    rewrite (filterEntityType_independent (styleStep styles));
      [|intros; apply blockResolves_styleStep
       |intros; apply entityStep_styleStep|done].
    destruct (filterEntityType editorState enabledTypes) as [s|];
      simpl in *; [|done].
    by rewrite filterInlineStyle_eq.
Qed.

Lemma X10_depth_and_style_commute_witness :
  OrderedMap.wf (blockMapOf sampleState)
  /\ filterInlineStyle (resetBlockDepth sampleState 4) ["BOLD"]
     = resetBlockDepth (filterInlineStyle sampleState ["BOLD"]) 4.
Proof.
  assert (Hwf : OrderedMap.wf (blockMapOf sampleState)) by solve_wf.
  split; [exact Hwf|].
  apply (X10_depth_and_style_commute sampleState 4 ["BOLD"] ["IMAGE"] Hwf).
Defined.

(** *** The demotion of atomic blocks *)

Lemma demoted_true_iff entityMap enabledTypes (block : ContentBlock) :
  demoted entityMap enabledTypes block = true
  <-> demotable entityMap enabledTypes block.
Proof.
  unfold demoted, demotable. rewrite andb_true_iff, isAtomic_true.
  rewrite getEntityAt_0. unfold disabledEntity, references, carriesKey.
  split.
  - intros [Hat Hdisabled]. split; [done|].
    destruct (getCharacterList block) as [|c r]; [done|].
    destruct (getEntity c) as [k|] eqn:Hk; [|done].
    apply andb_true_iff in Hdisabled as [Htruthy Hentity].
    destruct (entityMap !! k) as [entity|] eqn:Hlookup; [|done].
    exists c, entity. split; [done|]. split.
    + exists k. repeat split; [done| |done].
      intros ->. by simpl in Htruthy.
    + intros Hin. apply includes_true in Hin. by rewrite Hin in Hentity.
  - intros [Hat (c & entity & Hhead & (k & [Hk Hne] & Hlookup) & Hnot)].
    split; [done|].
    destruct (getCharacterList block) as [|c0 r]; [done|].
    injection Hhead as ->. rewrite Hk, truthy_Some, Hlookup by done. simpl.
    apply negb_true_iff, not_true_is_false. intros Hin.
    by apply Hnot, includes_true.
Qed.

Lemma demoted_false_iff entityMap enabledTypes (block : ContentBlock) :
  demoted entityMap enabledTypes block = false
  <-> ~ demotable entityMap enabledTypes block.
Proof.
  rewrite <- demoted_true_iff.
  destruct (demoted entityMap enabledTypes block); split; done.
Qed.

Lemma existsb_true_Exists {A : Type} (p : A -> bool) (l : list A) :
  existsb p l = true <-> Exists (fun x => p x = true) l.
Proof.
  induction l as [|x r IH]; simpl.
  - split; [done|]. intros H. by apply Exists_nil in H.
  - rewrite Exists_cons, orb_true_iff, IH. done.
Qed.

(** X11: [resetAtomicBlocks] resets to unstyled exactly the atomic blocks
    whose first character references an entity of a type that is not enabled,
    and returns them with the placeholder as text; an atomic block without
    entity keeps its type.  When it demotes some block, it returns every other
    block as it was given, also the atomic blocks whose text is not the
    placeholder. *)
Theorem X11_resetAtomicBlocks_demotion (editorState editorState' : EditorState)
    (enabledTypes : list string) :
  OrderedMap.wf (blockMapOf editorState) ->
  resetAtomicBlocks editorState enabledTypes = Some editorState' ->
  Forall2 (fun b b' =>
    (demotable (entityMapOf editorState) enabledTypes b ->
     getType b' = BLOCK_TYPE.UNSTYLED
     /\ getText b' = " "
     /\ getCharacterList b'
        = (if String.eqb (getText b) " "
           then getCharacterList b else firstn 1 (getCharacterList b))
     /\ getKey b' = getKey b /\ getDepth b' = getDepth b
     /\ getData b' = getData b)
    /\ (~ demotable (entityMapOf editorState) enabledTypes b ->
        getType b' = getType b)
    /\ (~ demotable (entityMapOf editorState) enabledTypes b ->
        Exists (demotable (entityMapOf editorState) enabledTypes)
          (blocksOf editorState) ->
        b' = b))
    (blocksOf editorState) (blocksOf editorState').
Proof.
  intros Hwf Hrun. rewrite resetAtomicBlocks_eq in Hrun by done.
  destruct (forallb _ _); [|done]. injection Hrun as <-.
  rewrite blocksOf_setBlockMap_map. apply Forall2_map_intro. intros b Hb.
  set (anyDemoted := existsb _ _). split; [|split].
  - intros Hdemotable.
    assert (Hdemoted : demoted (entityMapOf editorState) enabledTypes b = true)
      by (by apply demoted_true_iff).
    assert (anyDemoted = true) as ->.
    { apply existsb_exists. exists b. split; [by apply list_elem_of_In|done]. }
    unfold atomicStep. rewrite Hdemoted.
    destruct Hdemotable as [Hat _].
    unfold normalise, needsNormalising, normaliseBlock.
    rewrite Hat, String.eqb_refl. simpl.
    destruct (String.eqb_spec (getText b) " ") as [Htext|Htext]; simpl; done.
  - intros Hnot. apply demoted_false_iff in Hnot.
    unfold atomicStep. rewrite Hnot. destruct anyDemoted; [done|].
    unfold normalise. by case_match.
  - intros Hnot Hex. apply demoted_false_iff in Hnot.
    assert (anyDemoted = true) as ->.
    { apply existsb_true_Exists. eapply Exists_impl; [exact Hex|].
      intros b0 Hb0. by apply demoted_true_iff. }
    unfold atomicStep. by rewrite Hnot.
Qed.

Lemma X11_resetAtomicBlocks_demotion_witness :
  OrderedMap.wf (blockMapOf mixedAtomicState)
  /\ resetAtomicBlocks mixedAtomicState [] = Some mixedAtomicReset
  /\ Forall2 (fun b b' =>
       ~ demotable (entityMapOf mixedAtomicState) [] b ->
       getType b' = getType b)
       (blocksOf mixedAtomicState) (blocksOf mixedAtomicReset).
Proof.
  assert (Hwf : OrderedMap.wf (blockMapOf mixedAtomicState)) by solve_wf.
  assert (Hrun : resetAtomicBlocks mixedAtomicState [] = Some mixedAtomicReset)
    by (vm_compute; reflexivity).
  split; [exact Hwf|]. split; [exact Hrun|].
  eapply Forall2_impl.
  - apply (X11_resetAtomicBlocks_demotion mixedAtomicState mixedAtomicReset []
             Hwf Hrun).
  - intros b b' (_ & Htype & _). exact Htype.
Defined.

(** X12: the pipeline turns an atomic block whose first character references
    an entity of a type outside the effective allowed set into an unstyled
    block with the placeholder as text, and clears that reference. *)
Theorem X12_pipeline_demotes_disabled_atomic
    (editorState editorState' : EditorState)
    (maxListNesting : Z) (enableHorizontalRule : bool)
    (blockTypes inlineStyles entityTypes : list TypeDescriptor) :
  OrderedMap.wf (blockMapOf editorState) ->
  filterEditorState editorState maxListNesting enableHorizontalRule
    blockTypes inlineStyles entityTypes = Some editorState' ->
  Forall2 (fun b b' =>
    demotable (entityMapOf editorState)
      (enabledEntityTypesOf enableHorizontalRule entityTypes) b ->
    getType b' = BLOCK_TYPE.UNSTYLED
    /\ getText b' = " "
    /\ exists c', head (getCharacterList b') = Some c'
                  /\ getEntity c' = None)
    (blocksOf editorState) (blocksOf editorState').
Proof.
  intros Hwf Hrun. apply filterEditorState_Some in Hrun as [-> _]; [|done].
  rewrite blocksOf_setBlockMap_map. apply Forall2_map_intro.
  intros b Hb Hdemotable.
  set (entityMap := entityMapOf editorState) in *.
  set (enabledEntityTypes :=
         enabledEntityTypesOf enableHorizontalRule entityTypes) in *.
  set (styled := firstSteps maxListNesting (enabledBlockTypesOf blockTypes)
                   (enabledInlineStylesOf inlineStyles)).
  assert (Hdemoted : demoted entityMap enabledEntityTypes (styled b) = true).
  { unfold styled. rewrite demoted_firstSteps. by apply demoted_true_iff. }
  assert (existsb (demoted entityMap enabledEntityTypes)
            (List.map styled (blocksOf editorState)) = true) as ->.
  { apply existsb_exists. exists (styled b). split; [|done].
    apply List.in_map. by apply list_elem_of_In. }
  unfold pipelineStep. fold styled. unfold atomicStep. rewrite Hdemoted.
  destruct Hdemotable
    as [Hat (c & entity & Hhead & (k & [Hk Hne] & Hlookup) & Hnot)].
  assert (Hstyled : getType (styled b) = BLOCK_TYPE.ATOMIC)
    by (by apply getType_firstSteps_atomic).
  assert (Hchars : getCharacterList (styled b)
                   = List.map (keepStyles (enabledInlineStylesOf inlineStyles))
                       (getCharacterList b))
    by apply getCharacterList_firstSteps.
  generalize dependent (styled b). intros sb _ Hsb Hchars.
  unfold entityStep, normalise, needsNormalising, normaliseBlock.
  rewrite Hsb, String.eqb_refl. simpl.
  destruct (getCharacterList b) as [|c0 r] eqn:Hb0; [done|].
  injection Hhead as ->. simpl in Hchars.
  assert (Hclear : forall blockType,
            getEntity
              (clearChar entityMap enabledEntityTypes blockType
                 (keepStyles (enabledInlineStylesOf inlineStyles) c)) = None).
  { intros blockType.
    assert (includes enabledEntityTypes (entityType entity) = false) as Hin.
    { apply not_true_is_false. intros Hin. by apply Hnot, includes_true. }
    unfold clearChar, shouldClear, keepStyles. cbn [getEntity].
    rewrite Hk, truthy_Some, Hlookup, Hin by done. done. }
  destruct (String.eqb_spec (getText sb) " ") as [Htext|Htext]; simpl;
    rewrite Hchars; simpl; (split; [done|]); (split; [done|]);
    eexists; (split; [reflexivity|]); apply Hclear.
Qed.

Lemma X12_pipeline_demotes_disabled_atomic_witness :
  OrderedMap.wf (blockMapOf mixedAtomicState)
  /\ filterEditorState mixedAtomicState 0 false [] [] []
     = Some mixedAtomicOutput
  /\ Forall2 (fun b b' =>
       demotable (entityMapOf mixedAtomicState)
         (enabledEntityTypesOf false []) b ->
       getType b' = BLOCK_TYPE.UNSTYLED
       /\ getText b' = " "
       /\ exists c', head (getCharacterList b') = Some c'
                     /\ getEntity c' = None)
       (blocksOf mixedAtomicState) (blocksOf mixedAtomicOutput).
Proof.
  assert (Hwf : OrderedMap.wf (blockMapOf mixedAtomicState)) by solve_wf.
  assert (Hrun : filterEditorState mixedAtomicState 0 false [] [] []
                 = Some mixedAtomicOutput) by (vm_compute; reflexivity).
  split; [exact Hwf|]. split; [exact Hrun|].
  apply (X12_pipeline_demotes_disabled_atomic mixedAtomicState
           mixedAtomicOutput 0 false [] [] [] Hwf Hrun).
Defined.

(** *** What the pipeline keeps, and what it only removes *)

Lemma length_nonempty (s : string) : s <> "" -> (1 <= String.length s)%nat.
Proof. destruct s; [done|]. simpl. lia. Qed.

Lemma length_pipelineStep entityMap maxListNesting
    (blockTypes : list TypeDescriptor) enabledInlineStyles enabledEntityTypes
    anyDemoted (block : ContentBlock) :
  let block' :=
    pipelineStep entityMap maxListNesting (enabledBlockTypesOf blockTypes)
      enabledInlineStyles enabledEntityTypes anyDemoted block in
  length (getCharacterList block) = String.length (getText block) ->
  (getType block = BLOCK_TYPE.ATOMIC -> getText block <> "") ->
  length (getCharacterList block') = String.length (getText block').
Proof.
  intros block' Hlen Htext. unfold block', pipelineStep.
  set (styled := firstSteps maxListNesting (enabledBlockTypesOf blockTypes)
                   enabledInlineStyles block).
  assert (Hstyled : length (getCharacterList styled)
                    = String.length (getText styled)).
  { unfold styled.
    by rewrite getCharacterList_firstSteps, getText_firstSteps, length_map. }
  assert (Hnonempty : getType styled = BLOCK_TYPE.ATOMIC -> getText styled <> "").
  { unfold styled. rewrite getType_firstSteps_atomic, getText_firstSteps.
    exact Htext. }
  clearbody styled. clear block' Hlen Htext.
  assert (Hnormalise : length (getCharacterList (normalise styled))
                       = String.length (getText (normalise styled))).
  { unfold normalise, needsNormalising, normaliseBlock.
    destruct (String.eqb_spec (getType styled) BLOCK_TYPE.ATOMIC) as [Hat|];
      [|done].
    destruct (String.eqb_spec (getText styled) " "); simpl; [done|].
    rewrite length_take, Hstyled.
    pose proof (length_nonempty _ (Hnonempty Hat)). lia. }
  unfold entityStep. simpl. rewrite length_map.
  unfold atomicStep. by repeat case_match.
Qed.

(** X13: the pipeline keeps the invariant of the blocks, one
    character-metadata entry per position of the text, on every content whose
    atomic blocks have some text. *)
Theorem X13_characters_match_text (editorState editorState' : EditorState)
    (maxListNesting : Z) (enableHorizontalRule : bool)
    (blockTypes inlineStyles entityTypes : list TypeDescriptor) :
  OrderedMap.wf (blockMapOf editorState) ->
  charactersMatchText editorState ->
  Forall (fun block =>
    getType block = BLOCK_TYPE.ATOMIC -> getText block <> "")
    (blocksOf editorState) ->
  filterEditorState editorState maxListNesting enableHorizontalRule
    blockTypes inlineStyles entityTypes = Some editorState' ->
  charactersMatchText editorState'.
Proof.
  unfold charactersMatchText. intros Hwf Hlen Htext Hrun.
  apply filterEditorState_Some in Hrun as [-> _]; [|done].
  rewrite blocksOf_setBlockMap_map. rewrite Forall_forall in Hlen, Htext.
  apply Forall_map_intro. intros b Hb.
  apply length_pipelineStep; [by apply Hlen|by apply Htext].
Qed.

Lemma X13_characters_match_text_witness :
  OrderedMap.wf (blockMapOf sampleState)
  /\ charactersMatchText sampleState
  /\ filterEditorState sampleState 4 true
       sampleBlockTypes sampleInlineStyles sampleEntityTypes = Some sampleOutput
  /\ charactersMatchText sampleOutput.
Proof.
  assert (Hwf : OrderedMap.wf (blockMapOf sampleState)) by solve_wf.
  assert (Hlen : charactersMatchText sampleState).
  { unfold charactersMatchText. simpl. by split_Forall. }
  assert (Htext : Forall (fun block =>
                    getType block = BLOCK_TYPE.ATOMIC -> getText block <> "")
                    (blocksOf sampleState)).
  { simpl. by split_Forall. }
  assert (Hrun : filterEditorState sampleState 4 true
            sampleBlockTypes sampleInlineStyles sampleEntityTypes
          = Some sampleOutput) by (vm_compute; reflexivity).
  split; [exact Hwf|]. split; [exact Hlen|]. split; [exact Hrun|].
  apply (X13_characters_match_text sampleState sampleOutput 4 true
           sampleBlockTypes sampleInlineStyles sampleEntityTypes
           Hwf Hlen Htext Hrun).
Defined.

Lemma reducedChar_step entityMap enabledInlineStyles enabledEntityTypes
    blockType (char : CharacterMetadata) :
  reducedChar char
    (clearChar entityMap enabledEntityTypes blockType
       (keepStyles enabledInlineStyles char)).
Proof.
  split.
  - intros style. rewrite getStyle_clearChar, elem_of_keepStyles. by intros [? _].
  - unfold clearChar. case_match; simpl; [by right|by left].
Qed.

Lemma firstn_length_firstn {A : Type} (n : nat) (l : list A) :
  firstn (length (firstn n l)) l = firstn n l.
Proof.
  revert n. induction l as [|x r IH]; intros [|n]; simpl; try done.
  by rewrite IH.
Qed.

Lemma reducedBlock_pipelineStep entityMap maxListNesting enabledBlockTypes
    enabledInlineStyles enabledEntityTypes anyDemoted (block : ContentBlock) :
  reducedBlock maxListNesting block
    (pipelineStep entityMap maxListNesting enabledBlockTypes
       enabledInlineStyles enabledEntityTypes anyDemoted block).
Proof.
  unfold reducedBlock, pipelineStep.
  set (styled := firstSteps maxListNesting enabledBlockTypes
                   enabledInlineStyles block).
  assert (Hkey : getKey styled = getKey block)
    by (unfold styled; by step_cases).
  assert (Hdata : getData styled = getData block)
    by (unfold styled; by step_cases).
  assert (Hdepth : getDepth styled = Z.min (getDepth block) maxListNesting).
  { unfold styled, firstSteps, styleStep, demoteType, clampDepth.
    destruct (getDepth block >? maxListNesting)%Z eqn:Hgt; simpl;
      case_match; simpl; lia. }
  assert (Htype : getType styled = getType block
                  \/ getType styled = BLOCK_TYPE.UNSTYLED).
  { unfold styled, firstSteps, styleStep, demoteType, clampDepth. simpl.
    repeat case_match; simpl; first [by left | by right]. }
  assert (Htext : getText styled = getText block)
    by apply getText_firstSteps.
  assert (Hchars : getCharacterList styled
                   = List.map (keepStyles enabledInlineStyles)
                       (getCharacterList block))
    by apply getCharacterList_firstSteps.
  assert (Hatomic : getType styled = BLOCK_TYPE.ATOMIC ->
                    getType block = BLOCK_TYPE.ATOMIC).
  { intros Hat. destruct Htype as [<-|Hun]; [done|].
    rewrite Hun in Hat. discriminate. }
  clearbody styled.
  set (reset := atomicStep entityMap enabledEntityTypes anyDemoted styled).
  assert (Hreset : getKey reset = getKey styled
                   /\ getData reset = getData styled
                   /\ getDepth reset = getDepth styled
                   /\ (getType reset = getType styled
                       \/ getType reset = BLOCK_TYPE.UNSTYLED)
                   /\ (getText reset = getText styled
                       \/ (getType styled = BLOCK_TYPE.ATOMIC
                           /\ getText reset = " "))).
  { unfold reset, atomicStep, normalise, needsNormalising, normaliseBlock.
    destruct (String.eqb_spec (getType styled) BLOCK_TYPE.ATOMIC);
      repeat case_match; simpl; repeat split; try done;
      first [by left | by right | right; by split]. }
  destruct Hreset as (Hkey' & Hdata' & Hdepth' & Htype' & Htext').
  destruct (chars_atomicStep_prefix entityMap enabledEntityTypes anyDemoted
              styled) as [n Hn].
  fold reset in Hn.
  unfold entityStep. simpl. rewrite length_map.
  split; [congruence|]. split; [congruence|]. split; [congruence|].
  split; [|split; [|split]].
  - destruct Htype' as [-> | ->]; [done|by right].
  - destruct Htext' as [-> | [Hat ->]]; [left; congruence|right; auto].
  - intros Hblock. unfold reset. rewrite atomicStep_not_atomic.
    + by rewrite Hchars, length_map.
    + intros Hat. by apply Hblock, Hatomic.
  - rewrite Hn, Hchars, List.firstn_map, length_map, firstn_length_firstn.
    rewrite List.map_map. apply Forall2_map_intro. intros c _.
    apply reducedChar_step.
Qed.

(** X14: the pipeline only removes: it returns each block under its key and
    with its data, its depth lowered to the maximum, its type kept or reset to
    unstyled, its text kept or, for an atomic block, replaced by the
    placeholder, and its characters cut to a prefix in which each character
    has lost styles and kept or lost its entity; it never adds a style, an
    entity or a character, and it keeps the number of characters of the blocks
    that are not atomic. *)
Theorem X14_pipeline_only_removes (editorState editorState' : EditorState)
    (maxListNesting : Z) (enableHorizontalRule : bool)
    (blockTypes inlineStyles entityTypes : list TypeDescriptor) :
  OrderedMap.wf (blockMapOf editorState) ->
  filterEditorState editorState maxListNesting enableHorizontalRule
    blockTypes inlineStyles entityTypes = Some editorState' ->
  Forall2 (reducedBlock maxListNesting)
    (blocksOf editorState) (blocksOf editorState').
Proof.
  intros Hwf Hrun. apply filterEditorState_Some in Hrun as [-> _]; [|done].
  rewrite blocksOf_setBlockMap_map. apply Forall2_map_intro.
  intros b _. apply reducedBlock_pipelineStep.
Qed.

Lemma X14_pipeline_only_removes_witness :
  OrderedMap.wf (blockMapOf sampleState)
  /\ filterEditorState sampleState 4 true
       sampleBlockTypes sampleInlineStyles sampleEntityTypes = Some sampleOutput
  /\ Forall2 (reducedBlock 4) (blocksOf sampleState) (blocksOf sampleOutput).
Proof.
  assert (Hwf : OrderedMap.wf (blockMapOf sampleState)) by solve_wf.
  assert (Hrun : filterEditorState sampleState 4 true
            sampleBlockTypes sampleInlineStyles sampleEntityTypes
          = Some sampleOutput) by (vm_compute; reflexivity).
  split; [exact Hwf|]. split; [exact Hrun|].
  apply (X14_pipeline_only_removes sampleState sampleOutput 4 true
           sampleBlockTypes sampleInlineStyles sampleEntityTypes Hwf Hrun).
Defined.

(** *** Calls of [resetAtomicBlocks] *)

Lemma normalise_normalise (block : ContentBlock) :
  normalise (normalise block) = normalise block.
Proof.
  unfold normalise. destruct (needsNormalising block) eqn:Hneeds.
  - assert (needsNormalising (normaliseBlock block) = false) as ->; [|done].
    unfold needsNormalising, normaliseBlock. simpl. apply andb_false_r.
  - by rewrite Hneeds.
Qed.

Lemma demoted_normalise entityMap enabledTypes (block : ContentBlock) :
  demoted entityMap enabledTypes (normalise block)
  = demoted entityMap enabledTypes block.
Proof. unfold demoted. by rewrite isAtomic_normalise, getEntityAt_normalise. Qed.

Lemma atomicResolves_normalise entityMap (block : ContentBlock) :
  atomicResolves entityMap (normalise block) = atomicResolves entityMap block.
Proof.
  unfold atomicResolves. by rewrite isAtomic_normalise, getEntityAt_normalise.
Qed.

Lemma demoted_atomicStep entityMap enabledTypes anyDemoted
    (block : ContentBlock) :
  (anyDemoted = false -> demoted entityMap enabledTypes block = false) ->
  demoted entityMap enabledTypes
    (atomicStep entityMap enabledTypes anyDemoted block) = false.
Proof.
  intros Hnone. unfold atomicStep. destruct anyDemoted.
  - destruct (demoted entityMap enabledTypes block) eqn:Hdemoted; [|done].
    unfold demoted, isAtomic. simpl. done.
  - rewrite demoted_normalise. by apply Hnone.
Qed.

Lemma atomicResolves_atomicStep entityMap enabledTypes anyDemoted
    (block : ContentBlock) :
  atomicResolves entityMap block = true ->
  atomicResolves entityMap
    (atomicStep entityMap enabledTypes anyDemoted block) = true.
Proof.
  intros Hresolves. unfold atomicStep. destruct anyDemoted.
  - destruct (demoted entityMap enabledTypes block); [|done].
    unfold atomicResolves, isAtomic. simpl. done.
  - by rewrite atomicResolves_normalise.
Qed.

(** A content in which [resetAtomicBlocks] finds no block to demote and
    every entity it looks up: it returns the normalised blocks. *)
Lemma resetAtomicBlocks_undemoted (editorState : EditorState)
    (enabledTypes : list string) :
  OrderedMap.wf (blockMapOf editorState) ->
  (forall b, b ∈ blocksOf editorState ->
     demoted (entityMapOf editorState) enabledTypes b = false
     /\ atomicResolves (entityMapOf editorState) b = true) ->
  resetAtomicBlocks editorState enabledTypes
  = Some (setBlockMap editorState
            (OrderedMap.map normalise (blockMapOf editorState))).
Proof.
  intros Hwf Hall. rewrite resetAtomicBlocks_eq by done.
  rewrite existsb_false by (intros b Hb; by apply Hall).
  assert (forallb (atomicResolves (entityMapOf editorState))
            (blocksOf editorState) = true) as ->; [|done].
  apply forallb_forall. intros b Hb. by apply Hall, list_elem_of_In.
Qed.

(** X15: [resetAtomicBlocks] is not idempotent, but the result of a second
    call is a fixed point, and a second call always returns: after it, every
    atomic block has the placeholder as text and none is left to demote. *)
Theorem X15_resetAtomicBlocks_second_call
    (editorState editorState' : EditorState) (enabledTypes : list string) :
  OrderedMap.wf (blockMapOf editorState) ->
  resetAtomicBlocks editorState enabledTypes = Some editorState' ->
  exists editorState'',
    resetAtomicBlocks editorState' enabledTypes = Some editorState''
    /\ resetAtomicBlocks editorState'' enabledTypes = Some editorState''
    /\ Forall (fun block =>
         getType block = BLOCK_TYPE.ATOMIC -> getText block = " ")
         (blocksOf editorState'').
Proof.
  intros Hwf Hrun. rewrite resetAtomicBlocks_eq in Hrun by done.
  destruct (forallb _ _) eqn:Hresolves; [|done]. injection Hrun as <-.
  set (entityMap := entityMapOf editorState) in *.
  set (anyDemoted := existsb _ _).
  set (step := atomicStep entityMap enabledTypes anyDemoted).
  rewrite forallb_forall in Hresolves.
  assert (Hstep : forall b, b ∈ blocksOf editorState ->
            demoted entityMap enabledTypes (step b) = false
            /\ atomicResolves entityMap (step b) = true).
  { intros b Hb. split.
    - apply demoted_atomicStep. intros Hnone.
      apply not_true_is_false. intros Hdemoted.
      assert (anyDemoted = true); [|congruence].
      apply existsb_exists. exists b. split; [by apply list_elem_of_In|done].
    - apply atomicResolves_atomicStep, Hresolves. by apply list_elem_of_In. }
  exists (setBlockMap editorState
            (OrderedMap.map (fun b => normalise (step b))
               (blockMapOf editorState))).
  split; [|split].
  - rewrite resetAtomicBlocks_undemoted.
    + by rewrite stage_after_map.
    + by apply wf_map.
    + rewrite entityMapOf_setBlockMap, blocksOf_setBlockMap_map.
      intros b' Hb'.
      apply list_elem_of_In, List.in_map_iff in Hb' as (b & <- & Hb).
      by apply Hstep, list_elem_of_In.
  - rewrite resetAtomicBlocks_undemoted.
    + rewrite stage_after_map. f_equal. apply setBlockMap_map_ext.
      intros b. apply normalise_normalise.
    + by apply wf_map.
    + rewrite entityMapOf_setBlockMap, blocksOf_setBlockMap_map.
      intros b' Hb'.
      apply list_elem_of_In, List.in_map_iff in Hb' as (b & <- & Hb).
      rewrite demoted_normalise, atomicResolves_normalise.
      by apply Hstep, list_elem_of_In.
  - rewrite blocksOf_setBlockMap_map. apply Forall_map_intro.
    intros b _. unfold normalise, needsNormalising, normaliseBlock.
    destruct (String.eqb_spec (getType (step b)) BLOCK_TYPE.ATOMIC);
      destruct (String.eqb_spec (getText (step b)) " "); simpl; done.
Qed.

Lemma X15_resetAtomicBlocks_second_call_witness :
  OrderedMap.wf (blockMapOf mixedAtomicState)
  /\ resetAtomicBlocks mixedAtomicState [] = Some mixedAtomicReset
  /\ resetAtomicBlocks mixedAtomicReset [] = Some mixedAtomicResetTwice
  /\ mixedAtomicResetTwice <> mixedAtomicReset
  /\ exists editorState'',
       resetAtomicBlocks mixedAtomicReset [] = Some editorState''
       /\ resetAtomicBlocks editorState'' [] = Some editorState''
       /\ Forall (fun block =>
            getType block = BLOCK_TYPE.ATOMIC -> getText block = " ")
            (blocksOf editorState'').
Proof.
  assert (Hwf : OrderedMap.wf (blockMapOf mixedAtomicState)) by solve_wf.
  assert (Hrun : resetAtomicBlocks mixedAtomicState [] = Some mixedAtomicReset)
    by (vm_compute; reflexivity).
  split; [exact Hwf|]. split; [exact Hrun|].
  split; [vm_compute; reflexivity|]. split.
  { intros Heq. apply (f_equal blocksOf) in Heq. simpl in Heq. discriminate. }
  apply (X15_resetAtomicBlocks_second_call mixedAtomicState mixedAtomicReset
           [] Hwf Hrun).
Defined.

(** *** Edge configurations *)

(** X16: with no allowed block type, inline style or entity type and without
    the horizontal rule, the pipeline returns plain content: every block is
    unstyled or atomic, and no character has a style or carries an entity
    key. *)
Theorem X16_empty_configuration (editorState editorState' : EditorState)
    (maxListNesting : Z) :
  OrderedMap.wf (blockMapOf editorState) ->
  filterEditorState editorState maxListNesting false [] [] []
  = Some editorState' ->
  Forall (fun block =>
    (getType block = BLOCK_TYPE.UNSTYLED \/ getType block = BLOCK_TYPE.ATOMIC)
    /\ Forall (fun char =>
         getStyle char = [] /\ forall k, ~ carriesKey char k)
         (getCharacterList block))
    (blocksOf editorState').
Proof.
  intros Hwf Hrun.
  destruct (filterEditorState_closed _ _ _ _ _ _ _ Hwf Hrun)
    as (_ & _ & Htype & Hstyles & Hentities & _).
  unfold typeClosure, styleClosure, entityClosure in *.
  rewrite Forall_forall in Htype, Hstyles, Hentities.
  apply Forall_forall. intros b Hb. split.
  - destruct (Htype b Hb) as [Hin|Hallowed]; [|done].
    by apply elem_of_nil in Hin.
  - specialize (Hstyles b Hb). specialize (Hentities b Hb).
    rewrite Forall_forall in Hstyles, Hentities.
    apply Forall_forall. intros c Hc. split.
    + destruct (getStyle c) as [|style r] eqn:Hstyle; [done|].
      exfalso. apply (elem_of_nil style). apply (Hstyles c Hc).
      rewrite Hstyle. by left.
    + intros k Hk. destruct (Hentities c Hc k Hk) as (entity & _ & Heff).
      destruct Heff as [Hin|[Hrule _]]; [|done]. by apply elem_of_nil in Hin.
Qed.

Lemma X16_empty_configuration_witness :
  OrderedMap.wf (blockMapOf mixedAtomicState)
  /\ filterEditorState mixedAtomicState 0 false [] [] []
     = Some mixedAtomicOutput
  /\ Forall (fun block =>
       (getType block = BLOCK_TYPE.UNSTYLED \/ getType block = BLOCK_TYPE.ATOMIC)
       /\ Forall (fun char =>
            getStyle char = [] /\ forall k, ~ carriesKey char k)
            (getCharacterList block))
       (blocksOf mixedAtomicOutput).
Proof.
  assert (Hwf : OrderedMap.wf (blockMapOf mixedAtomicState)) by solve_wf.
  assert (Hrun : filterEditorState mixedAtomicState 0 false [] [] []
                 = Some mixedAtomicOutput) by (vm_compute; reflexivity).
  split; [exact Hwf|]. split; [exact Hrun|].
  apply (X16_empty_configuration mixedAtomicState mixedAtomicOutput 0
           Hwf Hrun).
Defined.

(** Two lists of enabled entity types that agree on the types of the
    registered entities. *)
Section SameRegisteredTypes.
Variable entityMap : gmap string DraftEntityInstance.
Variables enabledTypes enabledTypes' : list string.
Hypothesis Hsame :
  forall k entity,
    entityMap !! k = Some entity ->
    includes enabledTypes (entityType entity)
    = includes enabledTypes' (entityType entity).

Lemma demoted_same_registered (block : ContentBlock) :
  demoted entityMap enabledTypes block = demoted entityMap enabledTypes' block.
Proof using Hsame.
  unfold demoted, disabledEntity. f_equal.
  destruct (getEntityAt 0 block) as [k|]; [|done]. f_equal.
  destruct (entityMap !! k) as [entity|] eqn:Hentity; [|done].
  by rewrite (Hsame k entity).
Qed.

Lemma atomicStep_same_registered anyDemoted (block : ContentBlock) :
  atomicStep entityMap enabledTypes anyDemoted block
  = atomicStep entityMap enabledTypes' anyDemoted block.
Proof using Hsame. unfold atomicStep. by rewrite demoted_same_registered. Qed.

Lemma entityStep_same_registered (block : ContentBlock) :
  entityStep entityMap enabledTypes block
  = entityStep entityMap enabledTypes' block.
Proof using Hsame.
  unfold entityStep. f_equal. apply List.map_ext. intros c.
  unfold clearChar, shouldClear. destruct (getEntity c) as [k|]; [|done].
  destruct (entityMap !! k) as [entity|] eqn:Hentity; [|done].
  by rewrite (Hsame k entity).
Qed.
End SameRegisteredTypes.

Lemma includes_app (xs ys : list string) (t : string) :
  includes (xs ++ ys) t = includes xs t || includes ys t.
Proof. unfold includes. apply existsb_app. Qed.

(** X17: the horizontal-rule flag only matters to the entities of the
    horizontal-rule type: on a content whose registry has no such entity, the
    pipeline gives the same result with the flag and without it. *)
Theorem X17_horizontal_rule_flag (editorState : EditorState)
    (maxListNesting : Z)
    (blockTypes inlineStyles entityTypes : list TypeDescriptor) :
  OrderedMap.wf (blockMapOf editorState) ->
  (forall k entity,
     entityMapOf editorState !! k = Some entity ->
     entityType entity <> ENTITY_TYPE.HORIZONTAL_RULE) ->
  filterEditorState editorState maxListNesting true
    blockTypes inlineStyles entityTypes
  = filterEditorState editorState maxListNesting false
      blockTypes inlineStyles entityTypes.
Proof.
  intros Hwf Hrule.
  assert (He : forall k entity,
            entityMapOf editorState !! k = Some entity ->
            includes (enabledEntityTypesOf true entityTypes) (entityType entity)
            = includes (enabledEntityTypesOf false entityTypes)
                (entityType entity)).
  { intros k entity Hentity. unfold enabledEntityTypesOf.
    rewrite includes_app. unfold includes at 2. simpl.
    destruct (String.eqb_spec (entityType entity) ENTITY_TYPE.HORIZONTAL_RULE)
      as [Heq|_]; [by apply Hrule in Hentity|].
    by rewrite !orb_false_r. }
  rewrite !filterEditorState_eq by done.
  rewrite (existsb_ext
             (demoted (entityMapOf editorState)
                (enabledEntityTypesOf true entityTypes))
             (demoted (entityMapOf editorState)
                (enabledEntityTypesOf false entityTypes)))
    by (intros b; apply (demoted_same_registered _ _ _ He)).
  set (anyDemoted := existsb _ _).
  rewrite (omap_map_ext_values
             (atomicStep (entityMapOf editorState)
                (enabledEntityTypesOf true entityTypes) anyDemoted)
             (atomicStep (entityMapOf editorState)
                (enabledEntityTypesOf false entityTypes) anyDemoted))
    by (intros b _; apply (atomicStep_same_registered _ _ _ He)).
  destruct (_ && _); [|done]. f_equal. f_equal.
  apply omap_map_ext_values. intros b _. unfold pipelineStep.
  rewrite (atomicStep_same_registered _ _ _ He).
  apply (entityStep_same_registered _ _ _ He).
Qed.

Lemma X17_horizontal_rule_flag_witness :
  OrderedMap.wf (blockMapOf linkState)
  /\ filterEditorState linkState 0 true [] [] []
     = filterEditorState linkState 0 false [] [] [].
Proof.
  assert (Hwf : OrderedMap.wf (blockMapOf linkState)) by solve_wf.
  split; [exact Hwf|].
  apply (X17_horizontal_rule_flag linkState 0 [] [] [] Hwf).
  intros k entity Hentity. unfold linkState, entityMapOf in Hentity.
  cbn [getEntityMap getCurrentContent] in Hentity.
  apply lookup_insert_Some in Hentity as [[_ <-]|[_ Hentity]]; [done|].
  by rewrite lookup_empty in Hentity.
Defined.
